(** * Code generation service and the [Dto] parameter decorator

    A shallow embedding of [CodegenService] (the existence guard and the
    six file generators) and of the [Dto] parameter decorator of the
    validator package.

    The generators are effectful: they consult and write the file system,
    call the template engine and drive a ts-morph [Project].  They are
    modelled in a state-and-exception monad over a [World] made of

    - the disk, a finite map from absolute paths to file contents.  The
      content of a file is held as the syntax tree that the tree library
      reads in it: the library keeps the text of every node it does not
      touch, so that a tree stands for one text, and a tree that differs
      from another in one node stands for a text that differs in that
      node only.  A text handed to [createSourceFile] becomes a tree
      through [parse];
    - the project, the source files the tree library holds in memory;
    - the trace of the effects performed on the file system and the
      template engine, in order.

    Path joining under the project root, the template engine and the
    tree library's handling of text are parameters of the service: the
    parser, and what the library makes of a text it is asked to splice
    into a tree (the elements an element text consists of, or its refusal
    of a text that does not fit; whether the text printed for an import
    structure is an import declaration). *)

From Stdlib Require Import Ascii.
From stdpp Require Import base option list strings gmap.


(** ** Syntax trees, as far as the generators inspect them *)

(** Array elements are kept as their source text: the generators only ever
    append to an array and never look inside an element. *)
Inductive Expression :=
  | ArrayLiteralExpression (elements : list string)
  | ObjectLiteralExpression (properties : list ObjectLiteralElement)
  | OtherExpression (text : string)
with ObjectLiteralElement :=
  | PropertyAssignment (name : string) (initializer : Expression)
  | ShorthandPropertyAssignment (name : string)
  | MethodDeclaration (name : string) (text : string)
  | SpreadAssignment (text : string).

Record Decorator := mkDecorator {
  decoratorName : string;
  getArguments : list Expression;
}.

Record ImportDeclarationStructure := mkImport {
  defaultImport : option string;
  namedImports : list string;
  moduleSpecifier : string;
}.

Inductive Statement :=
  | ImportDeclaration (structure : ImportDeclarationStructure)
  | ExportAssignment (isExportEquals : bool) (expression : Expression)
  | ClassDeclaration (name : option string) (decorators : list Decorator)
      (body : string)
  | MultiLineCommentTrivia (text : string)
  | OtherStatement (text : string).

(** A source file is the list of its top-level statements (comments
    included, as in ts-morph's statements-with-comments view). *)
Abbreviation SourceFile := (list Statement).

(** ** The world the generators run in *)

Inductive FsEvent :=
  | ExistsSync (p : string)
  | RenderAsync (template : string)
  | ReadFile (p : string)
  | WriteFile (p : string).

Record World := mkWorld {
  disk : gmap string SourceFile;
  project : gmap string SourceFile;
  trace : list FsEvent;
}.

Inductive Exn :=
  | Error (message : string)
  | RenderError (template : string)
  | FileNotFoundError (p : string)
  | InvalidOperationError (what : string)
  | ManipulationError (what : string)
  | NotImplementedError (what : string)
  | TypeError (what : string).

Definition Eff (A : Type) : Type := World → (Exn + A) * World.

Definition ret {A} (a : A) : Eff A := λ w, (inr a, w).

Definition throw {A} (e : Exn) : Eff A := λ w, (inl e, w).

Definition bind {A B} (k : A → Eff B) (m : Eff A) : Eff B :=
  λ w, match m w with
       | (inr a, w') => k a w'
       | (inl e, w') => (inl e, w')
       end.

#[export] Instance Eff_ret : MRet Eff := @ret.
#[export] Instance Eff_bind : MBind Eff := @bind.

Definition emit (e : FsEvent) : Eff unit :=
  λ w, (inr tt, mkWorld (disk w) (project w) (trace w ++ [e])).

Definition orThrow {A} (e : Exn) (o : option A) : Eff A :=
  match o with
  | Some a => ret a
  | None => throw e
  end.

(** ** Structural queries of the syntax-tree library *)

Definition isClassNamed (n : string) (st : Statement) : bool :=
  match st with
  | ClassDeclaration (Some m) _ _ => bool_decide (m = n)
  | _ => false
  end.

Definition isDefaultExport (st : Statement) : bool :=
  match st with
  | ExportAssignment isExportEquals _ => negb isExportEquals
  | _ => false
  end.

Definition propertyName (m : ObjectLiteralElement) : option string :=
  match m with
  | PropertyAssignment n _ => Some n
  | ShorthandPropertyAssignment n => Some n
  | MethodDeclaration n _ => Some n
  | SpreadAssignment _ => None
  end.

(** [sourceFile.getClass(name)]: the first top-level class of that name,
    as its position among the statements and its decorators. *)
Definition getClass (sf : SourceFile) (n : string)
  : option (nat * list Decorator) :=
  match list_find (λ st, isClassNamed n st) sf with
  | Some (ci, ClassDeclaration _ ds _) => Some (ci, ds)
  | _ => None
  end.

(** [classDeclaration.getDecorator(name)] *)
Definition getDecorator (ds : list Decorator) (n : string)
  : option (nat * Decorator) :=
  list_find (λ d, decoratorName d = n) ds.

(** [objectLiteral.getProperty(name)]: the first member carrying that name;
    [undefined] when there is none. *)
Definition getProperty (ps : list ObjectLiteralElement) (n : string)
  : option (nat * ObjectLiteralElement) :=
  list_find (λ m, propertyName m = Some n) ps.

(** [sourceFile.getExportAssignment(a => a.isExportEquals() === false)],
    as its position among the statements and its expression. *)
Definition getExportAssignment (sf : SourceFile) : option (nat * Expression) :=
  match list_find (λ st, isDefaultExport st) sf with
  | Some (k, ExportAssignment _ e) => Some (k, e)
  | _ => None
  end.

(** [Node.isPropertyAssignment(node)], on a node that may be [undefined]. *)
Definition isPropertyAssignment (node : option (nat * ObjectLiteralElement))
  : bool :=
  match node with
  | Some (_, PropertyAssignment _ _) => true
  | _ => false
  end.

(** ** Structural mutations *)

(** Where [sourceFile.addImportDeclaration] puts the new import: after the last
    import declaration, or else after the leading block comments. *)
Fixpoint importInsertLoop (sf : SourceFile) (i insertIndex : nat)
    (wasLastComment : bool) : nat :=
  match sf with
  | [] => insertIndex
  | child :: rest =>
      match child with
      | MultiLineCommentTrivia _ =>
          if wasLastComment
          then importInsertLoop rest (S i) (S i) true
          else importInsertLoop rest (S i) insertIndex false
      | ImportDeclaration _ => importInsertLoop rest (S i) (S i) false
      | _ => importInsertLoop rest (S i) insertIndex false
      end
  end.

Definition importInsertIndex (sf : SourceFile) : nat :=
  importInsertLoop sf 0 0 true.

Definition insertAt {A} (i : nat) (x : A) (l : list A) : list A :=
  take i l ++ x :: drop i l.

(** Where position [j] of a list ends up once an element has been
    inserted at position [i]. *)
Definition shifted (i j : nat) : nat := if decide (j < i) then j else S j.

(** The tree once the import declaration is in it. *)
Definition insertImportDeclaration (s : ImportDeclarationStructure)
    (sf : SourceFile) : SourceFile :=
  insertAt (importInsertIndex sf) (ImportDeclaration s) sf.

(** The array literal once new elements stand behind its last one. *)
Definition appendElements (new : list string) (e : Expression) : Expression :=
  match e with
  | ArrayLiteralExpression els => ArrayLiteralExpression (els ++ new)
  | _ => e
  end.

Definition onInitializer (f : Expression → Expression)
    (m : ObjectLiteralElement) : ObjectLiteralElement :=
  match m with
  | PropertyAssignment n i => PropertyAssignment n (f i)
  | _ => m
  end.

Definition onProperties
    (f : list ObjectLiteralElement → list ObjectLiteralElement)
    (e : Expression) : Expression :=
  match e with
  | ObjectLiteralExpression ps => ObjectLiteralExpression (f ps)
  | _ => e
  end.

Definition onArguments (f : list Expression → list Expression)
    (d : Decorator) : Decorator :=
  mkDecorator (decoratorName d) (f (getArguments d)).

Definition onDecorators (f : list Decorator → list Decorator)
    (st : Statement) : Statement :=
  match st with
  | ClassDeclaration n ds b => ClassDeclaration n (f ds) b
  | _ => st
  end.

Definition onExpression (f : Expression → Expression)
    (st : Statement) : Statement :=
  match st with
  | ExportAssignment eq e => ExportAssignment eq (f e)
  | _ => st
  end.

(** A node handle obtained by the queries above: the position of the
    array literal inside its source file.  A mutation through the handle
    rewrites the file's tree in place. *)
Inductive ArrayNode :=
  | ExportedArray (stmt : nat)
  | PropertyArray (cls dec prop : nat).

Definition appendElementsAt (node : ArrayNode) (new : list string)
    (sf : SourceFile) : SourceFile :=
  match node with
  | ExportedArray k => alter (onExpression (appendElements new)) k sf
  | PropertyArray ci di pi =>
      alter (onDecorators (alter (onArguments (alter (onProperties
        (alter (onInitializer (appendElements new)) pi)) 0)) di)) ci sf
  end.

(** ** File system, template engine and project operations *)

Definition getWorld : Eff World := λ w, (inr w, w).

Definition setProject (pr : gmap string SourceFile) : Eff unit :=
  λ w, (inr tt, mkWorld (disk w) pr (trace w)).

Definition writeFile (p : string) (sf : SourceFile) : Eff unit :=
  λ w, (inr tt, mkWorld (<[p := sf]> (disk w)) (project w) (trace w)).

(** [existsSync(p)] *)
Definition existsSync (p : string) : Eff bool :=
  emit (ExistsSync p) ;;
  w ← getWorld;
  mret (bool_decide (is_Some (disk w !! p))).

(** [new Project()]: a project with no source file in it. *)
Definition newProject : Eff unit := setProject ∅.

(** [sourceFile.save()]: the tree held in memory replaces the file. *)
Definition save (p : string) : Eff unit :=
  w ← getWorld;
  sf ← orThrow (InvalidOperationError "source file not in project")
         (project w !! p);
  emit (WriteFile p) ;;
  writeFile p sf.

(** [project.addSourceFileAtPath(p)]: the file already held by the
    project, or else the one read from disk. *)
Definition addSourceFileAtPath (p : string) : Eff string :=
  w ← getWorld;
  match project w !! p with
  | Some _ => mret p
  | None =>
      sf ← orThrow (FileNotFoundError p) (disk w !! p);
      emit (ReadFile p) ;;
      setProject (<[p := sf]> (project w)) ;;
      mret p
  end.

(** The tree behind a source file handle, as the queries see it. *)
Definition getSourceFile (p : string) : Eff SourceFile :=
  w ← getWorld;
  orThrow (InvalidOperationError "source file not in project")
    (project w !! p).

(** A mutation of the tree behind a source file handle. *)
Definition modifySourceFile (p : string) (f : SourceFile → SourceFile)
  : Eff unit :=
  w ← getWorld;
  setProject (alter f p (project w)).

(** [node.asKindOrThrow(SyntaxKind.ObjectLiteralExpression)] *)
Definition asObjectLiteralOrThrow (e : Expression)
  : Eff (list ObjectLiteralElement) :=
  match e with
  | ObjectLiteralExpression ps => mret ps
  | _ => throw (InvalidOperationError "expected ObjectLiteralExpression")
  end.

(** [node.asKindOrThrow(SyntaxKind.ArrayLiteralExpression)] *)
Definition asArrayLiteralOrThrow (e : Expression) : Eff (list string) :=
  match e with
  | ArrayLiteralExpression els => mret els
  | _ => throw (InvalidOperationError "expected ArrayLiteralExpression")
  end.

Definition getClassOrThrow (sf : SourceFile) (n : string)
  : Eff (nat * list Decorator) :=
  orThrow (InvalidOperationError "expected to find class") (getClass sf n).

Definition getDecoratorOrThrow (ds : list Decorator) (n : string)
  : Eff (nat * Decorator) :=
  orThrow (InvalidOperationError "expected to find decorator")
    (getDecorator ds n).

(** A generation request ([options: Record<string, any>]). *)
Record Options := mkOptions {
  filePath : string;
  fileNameWithoutEx : string;
  input : gmap string string;
  repoToken : string;
}.

(** A value computed without touching the world. *)
Definition liftResult {A} (r : Exn + A) : Eff A := λ w, (r, w).

(** A member of the input bag that is handed to the tree library as a
    text: the library fails on [undefined]. *)
Definition definedText (input : gmap string string) (key : string)
  : Exn + string :=
  match input !! key with
  | Some text => inr text
  | None => inl (TypeError (key +:+ " is undefined"))
  end.

Definition textArgument (input : gmap string string) (key : string)
  : Eff string :=
  liftResult (definedText input key).

(** A member of the input bag spliced into a template literal. *)
Definition interpolate (input : gmap string string) (key : string) : string :=
  default "undefined" (input !! key).

(** ** The service *)

Section CodegenService.

(** [join(path, p)]: the absolute path of [p] under the project root.
    [join(path, "app", "module.ts")] is [joinPath "app/module.ts"]. *)
Variable joinPath : string → string.

(** The template engine: the text rendered from a template name and an
    input bag, or a failure. *)
Variable eta : string → gmap string string → option string.

(** The parser of the syntax-tree library. *)
Variable parse : string → SourceFile.

(** What the library makes of a text spliced into an array literal: the
    elements the text consists of once the file is parsed again (one for
    [Foo], two for [A, B]), or nothing when the spliced text does not fit
    the tree (an unterminated string literal, an unbalanced bracket) and
    the library refuses the manipulation. *)
Variable elementsOf : string → option (list string).

(** Whether the text the library prints for an import structure is an
    import declaration: it is not, for one, when a name in it is not an
    identifier. *)
Variable importable : ImportDeclarationStructure → bool.

(** [arrayLiteral.addElement(text)], on the array at [node] of [file]. *)
Definition addElement (file : string) (node : ArrayNode) (text : string)
  : Eff unit :=
  elements ← orThrow (ManipulationError "the inserted text does not fit")
               (elementsOf text);
  modifySourceFile file (appendElementsAt node elements).

(** [sourceFile.addImportDeclaration(structure)] *)
Definition addImportDeclaration (file : string)
    (structure : ImportDeclarationStructure) : Eff unit :=
  if importable structure
  then modifySourceFile file (insertImportDeclaration structure)
  else throw (NotImplementedError "an import declaration was expected").

Definition renderAsync (template : string) (data : gmap string string)
  : Eff string :=
  emit (RenderAsync template) ;;
  orThrow (RenderError template) (eta template data).

(** [project.createSourceFile(p, content, { overwrite: false })] *)
Definition createSourceFile (p content : string) : Eff string :=
  w ← getWorld;
  taken ← (if bool_decide (is_Some (project w !! p)) then mret true
           else existsSync p);
  if (taken : bool)
  then throw (InvalidOperationError "a source file already exists")
  else setProject (<[p := parse content]> (project w)) ;; mret p.

Definition checkIfFileAlreadyExists (filePath : string) : Eff unit :=
  doesFileExists ← existsSync (joinPath filePath);
  if (doesFileExists : bool)
  then throw (Error (filePath +:+ " already exists"))
  else mret tt.

Definition createConfigFile (options : Options) : Eff unit :=
  let filePath := filePath options in
  let fileNameWithoutEx := fileNameWithoutEx options in
  let input := input options in
  checkIfFileAlreadyExists filePath ;;
  content ← renderAsync "config" input;
  newProject ;;
  newFile ← createSourceFile (joinPath filePath) content;
  save newFile ;;
  indexFile ← addSourceFileAtPath (joinPath "config/index.ts");
  addImportDeclaration indexFile
    (mkImport (Some fileNameWithoutEx) [] ("./" +:+ fileNameWithoutEx)) ;;
  sf ← getSourceFile indexFile;
  match getExportAssignment sf with
  | None => mret tt
  | Some (k, exportExpression) =>
      asArrayLiteralOrThrow exportExpression ;;
      addElement indexFile (ExportedArray k) fileNameWithoutEx ;;
      save indexFile
  end.

Definition createController (options : Options) : Eff unit :=
  let input := input options in
  let filePath := filePath options in
  let fileNameWithoutEx := fileNameWithoutEx options in
  checkIfFileAlreadyExists filePath ;;
  newProject ;;
  content ← renderAsync "controller" input;
  newController ← createSourceFile (joinPath filePath) content;
  save newController ;;
  moduleFile ← addSourceFileAtPath (joinPath "app/module.ts");
  sf ← getSourceFile moduleFile;
  '(ci, classDecorators) ← getClassOrThrow sf "AppModule";
  '(di, moduleDecorator) ← getDecoratorOrThrow classDecorators "Module";
  moduleDecoratorArg ← orThrow (TypeError "argument is undefined")
                         (getArguments moduleDecorator !! 0);
  moduleObjectLiteral ← asObjectLiteralOrThrow moduleDecoratorArg;
  match getProperty moduleObjectLiteral "controllers" with
  | Some (pi, PropertyAssignment _ initializer) =>
      asArrayLiteralOrThrow initializer ;;
      element ← textArgument input "controllerName";
      addElement moduleFile (PropertyArray ci di pi) element
  | _ => mret tt
  end ;;
  imported ← textArgument input "controllerName";
  addImportDeclaration moduleFile
    (mkImport None [imported] ("./controllers/" +:+ fileNameWithoutEx)) ;;
  save moduleFile.

Definition createService (options : Options) : Eff unit :=
  let input := input options in
  let filePath := filePath options in
  let fileNameWithoutEx := fileNameWithoutEx options in
  checkIfFileAlreadyExists filePath ;;
  newProject ;;
  content ← renderAsync "service" input;
  newController ← createSourceFile (joinPath filePath) content;
  save newController ;;
  moduleFile ← addSourceFileAtPath (joinPath "app/module.ts");
  sf ← getSourceFile moduleFile;
  '(ci, classDecorators) ← getClassOrThrow sf "AppModule";
  '(di, moduleDecorator) ← getDecoratorOrThrow classDecorators "Module";
  moduleDecoratorArg ← orThrow (TypeError "argument is undefined")
                         (getArguments moduleDecorator !! 0);
  moduleObjectLiteral ← asObjectLiteralOrThrow moduleDecoratorArg;
  match getProperty moduleObjectLiteral "providers" with
  | Some (pi, PropertyAssignment _ initializer) =>
      asArrayLiteralOrThrow initializer ;;
      element ← textArgument input "className";
      addElement moduleFile (PropertyArray ci di pi) element
  | _ => mret tt
  end ;;
  imported ← textArgument input "className";
  addImportDeclaration moduleFile
    (mkImport None [imported] ("./services/" +:+ fileNameWithoutEx)) ;;
  save moduleFile.

Definition createException (options : Options) : Eff unit :=
  let input := input options in
  let filePath := filePath options in
  checkIfFileAlreadyExists filePath ;;
  newProject ;;
  content ← renderAsync "exception" input;
  newException ← createSourceFile (joinPath filePath) content;
  save newException.

Definition createRepo (options : Options) : Eff unit :=
  let input := input options in
  let filePath := filePath options in
  let fileNameWithoutEx := fileNameWithoutEx options in
  let repoToken := repoToken options in
  checkIfFileAlreadyExists filePath ;;
  content ← renderAsync "repositoryDB" input;
  newProject ;;
  newSourceFile ← createSourceFile (joinPath filePath) content;
  save newSourceFile ;;
  moduleFile ← addSourceFileAtPath (joinPath "app/module.ts");
  sf ← getSourceFile moduleFile;
  '(ci, classDecorators) ← getClassOrThrow sf "AppModule";
  '(di, moduleDecorator) ← getDecoratorOrThrow classDecorators "Module";
  moduleDecoratorArg ← orThrow (TypeError "argument is undefined")
                         (getArguments moduleDecorator !! 0);
  moduleObjectLiteral ← asObjectLiteralOrThrow moduleDecoratorArg;
  match getProperty moduleObjectLiteral "providers" with
  | Some (pi, PropertyAssignment _ initializer) =>
      asArrayLiteralOrThrow initializer ;;
      addElement moduleFile (PropertyArray ci di pi)
        ("{ provide: '" +:+ repoToken +:+ "', useClass: "
           +:+ interpolate input "className" +:+ ", }")
  | _ => mret tt
  end ;;
  imported ← textArgument input "className";
  addImportDeclaration moduleFile
    (mkImport None [imported] ("./repositories/" +:+ fileNameWithoutEx)) ;;
  save moduleFile.

Definition createModel (options : Options) : Eff unit :=
  let input := input options in
  let filePath := filePath options in
  checkIfFileAlreadyExists filePath ;;
  newProject ;;
  content ← renderAsync "model" input;
  newController ← createSourceFile (joinPath filePath) content;
  save newController.

End CodegenService.

(** The six artifact kinds, each with its generator. *)
Inductive Kind :=
  | Configuration | Controller | Service | Exception | Repository | Model.

#[export] Instance Kind_eq_dec : EqDecision Kind.
Proof. solve_decision. Defined.

Definition generator (joinPath : string → string)
    (eta : string → gmap string string → option string)
    (parse : string → SourceFile)
    (elementsOf : string → option (list string))
    (importable : ImportDeclarationStructure → bool)
    (kind : Kind) : Options → Eff unit :=
  match kind with
  | Configuration => createConfigFile joinPath eta parse elementsOf importable
  | Controller => createController joinPath eta parse elementsOf importable
  | Service => createService joinPath eta parse elementsOf importable
  | Exception => createException joinPath eta parse
  | Repository => createRepo joinPath eta parse elementsOf importable
  | Model => createModel joinPath eta parse
  end.

(** The template each kind renders. *)
Definition templateName (kind : Kind) : string :=
  match kind with
  | Configuration => "config"
  | Controller => "controller"
  | Service => "service"
  | Exception => "exception"
  | Repository => "repositoryDB"
  | Model => "model"
  end.


(** The world left by a generation that has written its new file and
    nothing else: the file is on disk, the project holds that one tree, and
    the effects were the guard, the rendering, the second existence check
    of the non-overwriting creation, and the write. *)
Definition newFileWorld (joinPath : string → string)
    (parse : string → SourceFile) (kind : Kind) (options : Options)
    (content : string) (w : World) : World :=
  let p := joinPath (filePath options) in
  mkWorld (<[p := parse content]> (disk w)) {[p := parse content]}
    (trace w ++ [ExistsSync p; RenderAsync (templateName kind);
                 ExistsSync p; WriteFile p]).

(** The world after a registration that loaded the registry file from
    disk, left tree [sf'] in memory and saved it. *)
Definition registeredWorld (rp : string) (sf' : SourceFile) (w : World)
  : World :=
  mkWorld (<[rp := sf']> (disk w)) (<[rp := sf']> (project w))
    (trace w ++ [ReadFile rp; WriteFile rp]).

(** The registration steps of [createController], [createService] and
    [createRepo], which the three generators repeat word for word: they
    differ in the property key, the element text, the imported name and
    the module specifier.  First the steps on the module file once it is
    in the project, then the whole. *)
Definition registerInModuleFile
    (elementsOf : string → option (list string))
    (importable : ImportDeclarationStructure → bool)
    (moduleFile key : string)
    (element imported : Exn + string) (specifier : string) : Eff unit :=
  sf ← getSourceFile moduleFile;
  '(ci, classDecorators) ← getClassOrThrow sf "AppModule";
  '(di, moduleDecorator) ← getDecoratorOrThrow classDecorators "Module";
  moduleDecoratorArg ← orThrow (TypeError "argument is undefined")
                         (getArguments moduleDecorator !! 0);
  moduleObjectLiteral ← asObjectLiteralOrThrow moduleDecoratorArg;
  match getProperty moduleObjectLiteral key with
  | Some (pi, PropertyAssignment _ initializer) =>
      asArrayLiteralOrThrow initializer ;;
      element ← liftResult element;
      addElement elementsOf moduleFile (PropertyArray ci di pi) element
  | _ => mret tt
  end ;;
  imported ← liftResult imported;
  addImportDeclaration importable moduleFile
    (mkImport None [imported] specifier) ;;
  save moduleFile.

Definition registerInModule
    (elementsOf : string → option (list string))
    (importable : ImportDeclarationStructure → bool)
    (modulePath key : string)
    (element imported : Exn + string) (specifier : string) : Eff unit :=
  moduleFile ← addSourceFileAtPath modulePath;
  registerInModuleFile elementsOf importable moduleFile key element imported
    specifier.

(** The registration steps of [createConfigFile]: on the index file once
    it is in the project, then the whole. *)
Definition registerInIndexFile
    (elementsOf : string → option (list string))
    (importable : ImportDeclarationStructure → bool)
    (indexFile fileNameWithoutEx : string) : Eff unit :=
  addImportDeclaration importable indexFile
    (mkImport (Some fileNameWithoutEx) [] ("./" +:+ fileNameWithoutEx)) ;;
  sf ← getSourceFile indexFile;
  match getExportAssignment sf with
  | None => mret tt
  | Some (k, exportExpression) =>
      asArrayLiteralOrThrow exportExpression ;;
      addElement elementsOf indexFile (ExportedArray k) fileNameWithoutEx ;;
      save indexFile
  end.

Definition registerInIndex
    (elementsOf : string → option (list string))
    (importable : ImportDeclarationStructure → bool)
    (indexPath fileNameWithoutEx : string) : Eff unit :=
  indexFile ← addSourceFileAtPath indexPath;
  registerInIndexFile elementsOf importable indexFile fileNameWithoutEx.

(** The kinds registered in the application module. *)
Definition isModuleKind (kind : Kind) : bool :=
  match kind with
  | Controller | Service | Repository => true
  | _ => false
  end.

(** What distinguishes the three module generators. *)
Definition propertyKey (kind : Kind) : string :=
  match kind with
  | Controller => "controllers"
  | _ => "providers"
  end.

Definition symbolKey (kind : Kind) : string :=
  match kind with
  | Controller => "controllerName"
  | _ => "className"
  end.

Definition importFolder (kind : Kind) : string :=
  match kind with
  | Controller => "./controllers/"
  | Service => "./services/"
  | _ => "./repositories/"
  end.

Definition providerBinding (repoToken className : string) : string :=
  "{ provide: '" +:+ repoToken +:+ "', useClass: " +:+ className +:+ ", }".

Definition elementText (kind : Kind) (options : Options) : Exn + string :=
  match kind with
  | Repository =>
      inr (providerBinding (repoToken options)
             (interpolate (input options) "className"))
  | _ => definedText (input options) (symbolKey kind)
  end.

(** ** Observations on a registry tree *)

(** The elements of the array the module generators append to: the
    initializer of property [key] in the first argument of the [Module]
    decorator of class [AppModule], when the tree has that shape. *)
Definition moduleArray (key : string) (sf : SourceFile)
  : option (list string) :=
  '(ci, ds) ← getClass sf "AppModule";
  '(di, d) ← getDecorator ds "Module";
  arg ← getArguments d !! 0;
  match arg with
  | ObjectLiteralExpression ps =>
      match getProperty ps key with
      | Some (pi, PropertyAssignment _ (ArrayLiteralExpression els)) => Some els
      | _ => None
      end
  | _ => None
  end.

(** The elements of the default-exported array of the configuration
    barrel file, when the tree has that shape. *)
Definition exportedArray (sf : SourceFile) : option (list string) :=
  match getExportAssignment sf with
  | Some (_, ArrayLiteralExpression els) => Some els
  | _ => None
  end.

(** ** What a registration may change in a registry tree *)

(** [sf'] is [sf] with the single statement [st] put in at some position;
    every statement of [sf] is kept, in order. *)
Definition insertedStatement (st : Statement) (sf sf' : SourceFile) : Prop :=
  ∃ i, i ≤ length sf ∧ sf' = take i sf ++ st :: drop i sf.

(** [sf'] is [sf] except that the array literal initialising property
    [key] of the first argument of the [Module] decorator of class
    [AppModule] has the elements [new] behind its former last element. *)
Definition moduleArrayGained (key : string) (new : list string)
    (sf sf' : SourceFile) : Prop :=
  ∃ ci body ds di d ps pi els,
    sf !! ci = Some (ClassDeclaration (Some "AppModule") ds body) ∧
    ds !! di = Some d ∧ decoratorName d = "Module" ∧
    getArguments d !! 0 = Some (ObjectLiteralExpression ps) ∧
    ps !! pi = Some (PropertyAssignment key (ArrayLiteralExpression els)) ∧
    sf' =
      <[ci := ClassDeclaration (Some "AppModule")
         (<[di := mkDecorator "Module"
            (<[0 := ObjectLiteralExpression
               (<[pi := PropertyAssignment key
                          (ArrayLiteralExpression (els ++ new))]> ps)]>
               (getArguments d))]> ds) body]> sf.

(** [sf'] is [sf] except that the default-exported array literal has the
    elements [new] behind its former last element. *)
Definition exportedArrayGained (new : list string) (sf sf' : SourceFile)
  : Prop :=
  ∃ k els,
    sf !! k = Some (ExportAssignment false (ArrayLiteralExpression els)) ∧
    sf' = <[k := ExportAssignment false
                    (ArrayLiteralExpression (els ++ new))]> sf.

(** ** The registry of each registered kind *)

Definition isRegistered (kind : Kind) : bool :=
  match kind with
  | Exception | Model => false
  | _ => true
  end.

Definition registryPath (joinPath : string → string) (kind : Kind) : string :=
  match kind with
  | Configuration => joinPath "config/index.ts"
  | _ => joinPath "app/module.ts"
  end.

(** The array a kind registers into, when the registry has the expected
    shape. *)
Definition registryArray (kind : Kind) (sf : SourceFile)
  : option (list string) :=
  match kind with
  | Configuration => exportedArray sf
  | _ => moduleArray (propertyKey kind) sf
  end.

(** The name of the generated symbol: the file name for a configuration,
    the class named in the input bag for the module kinds. *)
Definition symbolOf (kind : Kind) (options : Options) : option string :=
  match kind with
  | Configuration => Some (fileNameWithoutEx options)
  | _ => input options !! symbolKey kind
  end.

Definition registeredElement (kind : Kind) (options : Options)
    (symbol : string) : string :=
  match kind with
  | Repository => providerBinding (repoToken options) symbol
  | _ => symbol
  end.

Definition registeredImport (kind : Kind) (options : Options)
    (symbol : string) : ImportDeclarationStructure :=
  match kind with
  | Configuration => mkImport (Some symbol) [] ("./" +:+ symbol)
  | _ =>
      mkImport None [symbol] (importFolder kind +:+ fileNameWithoutEx options)
  end.

Definition arrayGained (kind : Kind) (new : list string)
    (sf sf' : SourceFile) : Prop :=
  match kind with
  | Configuration => exportedArrayGained new sf sf'
  | _ => moduleArrayGained (propertyKey kind) new sf sf'
  end.

(** ** Generations in sequence *)

(** Requests served one after the other; the first failure ends the run. *)
Fixpoint generateAll (joinPath : string → string)
    (eta : string → gmap string string → option string)
    (parse : string → SourceFile)
    (elementsOf : string → option (list string))
    (importable : ImportDeclarationStructure → bool)
    (requests : list (Kind * Options)) : Eff unit :=
  match requests with
  | [] => mret tt
  | (kind, options) :: rest =>
      generator joinPath eta parse elementsOf importable kind options ;;
      generateAll joinPath eta parse elementsOf importable rest
  end.

(** Two kinds register into the same array: the exported array of the
    barrel file, the [controllers] array, or the [providers] array. *)
Definition sameArray (kind target : Kind) : bool :=
  match kind, target with
  | Configuration, Configuration => true
  | Controller, Controller => true
  | (Service | Repository), (Service | Repository) => true
  | _, _ => false
  end.

(** The element text a request hands to [addElement]. *)
Definition elementOf (request : Kind * Options) : string :=
  let '(kind, options) := request in
  match kind with
  | Configuration => fileNameWithoutEx options
  | Repository =>
      providerBinding (repoToken options)
        (interpolate (input options) "className")
  | _ => interpolate (input options) (symbolKey kind)
  end.

(** The elements a successful request appends to the array of kind
    [target]: those its element text consists of, when it registers into
    that array. *)
Definition appendedBy (elementsOf : string → option (list string))
    (target : Kind) (request : Kind * Options) : list string :=
  if sameArray request.1 target
  then default [] (elementsOf (elementOf request))
  else [].

(** The elements that a run of requests registers into the array of kind
    [target], in the order of the requests. *)
Definition registeredInto (elementsOf : string → option (list string))
    (target : Kind) (requests : list (Kind * Options)) : list string :=
  requests ≫= appendedBy elementsOf target.

(** ** The common shape of the six generators *)

(** What a generator does once its new file is written: the registration
    steps of its kind, and nothing for the exception and model kinds. *)
Definition registration (joinPath : string → string)
    (elementsOf : string → option (list string))
    (importable : ImportDeclarationStructure → bool)
    (kind : Kind) (options : Options) : Eff unit :=
  match kind with
  | Configuration =>
      registerInIndex elementsOf importable (joinPath "config/index.ts")
        (fileNameWithoutEx options)
  | Exception | Model => mret tt
  | _ =>
      registerInModule elementsOf importable (joinPath "app/module.ts")
        (propertyKey kind)
        (elementText kind options)
        (definedText (input options) (symbolKey kind))
        (importFolder kind +:+ fileNameWithoutEx options)
  end.

(** The project at the moment the template is rendered: [createConfigFile]
    and [createRepo] render before they create their project. *)
Definition projectAtRender (kind : Kind) (w : World)
  : gmap string SourceFile :=
  match kind with
  | Configuration | Repository => project w
  | _ => ∅
  end.

(** The effects a generation of [kind] for [options] may perform after
    the existence check of its guard. *)
Definition allowedEffect (joinPath : string → string) (kind : Kind)
    (options : Options) (ev : FsEvent) : Prop :=
  ev = RenderAsync (templateName kind) ∨
  ev = ExistsSync (joinPath (filePath options)) ∨
  ev = WriteFile (joinPath (filePath options)) ∨
  isRegistered kind = true ∧
    (ev = ReadFile (registryPath joinPath kind) ∨
     ev = WriteFile (registryPath joinPath kind)).

(** The world once the registry file was read into the project. *)
Definition loadedWorld (rp : string) (sf : SourceFile) (w : World) : World :=
  mkWorld (disk w) (<[rp := sf]> (project w)) (trace w ++ [ReadFile rp]).

(** A world with another project in memory. *)
Definition withProject (pr : gmap string SourceFile) (w : World) : World :=
  mkWorld (disk w) pr (trace w).

(** The import declarations of a source file, in order. *)
Definition importsOf (sf : SourceFile) : list ImportDeclarationStructure :=
  omap (λ st, match st with ImportDeclaration s => Some s | _ => None end) sf.

(** The module file has what the registration of property [key] needs:
    the class, the decorator, an object literal as its first argument, and
    a property [key] that is either assigned an array literal or not a
    property assignment at all. *)
Definition registrable (key : string) (sf : SourceFile) : Prop :=
  ∃ ci ds di d ps,
    getClass sf "AppModule" = Some (ci, ds) ∧
    getDecorator ds "Module" = Some (di, d) ∧
    getArguments d !! 0 = Some (ObjectLiteralExpression ps) ∧
    (isPropertyAssignment (getProperty ps key) = false ∨
     ∃ pi k els,
       getProperty ps key
         = Some (pi, PropertyAssignment k (ArrayLiteralExpression els))).

(** The barrel file has no default export, or exports an array literal. *)
Definition exportsArrayOrNothing (sf : SourceFile) : Prop :=
  match getExportAssignment sf with
  | None => True
  | Some (_, ArrayLiteralExpression _) => True
  | Some _ => False
  end.

(** ** The [Dto] parameter decorator *)

Section Validator.

(** The validated payload ([any] in the source). *)
Variable Payload : Type.

(** The WebSocket client, with the payload the guard stored on it. *)
Record WsClient := mkWsClient { _dto : Payload }.

(** The HTTP request, with the result of its [dto()] method. *)
Record Request := mkRequest { dto : Payload }.

Record WsArgumentsHost := mkWsHost { getClient : WsClient }.

Record HttpArgumentsHost := mkHttpHost { getRequest : Request }.

Record ExecutionContext := mkExecutionContext {
  contextType : string;
  switchToWs : WsArgumentsHost;
  switchToHttp : HttpArgumentsHost;
}.

(** The factory given to [createParamDecorator]. *)
Definition Dto (data : string) (ctx : ExecutionContext) : Payload :=
  if bool_decide (contextType ctx = "ws")
  then _dto (getClient (switchToWs ctx))
  else
    let request := getRequest (switchToHttp ctx) in
    dto request.

End Validator.

Arguments _dto {Payload}.
Arguments dto {Payload}.
Arguments getClient {Payload}.
Arguments getRequest {Payload}.
Arguments contextType {Payload}.
Arguments switchToWs {Payload}.
Arguments switchToHttp {Payload}.
Arguments Dto {Payload}.
Arguments mkWsClient {Payload}.
Arguments mkRequest {Payload}.
Arguments mkWsHost {Payload}.
Arguments mkHttpHost {Payload}.
Arguments mkExecutionContext {Payload}.

(** ** A sample project *)

Module Sample.

Definition joinPath (p : string) : string := "/srv/app/" +:+ p.

Definition eta (template : string) (data : gmap string string)
  : option string :=
  Some ("// rendered from " +:+ template).

Definition parse (text : string) : SourceFile := [OtherStatement text].

(** A stand-in for what the library makes of a spliced text: the pieces
    between the commas that stand outside every quote and bracket, each
    without the blanks around it; nothing when a quote stays open, a
    bracket has no partner or a piece is empty. *)
Definition isQuote (c : Ascii.ascii) : bool :=
  bool_decide (c ∈ ["'"%char; Ascii.ascii_of_nat 34; "`"%char]).

Definition isOpening (c : Ascii.ascii) : bool :=
  bool_decide (c ∈ ["("%char; "["%char; "{"%char]).

Definition isClosing (c : Ascii.ascii) : bool :=
  bool_decide (c ∈ [")"%char; "]"%char; "}"%char]).

Fixpoint splitElements (text : string) (quote : option Ascii.ascii)
    (depth : nat) (piece : string) : option (list string) :=
  match text with
  | EmptyString =>
      match quote, depth with
      | None, 0 => Some [String.rev piece]
      | _, _ => None
      end
  | String c rest =>
      match quote with
      | Some q =>
          splitElements rest (if bool_decide (c = q) then None else quote)
            depth (String c piece)
      | None =>
          if isQuote c then splitElements rest (Some c) depth (String c piece)
          else if isOpening c
          then splitElements rest None (S depth) (String c piece)
          else if isClosing c
          then match depth with
               | 0 => None
               | S depth' => splitElements rest None depth' (String c piece)
               end
          else if bool_decide (c = ","%char) && bool_decide (depth = 0)
          then cons (String.rev piece)
                 <$> splitElements rest None 0 EmptyString
          else splitElements rest None depth (String c piece)
      end
  end.

Fixpoint dropBlanks (text : string) : string :=
  match text with
  | String c rest => if Ascii.is_space c then dropBlanks rest else text
  | EmptyString => EmptyString
  end.

Definition trim (text : string) : string :=
  String.rev (dropBlanks (String.rev (dropBlanks text))).

Definition elementsOf (text : string) : option (list string) :=
  match splitElements text None 0 EmptyString with
  | Some pieces =>
      let elements : list string := trim <$> pieces in
      if bool_decide (EmptyString ∈ elements) then None else Some elements
  | None => None
  end.

(** A stand-in for the import printer and parser: the default import has
    to be an identifier, and each named import has to consist of
    identifiers. *)
Definition isIdentifierStart (c : Ascii.ascii) : bool :=
  let n := Ascii.nat_of_ascii c in
  Nat.leb 65 n && Nat.leb n 90 || Nat.leb 97 n && Nat.leb n 122
  || Nat.eqb n 95 || Nat.eqb n 36.

Definition isIdentifierPart (c : Ascii.ascii) : bool :=
  let n := Ascii.nat_of_ascii c in
  isIdentifierStart c || Nat.leb 48 n && Nat.leb n 57.

Fixpoint allCharacters (f : Ascii.ascii → bool) (text : string) : bool :=
  match text with
  | EmptyString => true
  | String c rest => f c && allCharacters f rest
  end.

Definition isIdentifier (text : string) : bool :=
  match text with
  | EmptyString => false
  | String c rest => isIdentifierStart c && allCharacters isIdentifierPart rest
  end.

Definition isIdentifierList (text : string) : bool :=
  match elementsOf text with
  | Some names => forallb isIdentifier names
  | None => false
  end.

Definition importable (structure : ImportDeclarationStructure) : bool :=
  from_option isIdentifier true (defaultImport structure)
  && forallb isIdentifierList (namedImports structure).

(** The decorator argument of a module with one controller and one
    provider registered. *)
Definition moduleProperties : list ObjectLiteralElement :=
  [PropertyAssignment "imports" (ArrayLiteralExpression []);
   PropertyAssignment "controllers" (ArrayLiteralExpression ["UserController"]);
   PropertyAssignment "providers" (ArrayLiteralExpression ["UserService"])].

Definition moduleDecorator : Decorator :=
  mkDecorator "Module" [ObjectLiteralExpression moduleProperties].

(** [app/module.ts] *)
Definition moduleTree : SourceFile :=
  [ ImportDeclaration (mkImport None ["Module"] "@nestjs/common");
    ImportDeclaration (mkImport None ["UserController"] "./controllers/user");
    ClassDeclaration (Some "AppModule") [moduleDecorator] "{}" ].

(** [@Module({}) export class AppModule {}]: no array to register in. *)
Definition bareDecorator : Decorator :=
  mkDecorator "Module" [ObjectLiteralExpression []].

Definition bareModuleTree : SourceFile :=
  [ ImportDeclaration (mkImport None ["Module"] "@nestjs/common");
    ClassDeclaration (Some "AppModule") [bareDecorator] "{}" ].

(** [@Module({ controllers, providers })]: the properties are there, as
    shorthand properties. *)
Definition shorthandDecorator : Decorator :=
  mkDecorator "Module"
    [ObjectLiteralExpression
       [ShorthandPropertyAssignment "controllers";
        ShorthandPropertyAssignment "providers"]].

Definition shorthandModuleTree : SourceFile :=
  [ ImportDeclaration (mkImport None ["Module"] "@nestjs/common");
    OtherStatement "const controllers = [], providers = [];";
    ClassDeclaration (Some "AppModule") [shorthandDecorator] "{}" ].

(** A module whose arrays are computed by calls instead of being array
    literals. *)
Definition computedProperties : list ObjectLiteralElement :=
  [PropertyAssignment "controllers" (OtherExpression "loadControllers()");
   PropertyAssignment "providers" (OtherExpression "loadProviders()")].

Definition computedDecorator : Decorator :=
  mkDecorator "Module" [ObjectLiteralExpression computedProperties].

Definition computedModuleTree : SourceFile :=
  [ ImportDeclaration (mkImport None ["Module"] "@nestjs/common");
    ClassDeclaration (Some "AppModule") [computedDecorator] "{}" ].

(** [config/index.ts] exporting an array of configurations. *)
Definition indexTree : SourceFile :=
  [ MultiLineCommentTrivia "/* configurations */";
    ImportDeclaration (mkImport (Some "app") [] "./app");
    ExportAssignment false (ArrayLiteralExpression ["app"]) ].

(** [config/index.ts] without a default export. *)
Definition plainIndexTree : SourceFile :=
  [ ImportDeclaration (mkImport (Some "app") [] "./app");
    OtherStatement "export const configs = [app];" ].

Definition worldWith (moduleFile indexFile : SourceFile) : World :=
  mkWorld {[ joinPath "app/module.ts" := moduleFile;
             joinPath "config/index.ts" := indexFile ]} ∅ [].

Definition world : World := worldWith moduleTree indexTree.

Definition bareWorld : World := worldWith bareModuleTree indexTree.

Definition shorthandWorld : World := worldWith shorthandModuleTree indexTree.

Definition computedWorld : World := worldWith computedModuleTree indexTree.

Definition plainIndexWorld : World := worldWith moduleTree plainIndexTree.

Definition widgetController : Options :=
  mkOptions "app/controllers/widget.ts" "widget"
    {[ "controllerName" := "WidgetController" ]} "".

Definition widgetService : Options :=
  mkOptions "app/services/widget.ts" "widget"
    {[ "className" := "WidgetService" ]} "".

Definition widgetRepository : Options :=
  mkOptions "app/repositories/widget.ts" "widget"
    {[ "className" := "WidgetRepository" ]} "WIDGET_REPO".

Definition queueConfig : Options :=
  mkOptions "config/queue.ts" "queue" ∅ "".

Definition widgetException : Options :=
  mkOptions "app/exceptions/widget.ts" "widget"
    {[ "className" := "WidgetException" ]} "".

(** A configuration whose file name is not an identifier. *)
Definition hyphenConfig : Options :=
  mkOptions "config/my-queue.ts" "my-queue" ∅ "".

(** A repository whose token holds a single quote. *)
Definition quotedRepository : Options :=
  mkOptions "app/repositories/widget.ts" "widget"
    {[ "className" := "WidgetRepository" ]} "O'Brien".

(** A service request whose input bag does not name the class. *)
Definition namelessService : Options :=
  mkOptions "app/services/widget.ts" "widget" ∅ "".

(** A controller request that names two symbols at once. *)
Definition pairController : Options :=
  mkOptions "app/controllers/pair.ts" "pair"
    {[ "controllerName" := "LeftController, RightController" ]} "".

(** A request whose target is the module file itself. *)
Definition clashing : Options :=
  mkOptions "app/module.ts" "module"
    {[ "className" := "AppModule"; "controllerName" := "AppModule" ]} "".

(** Four requests of four kinds, in the order they are served. *)
Definition requests : list (Kind * Options) :=
  [ (Controller, widgetController); (Service, widgetService);
    (Configuration, queueConfig); (Repository, widgetRepository) ].

(** A template engine whose templates are missing. *)
Definition brokenEta (template : string) (data : gmap string string)
  : option string := None.

(** A project with neither registry file. *)
Definition emptyWorld : World := mkWorld ∅ ∅ [].

(** [config/index.ts] default-exporting an object instead of an array. *)
Definition objectIndexTree : SourceFile :=
  [ ImportDeclaration (mkImport (Some "app") [] "./app");
    ExportAssignment false (ObjectLiteralExpression
                              [ShorthandPropertyAssignment "app"]) ].

Definition objectIndexWorld : World := worldWith moduleTree objectIndexTree.

(** [app/module.ts] whose class carries no decorator. *)
Definition undecoratedModuleTree : SourceFile :=
  [ ClassDeclaration (Some "AppModule") [] "{}" ].

Definition undecoratedWorld : World :=
  worldWith undecoratedModuleTree indexTree.

(** A service requested at the path of the widget controller. *)
Definition serviceAtControllerPath : Options :=
  mkOptions "app/controllers/widget.ts" "widget"
    {[ "className" := "WidgetService" ]} "".

End Sample.

(** ** Lists: insertion at a position, update in place, first match *)

Section Lists.

Context {A : Type}.
Implicit Types (l : list A) (x y : A) (i j k : nat).

Lemma insertAt_0 x l : insertAt 0 x l = x :: l.
Proof. done. Qed.

Lemma insertAt_S i x y l : insertAt (S i) x (y :: l) = y :: insertAt i x l.
Proof. done. Qed.

Lemma insertAt_nil i x : insertAt i x [] = [x].
Proof. by destruct i. Qed.

Lemma length_insertAt i x l : length (insertAt i x l) = S (length l).
Proof.
  unfold insertAt. rewrite length_app. simpl.
  rewrite length_take, length_drop. lia.
Qed.

Lemma alter_as_insert (f : A → A) i l x :
  l !! i = Some x → alter f i l = <[i := f x]> l.
Proof.
  revert i. induction l as [|y l IH]; intros [|i] H; simplify_eq/=; [done|].
  f_equal. by apply IH.
Qed.

Lemma alter_insertAt (f : A → A) i j x l :
  i ≤ length l →
  alter f (shifted i j) (insertAt i x l) = insertAt i x (alter f j l).
Proof.
  revert i j. induction l as [|y l IH]; intros i j Hi; simpl in Hi.
  - by replace i with 0 by lia.
  - destruct i as [|i]; [done|].
    rewrite insertAt_S. destruct j as [|j]; [done|].
    change (alter f (S j) (y :: l)) with (y :: alter f j l).
    rewrite insertAt_S, <- IH by lia. unfold shifted.
    repeat case_decide; try lia; done.
Qed.

Context (P : A → Prop) `{!∀ x, Decision (P x)}.

Lemma list_find_insertAt i x l :
  ¬ P x →
  list_find P (insertAt i x l) = prod_map (shifted i) id <$> list_find P l.
Proof.
  intros Hx. revert i. induction l as [|y l IH]; intros i.
  - rewrite insertAt_nil. simpl. by rewrite decide_False.
  - destruct i as [|i].
    + rewrite insertAt_0. simpl. rewrite (decide_False (P:=P x)) by done.
      destruct (decide (P y)); [done|].
      destruct (list_find P l) as [[j z]|]; done.
    + rewrite insertAt_S. simpl. destruct (decide (P y)); [done|].
      rewrite IH. destruct (list_find P l) as [[j z]|]; simpl; [|done].
      unfold shifted. repeat case_decide; try lia; done.
Qed.

(** Updating an element by a function that keeps [P] as it is leaves
    the first match where it was. *)
Lemma list_find_alter (f : A → A) i l :
  (∀ x, P (f x) ↔ P x) →
  list_find P (alter f i l) =
    (λ '(j, y), (j, if decide (j = i) then f y else y)) <$> list_find P l.
Proof.
  intros Hf. revert i. induction l as [|y l IH]; intros i; [done|].
  destruct i as [|i]; simpl.
  - destruct (decide (P y)) as [Hy|Hy].
    + rewrite decide_True by (by apply Hf). done.
    + rewrite decide_False by (by rewrite Hf).
      destruct (list_find P l) as [[j z]|]; done.
  - destruct (decide (P y)); [done|].
    change (list_alter f i l) with (alter f i l).
    rewrite IH. destruct (list_find P l) as [[j z]|]; simpl; [|done].
    repeat case_decide; try lia; done.
Qed.

End Lists.

(** ** Queries and mutations on trees *)

Section Trees.

Implicit Types (sf : SourceFile) (s : ImportDeclarationStructure).

Lemma importInsertLoop_le sf i ins b :
  ins ≤ i → importInsertLoop sf i ins b ≤ i + length sf.
Proof.
  revert i ins b. induction sf as [|st sf IH]; intros i ins b Hi; simpl.
  - lia.
  - destruct st; try destruct b;
      (etrans; [apply IH; lia | lia]).
Qed.

Lemma importInsertIndex_le sf : importInsertIndex sf ≤ length sf.
Proof. apply (importInsertLoop_le sf 0 0 true). lia. Qed.

Lemma insertImportDeclaration_inserted s sf :
  insertedStatement (ImportDeclaration s) sf (insertImportDeclaration s sf).
Proof.
  exists (importInsertIndex sf). split; [apply importInsertIndex_le|done].
Qed.

Lemma getClass_Some sf n ci ds :
  getClass sf n = Some (ci, ds) →
  ∃ body, sf !! ci = Some (ClassDeclaration (Some n) ds body).
Proof.
  unfold getClass.
  destruct (list_find _ sf) as [[i st]|] eqn:Hf; [|done].
  apply list_find_Some in Hf as (Hl & HP & _).
  destruct st as [| |[m|] ds' body| |]; try done.
  intros ?; simplify_eq. simpl in HP. apply bool_decide_unpack in HP as ->.
  eauto.
Qed.

Lemma getDecorator_Some ds n di d :
  getDecorator ds n = Some (di, d) → ds !! di = Some d ∧ decoratorName d = n.
Proof. intros (? & ? & _)%list_find_Some. done. Qed.

Lemma getProperty_Some ps key pi m :
  getProperty ps key = Some (pi, m) →
  ps !! pi = Some m ∧ propertyName m = Some key.
Proof. intros (? & ? & _)%list_find_Some. done. Qed.

Lemma getExportAssignment_Some sf k e :
  getExportAssignment sf = Some (k, e) →
  sf !! k = Some (ExportAssignment false e).
Proof.
  unfold getExportAssignment.
  destruct (list_find _ sf) as [[i st]|] eqn:Hf; [|done].
  apply list_find_Some in Hf as (Hl & HP & _).
  destruct st as [|[] e'| | |]; try done. by intros ?; simplify_eq.
Qed.

(** *** Adding an import keeps every query result *)

Lemma getClass_insertImportDeclaration s sf n :
  getClass (insertImportDeclaration s sf) n =
    prod_map (shifted (importInsertIndex sf)) id <$> getClass sf n.
Proof.
  unfold getClass, insertImportDeclaration.
  rewrite list_find_insertAt by (simpl; tauto).
  destruct (list_find _ sf) as [[i [| |? ? ?| |]]|]; done.
Qed.

Lemma getExportAssignment_insertImportDeclaration s sf :
  getExportAssignment (insertImportDeclaration s sf) =
    prod_map (shifted (importInsertIndex sf)) id <$> getExportAssignment sf.
Proof.
  unfold getExportAssignment, insertImportDeclaration.
  rewrite list_find_insertAt by (simpl; tauto).
  destruct (list_find _ sf) as [[i [|? ?| | |]]|]; done.
Qed.

Lemma moduleArray_insertImportDeclaration key s sf :
  moduleArray key (insertImportDeclaration s sf) = moduleArray key sf.
Proof.
  unfold moduleArray. rewrite getClass_insertImportDeclaration.
  destruct (getClass sf "AppModule") as [[ci ds]|]; done.
Qed.

Lemma exportedArray_insertImportDeclaration s sf :
  exportedArray (insertImportDeclaration s sf) = exportedArray sf.
Proof.
  unfold exportedArray. rewrite getExportAssignment_insertImportDeclaration.
  destruct (getExportAssignment sf) as [[k e]|]; done.
Qed.

(** *** Appending to the module array *)

Lemma appendElementsAt_module_gained key new sf ci ds di d ps pi k els :
  getClass sf "AppModule" = Some (ci, ds) →
  getDecorator ds "Module" = Some (di, d) →
  getArguments d !! 0 = Some (ObjectLiteralExpression ps) →
  getProperty ps key
    = Some (pi, PropertyAssignment k (ArrayLiteralExpression els)) →
  moduleArrayGained key new sf
    (appendElementsAt (PropertyArray ci di pi) new sf).
Proof.
  intros [body Hc]%getClass_Some [Hd Hn]%getDecorator_Some Ha
    [Hp Hk]%getProperty_Some.
  simpl in Hk. simplify_eq.
  exists ci, body, ds, di, d, ps, pi, els. repeat split; try done.
  simpl.
  rewrite (alter_as_insert _ _ _ _ Hc). simpl.
  rewrite (alter_as_insert _ _ _ _ Hd). unfold onArguments.
  rewrite (alter_as_insert _ _ _ _ Ha). simpl.
  rewrite (alter_as_insert _ _ _ _ Hp). simpl.
  by rewrite Hn.
Qed.

Lemma getClass_alter_decorators f ci sf n :
  getClass (alter (onDecorators f) ci sf) n =
    (λ '(j, ds), (j, if decide (j = ci) then f ds else ds)) <$> getClass sf n.
Proof.
  unfold getClass. rewrite list_find_alter.
  - destruct (list_find _ sf) as [[j [| |? ? ?| |]]|]; simpl; try done;
      by case_decide.
  - by intros [| |[?|] ? ?| |].
Qed.

Lemma getExportAssignment_alter_decorators f ci sf :
  getExportAssignment (alter (onDecorators f) ci sf) = getExportAssignment sf.
Proof.
  unfold getExportAssignment. rewrite list_find_alter.
  - destruct (list_find _ sf) as [[j [|? ?| | |]]|]; simpl; try done;
      by case_decide.
  - by intros [| |[?|] ? ?| |].
Qed.

Lemma getDecorator_alter_arguments f di ds n :
  getDecorator (alter (onArguments f) di ds) n =
    (λ '(j, d), (j, if decide (j = di) then onArguments f d else d))
      <$> getDecorator ds n.
Proof. unfold getDecorator. by rewrite list_find_alter. Qed.

Lemma getProperty_alter_initializer f pi ps key :
  getProperty (alter (onInitializer f) pi ps) key =
    (λ '(j, m), (j, if decide (j = pi) then onInitializer f m else m))
      <$> getProperty ps key.
Proof.
  unfold getProperty. rewrite list_find_alter; [done|].
  by intros [| | |].
Qed.

(** The array of property [key'] after elements were appended to the
    array of property [key]. *)
Lemma moduleArray_appendElementsAt key key' new sf ci ds di d ps pi k els :
  getClass sf "AppModule" = Some (ci, ds) →
  getDecorator ds "Module" = Some (di, d) →
  getArguments d !! 0 = Some (ObjectLiteralExpression ps) →
  getProperty ps key
    = Some (pi, PropertyAssignment k (ArrayLiteralExpression els)) →
  moduleArray key' (appendElementsAt (PropertyArray ci di pi) new sf) =
    if decide (key' = key) then Some (els ++ new) else moduleArray key' sf.
Proof.
  intros Hc Hd Ha Hp. unfold moduleArray. simpl.
  rewrite getClass_alter_decorators, Hc. simpl.
  rewrite decide_True by done.
  rewrite getDecorator_alter_arguments, Hd. simpl.
  rewrite decide_True by done. simpl.
  rewrite list_lookup_alter_eq, Ha. simpl.
  rewrite getProperty_alter_initializer.
  case_decide as Hkey.
  - subst key'. rewrite Hp. simpl. by rewrite decide_True.
  - destruct (getProperty ps key') as [[j m]|] eqn:Hp'; simpl; [|done].
    rewrite decide_False; [done|]. intros ->.
    apply getProperty_Some in Hp as [Hp Hk], Hp' as [Hp' Hk'].
    simplify_eq.
Qed.

Lemma exportedArray_appendElementsAt_module new sf ci di pi :
  exportedArray (appendElementsAt (PropertyArray ci di pi) new sf)
    = exportedArray sf.
Proof.
  unfold exportedArray. simpl. by rewrite getExportAssignment_alter_decorators.
Qed.

(** *** Appending to the exported array *)

Lemma getExportAssignment_alter_expression f k sf :
  getExportAssignment (alter (onExpression f) k sf) =
    (λ '(j, e), (j, if decide (j = k) then f e else e))
      <$> getExportAssignment sf.
Proof.
  unfold getExportAssignment. rewrite list_find_alter.
  - destruct (list_find _ sf) as [[j [|? ?| | |]]|]; simpl; try done;
      by case_decide.
  - by intros [| |[?|] ? ?| |].
Qed.

Lemma getClass_alter_expression f k sf n :
  getClass (alter (onExpression f) k sf) n = getClass sf n.
Proof.
  unfold getClass. rewrite list_find_alter.
  - destruct (list_find _ sf) as [[j [| |? ? ?| |]]|]; simpl; try done;
      by case_decide.
  - by intros [| |[?|] ? ?| |].
Qed.

Lemma exportedArray_appendElementsAt new sf k els :
  getExportAssignment sf = Some (k, ArrayLiteralExpression els) →
  exportedArray (appendElementsAt (ExportedArray k) new sf) = Some (els ++ new).
Proof.
  intros He. unfold exportedArray. simpl.
  rewrite getExportAssignment_alter_expression, He. simpl.
  by rewrite decide_True.
Qed.

Lemma moduleArray_appendElementsAt_exported key new sf k :
  moduleArray key (appendElementsAt (ExportedArray k) new sf)
    = moduleArray key sf.
Proof. unfold moduleArray. simpl. by rewrite getClass_alter_expression. Qed.

(** The configuration generator adds the import first and appends
    afterwards; the outcome is the tree with the elements appended, into
    which the import is inserted. *)
Lemma appendElementsAt_exported_gained s new sf k els :
  getExportAssignment (insertImportDeclaration s sf)
    = Some (k, ArrayLiteralExpression els) →
  ∃ sf0,
    exportedArray sf = Some els ∧
    exportedArrayGained new sf sf0 ∧
    insertedStatement (ImportDeclaration s) sf0
      (appendElementsAt (ExportedArray k) new (insertImportDeclaration s sf)).
Proof.
  rewrite getExportAssignment_insertImportDeclaration.
  destruct (getExportAssignment sf) as [[k0 e0]|] eqn:He; [|done].
  simpl. intros ?; simplify_eq.
  exists (alter (onExpression (appendElements new)) k0 sf).
  split; [|split].
  - unfold exportedArray. by rewrite He.
  - exists k0, els. apply getExportAssignment_Some in He.
    split; [done|]. by rewrite (alter_as_insert _ _ _ _ He).
  - simpl. unfold insertImportDeclaration.
    rewrite alter_insertAt by apply importInsertIndex_le.
    exists (importInsertIndex sf). split; [|done].
    rewrite length_alter. apply importInsertIndex_le.
Qed.

End Trees.
(** ** Stepping through a computation *)

Lemma bind_inl {A B} (m : Eff A) (k : A → Eff B) w e w' :
  m w = (inl e, w') → (m ≫= k) w = (inl e, w').
Proof. intros H. unfold mbind, Eff_bind, bind. by rewrite H. Qed.

Lemma bind_success {A B} (m : Eff A) (k : A → Eff B) w b w' :
  (m ≫= k) w = (inr b, w') →
  ∃ a w1, m w = (inr a, w1) ∧ k a w1 = (inr b, w').
Proof.
  unfold mbind, Eff_bind, bind. destruct (m w) as [[e|a] w1]; [done|eauto].
Qed.

Ltac eff_unfold :=
  unfold checkIfFileAlreadyExists, renderAsync, createSourceFile, save,
    addElement, addImportDeclaration, addSourceFileAtPath, getSourceFile,
    modifySourceFile, newProject,
    existsSync, writeFile, setProject, getWorld, emit, textArgument,
    liftResult,
    getClassOrThrow, getDecoratorOrThrow, asObjectLiteralOrThrow,
    asArrayLiteralOrThrow, orThrow, throw,
    mbind, mret, Eff_bind, Eff_ret, bind, ret in *.

Section Runs.

Variable joinPath : string → string.
Variable eta : string → gmap string string → option string.
Variable parse : string → SourceFile.
Variable elementsOf : string → option (list string).
Variable importable : ImportDeclarationStructure → bool.

Lemma checkIfFileAlreadyExists_taken filePath w :
  is_Some (disk w !! joinPath filePath) →
  checkIfFileAlreadyExists joinPath filePath w =
    (inl (Error (filePath +:+ " already exists")),
     mkWorld (disk w) (project w)
       (trace w ++ [ExistsSync (joinPath filePath)])).
Proof.
  intros H. eff_unfold. simpl. by rewrite bool_decide_eq_true_2.
Qed.

(** The generators that register nothing: guard, render, write. *)
Lemma plain_generation_run kind options w :
  kind = Exception ∨ kind = Model →
  generator joinPath eta parse elementsOf importable kind options w =
    match disk w !! joinPath (filePath options) with
    | Some _ =>
        (inl (Error (filePath options +:+ " already exists")),
         mkWorld (disk w) (project w)
           (trace w ++ [ExistsSync (joinPath (filePath options))]))
    | None =>
        match eta (templateName kind) (input options) with
        | None =>
            (inl (RenderError (templateName kind)),
             mkWorld (disk w) ∅
               (trace w ++ [ExistsSync (joinPath (filePath options));
                            RenderAsync (templateName kind)]))
        | Some content =>
            (inr tt, newFileWorld joinPath parse kind options content w)
        end
    end.
Proof.
  intros [-> | ->]; simpl; unfold createException, createModel, newFileWorld;
    eff_unfold; simpl;
    destruct (disk w !! joinPath (filePath options)) as [sf|] eqn:Hd; simpl;
    try done.
  all: match goal with |- context [eta ?t ?i] => destruct (eta t i) end;
    simpl; rewrite <- ?app_assoc; simpl; [|done].
  all: rewrite lookup_empty; simpl; rewrite Hd; simpl.
  all: rewrite lookup_insert_eq; simpl.
  all: by rewrite <- ?app_assoc.
Qed.

(** The three module generators: guard, render, write the new file, then
    the shared registration steps. *)
Lemma module_generation_run kind options w :
  isModuleKind kind = true →
  generator joinPath eta parse elementsOf importable kind options w =
    match disk w !! joinPath (filePath options) with
    | Some _ =>
        (inl (Error (filePath options +:+ " already exists")),
         mkWorld (disk w) (project w)
           (trace w ++ [ExistsSync (joinPath (filePath options))]))
    | None =>
        match eta (templateName kind) (input options) with
        | None =>
            (inl (RenderError (templateName kind)),
             mkWorld (disk w)
               (match kind with Repository => project w | _ => ∅ end)
               (trace w ++ [ExistsSync (joinPath (filePath options));
                            RenderAsync (templateName kind)]))
        | Some content =>
            registerInModule elementsOf importable (joinPath "app/module.ts")
              (propertyKey kind)
              (elementText kind options)
              (definedText (input options) (symbolKey kind))
              (importFolder kind +:+ fileNameWithoutEx options)
              (newFileWorld joinPath parse kind options content w)
        end
    end.
Proof.
  intros Hk. destruct kind; try discriminate Hk; simpl;
    unfold createController, createService, createRepo, newFileWorld,
      registerInModule, elementText, providerBinding;
    eff_unfold; simpl;
    destruct (disk w !! joinPath (filePath options)) as [sf|] eqn:Hd; simpl;
    try done.
  all: match goal with |- context [eta ?t ?i] => destruct (eta t i) end;
    simpl; rewrite <- ?app_assoc; simpl; [|done].
  all: rewrite lookup_empty; simpl; rewrite Hd; simpl.
  all: rewrite lookup_insert_eq; simpl.
  all: rewrite <- ?app_assoc; simpl.
  all: reflexivity.
Qed.

(** The configuration generator, likewise. *)
Lemma config_generation_run options w :
  createConfigFile joinPath eta parse elementsOf importable options w =
    match disk w !! joinPath (filePath options) with
    | Some _ =>
        (inl (Error (filePath options +:+ " already exists")),
         mkWorld (disk w) (project w)
           (trace w ++ [ExistsSync (joinPath (filePath options))]))
    | None =>
        match eta "config" (input options) with
        | None =>
            (inl (RenderError "config"),
             mkWorld (disk w) (project w)
               (trace w ++ [ExistsSync (joinPath (filePath options));
                            RenderAsync "config"]))
        | Some content =>
            registerInIndex elementsOf importable (joinPath "config/index.ts")
              (fileNameWithoutEx options)
              (newFileWorld joinPath parse Configuration options content w)
        end
    end.
Proof.
  unfold createConfigFile, newFileWorld, registerInIndex,
    registerInIndexFile;
    eff_unfold; simpl;
    destruct (disk w !! joinPath (filePath options)) as [sf|] eqn:Hd; simpl;
    try done.
  destruct (eta "config" (input options)); simpl;
    rewrite <- ?app_assoc; simpl; [|done].
  rewrite lookup_empty; simpl; rewrite Hd; simpl.
  rewrite lookup_insert_eq; simpl.
  rewrite <- ?app_assoc; simpl.
  reflexivity.
Qed.

End Runs.

(** ** The registration steps of the module generators *)

Section Registration.

Variable elementsOf : string → option (list string).
Variable importable : ImportDeclarationStructure → bool.

Implicit Types (w : World) (sf : SourceFile).

Local Abbreviation registerInModule := (registerInModule elementsOf importable).
Local Abbreviation registerInModuleFile :=
  (registerInModuleFile elementsOf importable).
Local Abbreviation registerInIndex := (registerInIndex elementsOf importable).
Local Abbreviation registerInIndexFile :=
  (registerInIndexFile elementsOf importable).

(** A failed registration has written nothing. *)
Lemma registerInModule_error rp key element imported spec w e w' :
  registerInModule rp key element imported spec w = (inl e, w') →
  disk w' = disk w ∧ ∀ p, WriteFile p ∈ trace w' → WriteFile p ∈ trace w.
Proof.
  unfold registerInModule, registerInModuleFile. eff_unfold.
  intros H.
  repeat (case_match; simplify_eq/=).
  all: split; [done | intros p].
  all: rewrite ?elem_of_app, ?list_elem_of_singleton; intuition congruence.
Qed.

Lemma registerInModule_append rp key el new name spec w sf
    ci ds di d ps pi k els :
  elementsOf el = Some new →
  importable (mkImport None [name] spec) = true →
  project w !! rp = None →
  disk w !! rp = Some sf →
  getClass sf "AppModule" = Some (ci, ds) →
  getDecorator ds "Module" = Some (di, d) →
  getArguments d !! 0 = Some (ObjectLiteralExpression ps) →
  getProperty ps key
    = Some (pi, PropertyAssignment k (ArrayLiteralExpression els)) →
  registerInModule rp key (inr el) (inr name) spec w =
    (inr tt,
     registeredWorld rp
       (insertImportDeclaration (mkImport None [name] spec)
          (appendElementsAt (PropertyArray ci di pi) new sf)) w).
Proof.
  intros Hel Himp Hp Hd Hc Hdec Harg Hprop.
  unfold registerInModule, registerInModuleFile,
    registeredWorld.
  eff_unfold. simpl.
  rewrite Hp, Hd. simpl. rewrite lookup_insert_eq. simpl.
  rewrite Hc. simpl. rewrite Hdec. simpl. rewrite Harg. simpl.
  rewrite Hprop. simpl. rewrite Hel. simpl. rewrite Himp. simpl.
  rewrite !alter_insert_eq, !lookup_insert_eq. simpl.
  by rewrite <- app_assoc.
Qed.

(** The text handed to [addElement] does not fit: the library refuses the
    manipulation, after the module file was read and before anything is
    saved. *)
Lemma registerInModule_unfit rp key el imported spec w sf
    ci ds di d ps pi k els :
  elementsOf el = None →
  project w !! rp = None →
  disk w !! rp = Some sf →
  getClass sf "AppModule" = Some (ci, ds) →
  getDecorator ds "Module" = Some (di, d) →
  getArguments d !! 0 = Some (ObjectLiteralExpression ps) →
  getProperty ps key
    = Some (pi, PropertyAssignment k (ArrayLiteralExpression els)) →
  registerInModule rp key (inr el) imported spec w =
    (inl (ManipulationError "the inserted text does not fit"),
     mkWorld (disk w) (<[rp := sf]> (project w)) (trace w ++ [ReadFile rp])).
Proof.
  intros Hel Hp Hd Hc Hdec Harg Hprop.
  unfold registerInModule, registerInModuleFile.
  eff_unfold. simpl.
  rewrite Hp, Hd. simpl. rewrite lookup_insert_eq. simpl.
  rewrite Hc. simpl. rewrite Hdec. simpl. rewrite Harg. simpl.
  rewrite Hprop. simpl. by rewrite Hel.
Qed.

(** The property is absent, or is not a property assignment: the guard
    [Node.isPropertyAssignment] skips the append, and the import is
    added and saved all the same. *)
Lemma registerInModule_skip rp key element name spec w sf ci ds di d ps :
  importable (mkImport None [name] spec) = true →
  project w !! rp = None →
  disk w !! rp = Some sf →
  getClass sf "AppModule" = Some (ci, ds) →
  getDecorator ds "Module" = Some (di, d) →
  getArguments d !! 0 = Some (ObjectLiteralExpression ps) →
  isPropertyAssignment (getProperty ps key) = false →
  registerInModule rp key element (inr name) spec w =
    (inr tt,
     registeredWorld rp
       (insertImportDeclaration (mkImport None [name] spec) sf) w).
Proof.
  intros Himp Hp Hd Hc Hdec Harg Hprop.
  unfold registerInModule, registerInModuleFile,
    registeredWorld.
  eff_unfold. simpl.
  rewrite Hp, Hd. simpl. rewrite lookup_insert_eq. simpl.
  rewrite Hc. simpl. rewrite Hdec. simpl. rewrite Harg. simpl.
  destruct (getProperty ps key) as [[pi [| | |]]|]; try done; simpl.
  all: rewrite Himp; simpl.
  all: rewrite !alter_insert_eq, !lookup_insert_eq; simpl.
  all: by rewrite <- app_assoc.
Qed.

(** The append is skipped and the symbol to import is not there, or the
    import cannot be added: the generation fails once the module file was
    read, before anything is saved. *)
Lemma registerInModule_skip_unnamed rp key element e spec w sf
    ci ds di d ps :
  project w !! rp = None →
  disk w !! rp = Some sf →
  getClass sf "AppModule" = Some (ci, ds) →
  getDecorator ds "Module" = Some (di, d) →
  getArguments d !! 0 = Some (ObjectLiteralExpression ps) →
  isPropertyAssignment (getProperty ps key) = false →
  registerInModule rp key element (inl e) spec w =
    (inl e, loadedWorld rp sf w).
Proof.
  intros Hp Hd Hc Hdec Harg Hprop.
  unfold registerInModule, registerInModuleFile, loadedWorld.
  eff_unfold. simpl.
  rewrite Hp, Hd. simpl. rewrite lookup_insert_eq. simpl.
  rewrite Hc. simpl. rewrite Hdec. simpl. rewrite Harg. simpl.
  destruct (getProperty ps key) as [[pi [| | |]]|]; try done; simpl.
Qed.

Lemma registerInModule_skip_unimportable rp key element name spec w sf
    ci ds di d ps :
  importable (mkImport None [name] spec) = false →
  project w !! rp = None →
  disk w !! rp = Some sf →
  getClass sf "AppModule" = Some (ci, ds) →
  getDecorator ds "Module" = Some (di, d) →
  getArguments d !! 0 = Some (ObjectLiteralExpression ps) →
  isPropertyAssignment (getProperty ps key) = false →
  registerInModule rp key element (inr name) spec w =
    (inl (NotImplementedError "an import declaration was expected"),
     loadedWorld rp sf w).
Proof.
  intros Himp Hp Hd Hc Hdec Harg Hprop.
  unfold registerInModule, registerInModuleFile, loadedWorld.
  eff_unfold. simpl.
  rewrite Hp, Hd. simpl. rewrite lookup_insert_eq. simpl.
  rewrite Hc. simpl. rewrite Hdec. simpl. rewrite Harg. simpl.
  destruct (getProperty ps key) as [[pi [| | |]]|]; try done; simpl.
  all: by rewrite Himp.
Qed.

(** The property is assigned something that is not an array literal:
    [asKindOrThrow] fails, after the module file was read and before
    anything is saved. *)
Lemma registerInModule_not_array rp key element imported spec w sf
    ci ds di d ps pi k initializer :
  project w !! rp = None →
  disk w !! rp = Some sf →
  getClass sf "AppModule" = Some (ci, ds) →
  getDecorator ds "Module" = Some (di, d) →
  getArguments d !! 0 = Some (ObjectLiteralExpression ps) →
  getProperty ps key = Some (pi, PropertyAssignment k initializer) →
  (∀ els, initializer ≠ ArrayLiteralExpression els) →
  registerInModule rp key element imported spec w =
    (inl (InvalidOperationError "expected ArrayLiteralExpression"),
     mkWorld (disk w) (<[rp := sf]> (project w)) (trace w ++ [ReadFile rp])).
Proof.
  intros Hp Hd Hc Hdec Harg Hprop Hinit.
  unfold registerInModule, registerInModuleFile. eff_unfold. simpl.
  rewrite Hp, Hd. simpl. rewrite lookup_insert_eq. simpl.
  rewrite Hc. simpl. rewrite Hdec. simpl. rewrite Harg. simpl.
  rewrite Hprop. simpl.
  destruct initializer as [els| |]; [by destruct (Hinit els)|done..].
Qed.

(** Loading a file into the project: the tree comes from the project or
    else from the disk, and the disk is left alone. *)
Lemma addSourceFileAtPath_success p w moduleFile w1 :
  addSourceFileAtPath p w = (inr moduleFile, w1) →
  moduleFile = p ∧ disk w1 = disk w ∧
  ∃ sf,
    project w1 !! p = Some sf ∧
    (project w !! p = Some sf ∨
     project w !! p = None ∧ disk w !! p = Some sf).
Proof.
  unfold addSourceFileAtPath. eff_unfold. simpl. intros H.
  destruct (project w !! p) as [sf|] eqn:Hproj; simpl in H.
  - simplify_eq. eauto 10.
  - destruct (disk w !! p) as [sf|] eqn:Hd; simpl in H; [|done].
    simplify_eq. simpl. rewrite lookup_insert_eq. eauto 10.
Qed.

(** What a successful registration has found and done on the tree [sf]
    of the module file. *)
Lemma registerInModuleFile_success rp key element imported spec w w' sf :
  project w !! rp = Some sf →
  registerInModuleFile rp key element imported spec w = (inr tt, w') →
  ∃ ci ds di d ps name,
    getClass sf "AppModule" = Some (ci, ds) ∧
    getDecorator ds "Module" = Some (di, d) ∧
    getArguments d !! 0 = Some (ObjectLiteralExpression ps) ∧
    imported = inr name ∧
    importable (mkImport None [name] spec) = true ∧
    ((∃ pi k els el new,
        getProperty ps key
          = Some (pi, PropertyAssignment k (ArrayLiteralExpression els)) ∧
        element = inr el ∧
        elementsOf el = Some new ∧
        disk w' =
          <[rp := insertImportDeclaration (mkImport None [name] spec)
                    (appendElementsAt (PropertyArray ci di pi) new sf)]>
            (disk w)) ∨
     (isPropertyAssignment (getProperty ps key) = false ∧
      disk w' =
        <[rp := insertImportDeclaration (mkImport None [name] spec) sf]>
          (disk w))).
Proof.
  intros Hproj. unfold registerInModuleFile. eff_unfold. intros H.
  rewrite Hproj in H. simpl in H.
  destruct (getClass sf "AppModule") as [[ci ds]|] eqn:Hc;
    simpl in H; [|done].
  destruct (getDecorator ds "Module") as [[di d]|] eqn:Hd;
    simpl in H; [|done].
  destruct (getArguments d !! 0) as [[|ps|]|] eqn:Ha; simpl in H; try done.
  destruct imported as [?|name]; simpl in H.
  { repeat (case_match; simplify_eq/=). }
  exists ci, ds, di, d, ps, name. do 4 (split; [by auto|]).
  destruct (getProperty ps key) as [[pi [k [els| |]| | |]]|] eqn:Hp;
    simpl in H; try done.
  1: destruct element as [?|el]; simpl in H; [done|].
  1: destruct (elementsOf el) as [new|] eqn:Hel; simpl in H; [|done].
  all: destruct (importable _) eqn:Himp; simpl in H; [|done].
  all: split; [done|].
  1: left; exists pi, k, els, el, new.
  2-5: right.
  all: rewrite ?lookup_alter_eq, ?Hproj in H; simpl in H; simplify_eq/=.
  all: rewrite ?lookup_alter_eq, ?Hproj; simpl; done.
Qed.

(** What a successful registration has found and done on the tree [sf]
    of the index file. *)
Lemma registerInIndexFile_success ip name w w' sf :
  project w !! ip = Some sf →
  registerInIndexFile ip name w = (inr tt, w') →
  let imported :=
    insertImportDeclaration (mkImport (Some name) [] ("./" +:+ name)) sf in
  importable (mkImport (Some name) [] ("./" +:+ name)) = true ∧
  ((getExportAssignment imported = None ∧ disk w' = disk w) ∨
   (∃ k els new,
      getExportAssignment imported = Some (k, ArrayLiteralExpression els) ∧
      elementsOf name = Some new ∧
      disk w' =
        <[ip := appendElementsAt (ExportedArray k) new imported]> (disk w))).
Proof.
  intros Hproj. unfold registerInIndexFile. eff_unfold. simpl.
  intros H.
  destruct (importable _) eqn:Himp; simpl in H; [|done].
  split; [done|].
  rewrite lookup_alter_eq, Hproj in H. simpl in H.
  destruct (getExportAssignment _) as [[k [els| |]]|] eqn:He;
    simpl in H; try done.
  - destruct (elementsOf name) as [new|] eqn:Hel; simpl in H; [|done].
    right. exists k, els, new. do 2 (split; [done|]).
    rewrite ?lookup_alter_eq, ?Hproj in H; simpl in H. by simplify_eq/=.
  - left. by simplify_eq.
Qed.

(** *** The registration steps of the configuration generator *)

(** No default export: the function returns with the import added in
    memory only. *)
Lemma registerInIndex_no_export ip name w sf :
  importable (mkImport (Some name) [] ("./" +:+ name)) = true →
  project w !! ip = None →
  disk w !! ip = Some sf →
  getExportAssignment sf = None →
  registerInIndex ip name w =
    (inr tt,
     mkWorld (disk w)
       (<[ip := insertImportDeclaration
                  (mkImport (Some name) [] ("./" +:+ name)) sf]> (project w))
       (trace w ++ [ReadFile ip])).
Proof.
  intros Himp Hp Hd He.
  unfold registerInIndex, registerInIndexFile.
  eff_unfold. simpl.
  rewrite Hp, Hd. simpl. rewrite Himp. simpl.
  rewrite !alter_insert_eq, !lookup_insert_eq. simpl.
  rewrite getExportAssignment_insertImportDeclaration, He. simpl.
  by rewrite ?insert_insert_eq.
Qed.

(** The import cannot be added: the library fails right after the index
    file was read, whatever the file exports. *)
Lemma registerInIndex_unimportable ip name w sf :
  importable (mkImport (Some name) [] ("./" +:+ name)) = false →
  project w !! ip = None →
  disk w !! ip = Some sf →
  registerInIndex ip name w =
    (inl (NotImplementedError "an import declaration was expected"),
     mkWorld (disk w) (<[ip := sf]> (project w)) (trace w ++ [ReadFile ip])).
Proof.
  intros Himp Hp Hd.
  unfold registerInIndex, registerInIndexFile.
  eff_unfold. simpl.
  rewrite Hp, Hd. simpl. by rewrite Himp.
Qed.

Lemma registerInIndex_append ip name new w sf k els :
  importable (mkImport (Some name) [] ("./" +:+ name)) = true →
  elementsOf name = Some new →
  project w !! ip = None →
  disk w !! ip = Some sf →
  getExportAssignment (insertImportDeclaration
                         (mkImport (Some name) [] ("./" +:+ name)) sf)
    = Some (k, ArrayLiteralExpression els) →
  registerInIndex ip name w =
    (inr tt,
     registeredWorld ip
       (appendElementsAt (ExportedArray k) new
          (insertImportDeclaration
             (mkImport (Some name) [] ("./" +:+ name)) sf)) w).
Proof.
  intros Himp Hel Hp Hd He.
  unfold registerInIndex, registerInIndexFile,
    registeredWorld.
  eff_unfold. simpl.
  rewrite Hp, Hd. simpl. rewrite Himp. simpl.
  rewrite !alter_insert_eq, !lookup_insert_eq. simpl.
  rewrite He. simpl. rewrite Hel. simpl.
  rewrite !alter_insert_eq, !lookup_insert_eq. simpl.
  by rewrite ?insert_insert_eq, <- app_assoc.
Qed.

(** The default export is an array and the file name does not fit into
    it: the library refuses the manipulation; the import was added in
    memory only. *)
Lemma registerInIndex_unfit ip name w sf k els :
  importable (mkImport (Some name) [] ("./" +:+ name)) = true →
  elementsOf name = None →
  project w !! ip = None →
  disk w !! ip = Some sf →
  getExportAssignment (insertImportDeclaration
                         (mkImport (Some name) [] ("./" +:+ name)) sf)
    = Some (k, ArrayLiteralExpression els) →
  registerInIndex ip name w =
    (inl (ManipulationError "the inserted text does not fit"),
     mkWorld (disk w)
       (<[ip := insertImportDeclaration
                  (mkImport (Some name) [] ("./" +:+ name)) sf]> (project w))
       (trace w ++ [ReadFile ip])).
Proof.
  intros Himp Hel Hp Hd He.
  unfold registerInIndex, registerInIndexFile.
  eff_unfold. simpl.
  rewrite Hp, Hd. simpl. rewrite Himp. simpl.
  rewrite !alter_insert_eq, !lookup_insert_eq. simpl.
  rewrite He. simpl. rewrite Hel. simpl.
  by rewrite ?insert_insert_eq.
Qed.

End Registration.

(** ** Whole generations on a registry of the expected shape *)

Section Generations.

Variable joinPath : string → string.
Variable eta : string → gmap string string → option string.
Variable parse : string → SourceFile.
Variable elementsOf : string → option (list string).
Variable importable : ImportDeclarationStructure → bool.

Implicit Types (w : World) (sf : SourceFile) (kind : Kind).

Lemma moduleArray_Some key sf els :
  moduleArray key sf = Some els →
  ∃ ci ds di d ps pi k,
    getClass sf "AppModule" = Some (ci, ds) ∧
    getDecorator ds "Module" = Some (di, d) ∧
    getArguments d !! 0 = Some (ObjectLiteralExpression ps) ∧
    getProperty ps key
      = Some (pi, PropertyAssignment k (ArrayLiteralExpression els)).
Proof.
  unfold moduleArray. intros H.
  destruct (getClass sf "AppModule") as [[ci ds]|] eqn:Hc; [|done].
  simpl in H.
  destruct (getDecorator ds "Module") as [[di d]|] eqn:Hd; [|done].
  simpl in H.
  destruct (getArguments d !! 0) as [[|ps|]|] eqn:Ha; try done.
  simpl in H.
  destruct (getProperty ps key) as [[pi [k [els'| |]| | |]]|] eqn:Hp;
    try done.
  simplify_eq. by exists ci, ds, di, d, ps, pi, k.
Qed.

Lemma exportedArray_Some sf els :
  exportedArray sf = Some els →
  ∃ k, getExportAssignment sf = Some (k, ArrayLiteralExpression els).
Proof.
  unfold exportedArray. intros H.
  destruct (getExportAssignment sf) as [[k [els'| |]]|] eqn:He; try done.
  simplify_eq. by exists k.
Qed.

Lemma newFileWorld_project kind options content w q :
  q ≠ joinPath (filePath options) →
  project (newFileWorld joinPath parse kind options content w) !! q = None.
Proof. intros Hq. simpl. by rewrite lookup_singleton_ne. Qed.

Lemma newFileWorld_disk kind options content w q :
  q ≠ joinPath (filePath options) →
  disk (newFileWorld joinPath parse kind options content w) !! q = disk w !! q.
Proof. intros Hq. simpl. by rewrite lookup_insert_ne. Qed.

Lemma elementText_symbol kind options symbol :
  isModuleKind kind = true →
  input options !! symbolKey kind = Some symbol →
  elementText kind options = inr (registeredElement kind options symbol) ∧
  definedText (input options) (symbolKey kind) = inr symbol.
Proof.
  intros Hk Hs. unfold elementText, definedText, interpolate.
  destruct kind; try discriminate Hk; simpl in *; by rewrite Hs.
Qed.

(** A module generation on a registry that has the array: the element is
    appended, the import added, the file saved. *)
Lemma module_generation_appends kind options w content sf els symbol new :
  isModuleKind kind = true →
  elementsOf (registeredElement kind options symbol) = Some new →
  importable (registeredImport kind options symbol) = true →
  disk w !! joinPath (filePath options) = None →
  eta (templateName kind) (input options) = Some content →
  disk w !! joinPath "app/module.ts" = Some sf →
  moduleArray (propertyKey kind) sf = Some els →
  input options !! symbolKey kind = Some symbol →
  ∃ ci ds di d ps pi k,
    getClass sf "AppModule" = Some (ci, ds) ∧
    getDecorator ds "Module" = Some (di, d) ∧
    getArguments d !! 0 = Some (ObjectLiteralExpression ps) ∧
    getProperty ps (propertyKey kind)
      = Some (pi, PropertyAssignment k (ArrayLiteralExpression els)) ∧
    generator joinPath eta parse elementsOf importable kind options w =
      (inr tt,
       registeredWorld (joinPath "app/module.ts")
         (insertImportDeclaration (registeredImport kind options symbol)
            (appendElementsAt (PropertyArray ci di pi) new sf))
         (newFileWorld joinPath parse kind options content w)).
Proof.
  intros Hk Hnew Hable Hfree Heta Hreg Harr Hsym.
  destruct (moduleArray_Some _ _ _ Harr)
    as (ci & ds & di & d & ps & pi & k & Hc & Hd & Ha & Hp).
  exists ci, ds, di, d, ps, pi, k. repeat (split; [done|]).
  assert (joinPath "app/module.ts" ≠ joinPath (filePath options)) as Hne
    by (intros Heq; rewrite Heq in Hreg; congruence).
  rewrite (module_generation_run _ _ _ _ _ _ _ _ Hk), Hfree, Heta.
  destruct (elementText_symbol _ _ _ Hk Hsym) as [-> ->].
  rewrite (registerInModule_append _ _ _ _ _ new _ _ _ sf
             ci ds di d ps pi k els);
    try done.
  - by destruct kind.
  - by destruct kind.
  - by apply newFileWorld_project.
  - by rewrite newFileWorld_disk.
Qed.

(** A configuration generation on a barrel file that exports an array. *)
Lemma config_generation_appends options w content sf els new :
  elementsOf (fileNameWithoutEx options) = Some new →
  importable
    (registeredImport Configuration options (fileNameWithoutEx options))
    = true →
  disk w !! joinPath (filePath options) = None →
  eta "config" (input options) = Some content →
  disk w !! joinPath "config/index.ts" = Some sf →
  exportedArray sf = Some els →
  ∃ k,
    getExportAssignment
      (insertImportDeclaration
         (registeredImport Configuration options (fileNameWithoutEx options))
         sf)
      = Some (k, ArrayLiteralExpression els) ∧
    createConfigFile joinPath eta parse elementsOf importable
      options w =
      (inr tt,
       registeredWorld (joinPath "config/index.ts")
         (appendElementsAt (ExportedArray k) new
            (insertImportDeclaration
               (registeredImport Configuration options
                  (fileNameWithoutEx options)) sf))
         (newFileWorld joinPath parse Configuration options content w)).
Proof.
  intros Hnew Hable Hfree Heta Hreg Harr.
  destruct (exportedArray_Some _ _ Harr) as (k0 & He).
  exists (shifted (importInsertIndex sf) k0).
  assert (joinPath "config/index.ts" ≠ joinPath (filePath options)) as Hne
    by (intros Heq; rewrite Heq in Hreg; congruence).
  assert (getExportAssignment
      (insertImportDeclaration
         (registeredImport Configuration options (fileNameWithoutEx options))
         sf)
      = Some (shifted (importInsertIndex sf) k0, ArrayLiteralExpression els))
    as He' by (by rewrite getExportAssignment_insertImportDeclaration, He).
  split; [done|].
  rewrite config_generation_run, Hfree, Heta.
  apply (registerInIndex_append _ _ _ _ new _ sf _ els); [done|done| | |done].
  - by apply newFileWorld_project.
  - by rewrite newFileWorld_disk.
Qed.

(** A successful generation of a registered kind had a free target, a
    template that rendered, and a named symbol. *)
Lemma successful_generation_preconditions kind options w w' :
  isRegistered kind = true →
  generator joinPath eta parse elementsOf importable kind options w
    = (inr tt, w') →
  disk w !! joinPath (filePath options) = None ∧
  ∃ content symbol,
    eta (templateName kind) (input options) = Some content ∧
    symbolOf kind options = Some symbol ∧
    importable (registeredImport kind options symbol) = true.
Proof.
  intros Hk. destruct (decide (kind = Configuration)) as [->|Hc].
  - cbn [generator]. rewrite config_generation_run.
    destruct (disk w !! joinPath (filePath options)) as [?|]; [done|].
    destruct (eta "config" (input options)) as [content|] eqn:Heta; [|done].
    unfold registerInIndex.
    intros (indexFile & w1 & Hload & Hrun)%bind_success.
    apply addSourceFileAtPath_success in Hload
      as (-> & Hdisk1 & sf1 & Hproj1 & Hfrom).
    apply (registerInIndexFile_success _ _ _ _ _ _ _ Hproj1) in Hrun
      as [Hable _].
    split; [done|]. by exists content, (fileNameWithoutEx options).
  - assert (isModuleKind kind = true) as Hm by (by destruct kind).
    rewrite (module_generation_run _ _ _ _ _ _ _ _ Hm).
    destruct (disk w !! joinPath (filePath options)) as [?|]; [done|].
    destruct (eta (templateName kind) (input options))
      as [content|] eqn:Heta; [|done].
    unfold registerInModule.
    intros (moduleFile & w1 & Hload & Hrun)%bind_success.
    apply addSourceFileAtPath_success in Hload
      as (-> & Hdisk1 & sf1 & Hproj1 & Hfrom).
    apply (registerInModuleFile_success _ _ _ _ _ _ _ _ _ _ Hproj1) in Hrun
      as (ci & ds & di & d & ps & name & Hc' & Hd & Ha & Himp & Hable
          & Hcases).
    split; [done|]. exists content, name. split; [done|].
    unfold definedText in Himp.
    replace (symbolOf kind options) with (input options !! symbolKey kind)
      by (by destruct kind).
    replace (registeredImport kind options name)
      with (mkImport None [name]
              (importFolder kind +:+ fileNameWithoutEx options))
      by (by destruct kind).
    split; [|done].
    destruct (input options !! symbolKey kind); by simplify_eq.
Qed.

(** *** One generation, seen from the array of a registered kind *)

Lemma registryPath_module kind :
  isModuleKind kind = true →
  registryPath joinPath kind = joinPath "app/module.ts".
Proof. by destruct kind. Qed.

Lemma registryArray_module kind sf :
  isModuleKind kind = true →
  registryArray kind sf = moduleArray (propertyKey kind) sf.
Proof. by destruct kind. Qed.

Lemma registryArray_insertImportDeclaration t s sf :
  registryArray t (insertImportDeclaration s sf) = registryArray t sf.
Proof.
  destruct t; simpl;
    auto using moduleArray_insertImportDeclaration,
      exportedArray_insertImportDeclaration.
Qed.

Lemma module_step_array t kind options w w' sf els :
  isModuleKind kind = true →
  isRegistered t = true →
  disk w !! registryPath joinPath t = Some sf →
  registryArray t sf = Some els →
  generator joinPath eta parse elementsOf importable kind options w
    = (inr tt, w') →
  ∃ sf',
    disk w' !! registryPath joinPath t = Some sf' ∧
    registryArray t sf' =
      Some (els ++ appendedBy elementsOf t (kind, options)).
Proof.
  intros Hk Ht Hreg Harr.
  rewrite (module_generation_run _ _ _ _ _ _ _ _ Hk).
  destruct (disk w !! joinPath (filePath options)) as [?|] eqn:Hfree; [done|].
  destruct (eta (templateName kind) (input options)) as [content|]; [|done].
  assert (registryPath joinPath t ≠ joinPath (filePath options)) as Hne
    by (intros Heq; rewrite Heq in Hreg; congruence).
  unfold registerInModule.
  intros (moduleFile & w1 & Hload & Hrun)%bind_success.
  apply addSourceFileAtPath_success in Hload
    as (-> & Hdisk1 & sf1 & Hproj1 & Hfrom).
  apply (registerInModuleFile_success _ _ _ _ _ _ _ _ _ _ Hproj1) in Hrun
    as (ci & ds & di & d & ps & name & Hc & Hd & Ha & Himp & Hable & Hcases).
  unfold appendedBy. cbn [fst].
  destruct (decide (registryPath joinPath t = joinPath "app/module.ts"))
    as [Hsame|Hother].
  - (* the module file is the registry of [t] *)
    rewrite Hsame in *.
    assert (sf1 = sf) as ->.
    { destruct Hfrom as [Hfrom|[_ Hfrom]].
      - by rewrite newFileWorld_project in Hfrom.
      - rewrite newFileWorld_disk in Hfrom by done. congruence. }
    destruct Hcases
      as [(pi & k & els0 & el & new & Hp & Hel & Hnew & Hdisk)|[Hp Hdisk]];
      rewrite Hdisk, lookup_insert_eq; eexists; (split; [done|]);
      rewrite registryArray_insertImportDeclaration.
    + destruct (decide (t = Configuration)) as [->|Hcfg].
      * unfold registryArray in *.
        rewrite exportedArray_appendElementsAt_module.
        replace (sameArray kind Configuration) with false by (by destruct kind).
        by rewrite app_nil_r.
      * assert (isModuleKind t = true) as Htm by (by destruct t).
        rewrite registryArray_module in * by done.
        rewrite (moduleArray_appendElementsAt _ _ _ _ _ _ _ _ _ _ _ _
                   Hc Hd Ha Hp).
        case_decide as Hkey.
        -- assert (moduleArray (propertyKey kind) sf = Some els0) as Harr0.
           { unfold moduleArray. rewrite Hc. simpl. rewrite Hd. simpl.
             rewrite Ha. simpl. by rewrite Hp. }
           rewrite <- Hkey in Harr0. simplify_eq.
           replace (sameArray kind t) with true
             by (by destruct kind, t).
           assert (elementOf (kind, options) = el) as ->;
             [|by rewrite Hnew].
           unfold elementText, definedText, interpolate in *.
           destruct kind; try discriminate Hk; simpl in *;
             unfold interpolate;
             destruct (input options !! _); by simplify_eq.
        -- replace (sameArray kind t) with false
             by (by destruct kind, t).
           by rewrite app_nil_r.
    + destruct (decide (t = Configuration)) as [->|Hcfg].
      * replace (sameArray kind Configuration) with false by (by destruct kind).
        by rewrite app_nil_r.
      * assert (isModuleKind t = true) as Htm by (by destruct t).
        rewrite registryArray_module in * by done.
        replace (sameArray kind t) with false; [by rewrite app_nil_r|].
        destruct (decide (propertyKey t = propertyKey kind)) as [Hkey|Hkey];
          [|by destruct kind, t].
        exfalso. rewrite Hkey in Harr.
        apply moduleArray_Some in Harr
          as (? & ? & ? & ? & ? & ? & ? & ? & ? & ? & Hp').
        simplify_eq. by rewrite Hp' in Hp.
  - (* the registry of [t] is another file, which the run leaves alone *)
    assert (t = Configuration) as -> by (by destruct t).
    cbn [registryPath registryArray] in *.
    exists sf. split.
    + assert (disk w' !! joinPath "config/index.ts"
              = disk w1 !! joinPath "config/index.ts") as ->.
      { destruct Hcases as [(? & ? & ? & ? & ? & _ & _ & _ & ->)|[_ ->]];
          by rewrite lookup_insert_ne. }
      rewrite Hdisk1. by rewrite newFileWorld_disk.
    + replace (sameArray kind Configuration) with false by (by destruct kind).
      by rewrite app_nil_r.
Qed.

Lemma config_step_array t options w w' sf els :
  isRegistered t = true →
  disk w !! registryPath joinPath t = Some sf →
  registryArray t sf = Some els →
  createConfigFile joinPath eta parse elementsOf importable
      options w = (inr tt, w') →
  ∃ sf',
    disk w' !! registryPath joinPath t = Some sf' ∧
    registryArray t sf' =
      Some (els ++ appendedBy elementsOf t (Configuration, options)).
Proof.
  intros Ht Hreg Harr.
  rewrite config_generation_run.
  destruct (disk w !! joinPath (filePath options)) as [?|] eqn:Hfree; [done|].
  destruct (eta "config" (input options)) as [content|]; [|done].
  assert (registryPath joinPath t ≠ joinPath (filePath options)) as Hne
    by (intros Heq; rewrite Heq in Hreg; congruence).
  unfold registerInIndex.
  intros (indexFile & w1 & Hload & Hrun)%bind_success.
  apply addSourceFileAtPath_success in Hload
    as (-> & Hdisk1 & sf1 & Hproj1 & Hfrom).
  apply (registerInIndexFile_success _ _ _ _ _ _ _ Hproj1) in Hrun.
  cbn zeta in Hrun. destruct Hrun as [Hable Hrun].
  unfold appendedBy. cbn [fst].
  destruct (decide (registryPath joinPath t = joinPath "config/index.ts"))
    as [Hsame|Hother].
  - rewrite Hsame in *.
    assert (sf1 = sf) as ->.
    { destruct Hfrom as [Hfrom|[_ Hfrom]].
      - by rewrite newFileWorld_project in Hfrom.
      - rewrite newFileWorld_disk in Hfrom by done. congruence. }
    destruct Hrun as [[He Hdisk]|(k & els0 & new & He & Hnew & Hdisk)].
    + (* no default export: the file is not saved *)
      exists sf. rewrite Hdisk, Hdisk1, newFileWorld_disk by done.
      split; [done|].
      replace (sameArray Configuration t) with false;
        [by rewrite app_nil_r|].
      destruct (decide (t = Configuration)) as [->|]; [|by destruct t].
      exfalso. cbn [registryArray] in Harr.
      rewrite getExportAssignment_insertImportDeclaration in He.
      apply exportedArray_Some in Harr as [? Harr]. by rewrite Harr in He.
    + rewrite Hdisk, lookup_insert_eq. eexists; split; [done|].
      destruct (decide (t = Configuration)) as [->|Hcfg].
      * cbn [registryArray sameArray elementOf] in *.
        rewrite (exportedArray_appendElementsAt _ _ _ _ He).
        rewrite getExportAssignment_insertImportDeclaration in He.
        apply exportedArray_Some in Harr as [? Harr].
        rewrite Harr in He. simplify_eq/=. by rewrite Hnew.
      * assert (isModuleKind t = true) as Htm by (by destruct t).
        rewrite registryArray_module in * by done.
        rewrite moduleArray_appendElementsAt_exported,
          moduleArray_insertImportDeclaration.
        replace (sameArray Configuration t) with false by (by destruct t).
        by rewrite app_nil_r.
  - assert (isModuleKind t = true) as Htm by (by destruct t).
    replace (sameArray Configuration t) with false by (by destruct t).
    exists sf. rewrite app_nil_r. split; [|done].
    assert (disk w' !! registryPath joinPath t
            = disk w1 !! registryPath joinPath t) as ->.
    { destruct Hrun as [[_ ->]|(? & ? & ? & _ & _ & ->)];
        [done|by rewrite lookup_insert_ne]. }
    rewrite Hdisk1. by rewrite newFileWorld_disk.
Qed.

Lemma plain_step_array t kind options w w' sf els :
  kind = Exception ∨ kind = Model →
  isRegistered t = true →
  disk w !! registryPath joinPath t = Some sf →
  registryArray t sf = Some els →
  generator joinPath eta parse elementsOf importable kind options w
    = (inr tt, w') →
  ∃ sf',
    disk w' !! registryPath joinPath t = Some sf' ∧
    registryArray t sf' =
      Some (els ++ appendedBy elementsOf t (kind, options)).
Proof.
  intros Hk Ht Hreg Harr.
  rewrite (plain_generation_run _ _ _ _ _ _ _ _ Hk).
  destruct (disk w !! joinPath (filePath options)) as [?|] eqn:Hfree; [done|].
  destruct (eta (templateName kind) (input options)) as [content|]; [|done].
  assert (registryPath joinPath t ≠ joinPath (filePath options)) as Hne
    by (intros Heq; rewrite Heq in Hreg; congruence).
  intros ?; simplify_eq. exists sf.
  rewrite newFileWorld_disk by done. split; [done|].
  unfold appendedBy. cbn [fst].
  replace (sameArray kind t) with false by (by destruct Hk as [-> | ->]).
  by rewrite app_nil_r.
Qed.

(** Whatever the kind of a successful generation, the array of the
    registered kind [t] is extended by the elements of the request when
    the request registers into that array, and is kept otherwise. *)
Lemma generation_step_array t kind options w w' sf els :
  isRegistered t = true →
  disk w !! registryPath joinPath t = Some sf →
  registryArray t sf = Some els →
  generator joinPath eta parse elementsOf importable kind options w
    = (inr tt, w') →
  ∃ sf',
    disk w' !! registryPath joinPath t = Some sf' ∧
    registryArray t sf' =
      Some (els ++ appendedBy elementsOf t (kind, options)).
Proof.
  destruct kind.
  - apply config_step_array.
  - by apply module_step_array.
  - by apply module_step_array.
  - apply plain_step_array; auto.
  - by apply module_step_array.
  - apply plain_step_array; auto.
Qed.

End Generations.

(** ** Every outcome of a generation *)

Section Outcomes.

Variable joinPath : string → string.
Variable eta : string → gmap string string → option string.
Variable parse : string → SourceFile.
Variable elementsOf : string → option (list string).
Variable importable : ImportDeclarationStructure → bool.

Implicit Types (w : World) (sf : SourceFile) (kind : Kind).

Local Abbreviation registerInModule :=
  (registerInModule elementsOf importable).
Local Abbreviation registerInIndex := (registerInIndex elementsOf importable).

(** All six generators: guard, render, write, register. *)
Lemma generation_run kind options w :
  generator joinPath eta parse elementsOf importable kind options w =
    match disk w !! joinPath (filePath options) with
    | Some _ =>
        (inl (Error (filePath options +:+ " already exists")),
         mkWorld (disk w) (project w)
           (trace w ++ [ExistsSync (joinPath (filePath options))]))
    | None =>
        match eta (templateName kind) (input options) with
        | None =>
            (inl (RenderError (templateName kind)),
             mkWorld (disk w) (projectAtRender kind w)
               (trace w ++ [ExistsSync (joinPath (filePath options));
                            RenderAsync (templateName kind)]))
        | Some content =>
            registration joinPath elementsOf importable kind options
              (newFileWorld joinPath parse kind options content w)
        end
    end.
Proof.
  destruct kind.
  - apply config_generation_run.
  - by rewrite module_generation_run.
  - by rewrite module_generation_run.
  - rewrite plain_generation_run by auto. done.
  - by rewrite module_generation_run.
  - rewrite plain_generation_run by auto. done.
Qed.

Ltac outcome_events :=
  match goal with
  | |- ∃ evs, ?t = ?t ++ evs ∧ _ => exists []
  | |- ∃ evs, (?t ++ ?e1) ++ ?e2 = ?t ++ evs ∧ _ => exists (e1 ++ e2)
  | |- ∃ evs, ?t ++ ?e = ?t ++ evs ∧ _ => exists e
  end;
  (split; [by rewrite ?app_nil_r, <- ?app_assoc|]);
  (split; [by repeat constructor; auto|]);
  first
    [ left; split; [done|];
      let Hin := fresh in
      intros Hin;
      repeat (apply elem_of_cons in Hin as [?|Hin]; [done|]);
      by apply elem_of_nil in Hin
    | right; split; [done|]; by eexists ].

(** What the registration steps of the module generators can leave: they
    read and write the module file only, and the disk is either as it was
    or, on success, has the module file replaced. *)
Lemma registerInModule_outcome rp key element imported spec w r w' :
  registerInModule rp key element imported spec w = (r, w') →
  ∃ evs,
    trace w' = trace w ++ evs ∧
    Forall (λ ev, ev = ReadFile rp ∨ ev = WriteFile rp) evs ∧
    (disk w' = disk w ∧ WriteFile rp ∉ evs ∨
     r = inr tt ∧ ∃ sf', disk w' = <[rp := sf']> (disk w)).
Proof.
  unfold registerInModule, registerInModuleFile. eff_unfold. intros H.
  repeat (case_match; simplify_eq/=).
  all: outcome_events.
Qed.

Lemma registerInIndex_outcome ip name w r w' :
  registerInIndex ip name w = (r, w') →
  ∃ evs,
    trace w' = trace w ++ evs ∧
    Forall (λ ev, ev = ReadFile ip ∨ ev = WriteFile ip) evs ∧
    (disk w' = disk w ∧ WriteFile ip ∉ evs ∨
     r = inr tt ∧ ∃ sf', disk w' = <[ip := sf']> (disk w)).
Proof.
  unfold registerInIndex, registerInIndexFile. eff_unfold. intros H.
  repeat (case_match; simplify_eq/=).
  all: outcome_events.
Qed.

Lemma registration_outcome kind options w r w' :
  registration joinPath elementsOf importable kind options w = (r, w') →
  ∃ evs,
    trace w' = trace w ++ evs ∧
    Forall (λ ev, isRegistered kind = true ∧
                  (ev = ReadFile (registryPath joinPath kind) ∨
                   ev = WriteFile (registryPath joinPath kind))) evs ∧
    (disk w' = disk w ∧ WriteFile (registryPath joinPath kind) ∉ evs ∨
     r = inr tt ∧ isRegistered kind = true ∧
     ∃ sf', disk w' = <[registryPath joinPath kind := sf']> (disk w)).
Proof.
  intros H.
  assert (isRegistered kind = false ∨ isRegistered kind = true) as [Hk|Hk]
    by (destruct kind; auto).
  - exists []. rewrite app_nil_r.
    assert (w' = w) as ->.
    { destruct kind; try discriminate Hk;
        unfold registration, mret, Eff_ret, ret in H; by simplify_eq. }
    split; [done|]. split; [done|]. left. split; [done|].
    apply not_elem_of_nil.
  - assert (∃ evs,
      trace w' = trace w ++ evs ∧
      Forall (λ ev, ev = ReadFile (registryPath joinPath kind) ∨
                    ev = WriteFile (registryPath joinPath kind)) evs ∧
      (disk w' = disk w ∧ WriteFile (registryPath joinPath kind) ∉ evs ∨
       r = inr tt ∧
       ∃ sf', disk w' = <[registryPath joinPath kind := sf']> (disk w)))
      as (evs & Ht & Hevs & Hd).
    { destruct kind; try discriminate Hk;
        eauto using registerInModule_outcome, registerInIndex_outcome. }
    exists evs. split; [done|]. split.
    + eapply Forall_impl; [exact Hevs|]. by intros ev ?.
    + destruct Hd as [?|(? & ?)]; [by left|by right].
Qed.

End Outcomes.

(** ** The import declarations of a tree *)

Section Imports.

Implicit Types (sf : SourceFile) (s : ImportDeclarationStructure).

Lemma importsOf_app sf1 sf2 :
  importsOf (sf1 ++ sf2) = importsOf sf1 ++ importsOf sf2.
Proof. apply omap_app. Qed.

(** The loop stops behind the last import declaration. *)
Lemma importInsertLoop_last sf i ins b :
  ins ≤ i →
  let j := importInsertLoop sf i ins b in
  j = ins ∧ importsOf sf = [] ∨ i < j ∧ importsOf (drop (j - i) sf) = [].
Proof.
  revert i ins b. induction sf as [|st sf IH]; intros i ins b Hi; simpl.
  { by left. }
  assert (∀ ins' b',
    ins' = S i ∨ ins' = ins ∧ importsOf [st] = [] →
    importInsertLoop sf (S i) ins' b' = ins ∧ importsOf (st :: sf) = [] ∨
    i < importInsertLoop sf (S i) ins' b' ∧
    importsOf
      (drop (importInsertLoop sf (S i) ins' b' - i) (st :: sf)) = [])
    as Hstep.
  { intros ins' b' Hins.
    destruct (IH (S i) ins' b') as [[Hj Hnone]|[Hlt Hnone]].
    { destruct Hins as [->|[-> _]]; lia. }
    - rewrite Hj. destruct Hins as [->|[-> Hst]].
      + right. split; [lia|]. by replace (S i - i) with 1 by lia.
      + left. split; [done|].
        change (st :: sf) with ([st] ++ sf).
        by rewrite importsOf_app, Hst, Hnone.
    - right. split; [lia|].
      replace (importInsertLoop sf (S i) ins' b' - i)
        with (S (importInsertLoop sf (S i) ins' b' - S i)) by lia.
      done. }
  destruct st; try destruct b; apply Hstep; auto.
Qed.

Lemma importsOf_insertImportDeclaration s sf :
  importsOf (insertImportDeclaration s sf) = importsOf sf ++ [s].
Proof.
  unfold insertImportDeclaration, insertAt, importInsertIndex.
  set (j := importInsertLoop sf 0 0 true).
  assert (importsOf sf = importsOf (take j sf) ++ importsOf (drop j sf))
    as -> by (by rewrite <- importsOf_app, take_drop).
  rewrite importsOf_app.
  assert (importsOf (ImportDeclaration s :: drop j sf)
          = s :: importsOf (drop j sf)) as -> by done.
  destruct (importInsertLoop_last sf 0 0 true) as [[Hj Hnone]|[_ Hnone]];
    [lia| |]; fold j in Hj || fold j in Hnone.
  - rewrite Hj, take_0, drop_0, Hnone. done.
  - rewrite Nat.sub_0_r in Hnone. fold j in Hnone. rewrite Hnone.
    by rewrite app_nil_r.
Qed.

Lemma importsOf_alter f k sf :
  (∀ st, match f st, st with
         | ImportDeclaration s', ImportDeclaration s => s' = s
         | ImportDeclaration _, _ | _, ImportDeclaration _ => False
         | _, _ => True
         end) →
  importsOf (alter f k sf) = importsOf sf.
Proof.
  intros Hf. revert k. induction sf as [|st sf IH]; intros [|k]; try done.
  - simpl. specialize (Hf st). unfold importsOf. simpl.
    destruct (f st), st; simplify_eq/=; done.
  - change (alter f (S k) (st :: sf)) with (st :: alter f k sf).
    unfold importsOf in *. simpl. by rewrite IH.
Qed.

Lemma importsOf_appendElementsAt node new sf :
  importsOf (appendElementsAt node new sf) = importsOf sf.
Proof.
  destruct node; simpl; apply importsOf_alter; by intros [].
Qed.

End Imports.

(** ** What a successful registration did *)

Section Inversion.

Variable joinPath : string → string.
Variable eta : string → gmap string string → option string.
Variable parse : string → SourceFile.
Variable elementsOf : string → option (list string).
Variable importable : ImportDeclarationStructure → bool.

Implicit Types (w : World) (sf : SourceFile) (kind : Kind).

Lemma module_success_inversion kind options w w' sf :
  isModuleKind kind = true →
  disk w !! joinPath "app/module.ts" = Some sf →
  generator joinPath eta parse elementsOf importable kind options w
    = (inr tt, w') →
  ∃ content symbol ci ds di d ps,
    disk w !! joinPath (filePath options) = None ∧
    eta (templateName kind) (input options) = Some content ∧
    input options !! symbolKey kind = Some symbol ∧
    getClass sf "AppModule" = Some (ci, ds) ∧
    getDecorator ds "Module" = Some (di, d) ∧
    getArguments d !! 0 = Some (ObjectLiteralExpression ps) ∧
    importable (registeredImport kind options symbol) = true ∧
    ((∃ pi k els new,
        getProperty ps (propertyKey kind)
          = Some (pi, PropertyAssignment k (ArrayLiteralExpression els)) ∧
        elementsOf (registeredElement kind options symbol) = Some new ∧
        disk w' =
          <[joinPath "app/module.ts" :=
              insertImportDeclaration (registeredImport kind options symbol)
                (appendElementsAt (PropertyArray ci di pi) new sf)]>
            (<[joinPath (filePath options) := parse content]> (disk w))) ∨
     (isPropertyAssignment (getProperty ps (propertyKey kind)) = false ∧
      disk w' =
        <[joinPath "app/module.ts" :=
            insertImportDeclaration (registeredImport kind options symbol) sf]>
          (<[joinPath (filePath options) := parse content]> (disk w)))).
Proof.
  intros Hk Hreg.
  rewrite (module_generation_run _ _ _ _ _ _ _ _ Hk).
  destruct (disk w !! joinPath (filePath options)) as [?|] eqn:Hfree; [done|].
  destruct (eta (templateName kind) (input options))
    as [content|] eqn:Heta; [|done].
  assert (joinPath "app/module.ts" ≠ joinPath (filePath options)) as Hne
    by (intros Heq; rewrite Heq in Hreg; congruence).
  unfold registerInModule.
  intros (moduleFile & w1 & Hload & Hrun)%bind_success.
  apply addSourceFileAtPath_success in Hload
    as (-> & Hdisk1 & sf1 & Hproj1 & Hfrom).
  apply (registerInModuleFile_success _ _ _ _ _ _ _ _ _ _ Hproj1) in Hrun
    as (ci & ds & di & d & ps & name & Hc & Hd & Ha & Himp & Hable & Hcases).
  assert (sf1 = sf) as ->.
  { destruct Hfrom as [Hfrom|[_ Hfrom]].
    - by rewrite newFileWorld_project in Hfrom.
    - rewrite newFileWorld_disk in Hfrom by done. congruence. }
  assert (input options !! symbolKey kind = Some name) as Hsym.
  { unfold definedText in Himp.
    destruct (input options !! symbolKey kind); by simplify_eq. }
  destruct (elementText_symbol _ _ _ Hk Hsym) as [Hel _].
  assert (registeredImport kind options name
          = mkImport None [name]
              (importFolder kind +:+ fileNameWithoutEx options)) as Hri
    by (by destruct kind).
  exists content, name, ci, ds, di, d, ps. do 6 (split; [done|]).
  rewrite Hri, Hdisk1 in *. split; [done|].
  destruct Hcases
    as [(pi & k & els & el & new & Hp & Hel' & Hnew & Hdisk)|[Hp Hdisk]].
  - left. exists pi, k, els, new. split; [done|].
    rewrite Hel in Hel'. by simplify_eq.
  - by right.
Qed.

Lemma config_success_inversion options w w' sf :
  disk w !! joinPath "config/index.ts" = Some sf →
  createConfigFile joinPath eta parse elementsOf importable
      options w = (inr tt, w') →
  ∃ content,
    disk w !! joinPath (filePath options) = None ∧
    eta "config" (input options) = Some content ∧
    importable
      (registeredImport Configuration options (fileNameWithoutEx options))
      = true ∧
    let imported :=
      insertImportDeclaration
        (registeredImport Configuration options (fileNameWithoutEx options))
        sf in
    ((getExportAssignment sf = None ∧
      disk w' = <[joinPath (filePath options) := parse content]> (disk w)) ∨
     (∃ k els new,
        getExportAssignment sf = Some (k, ArrayLiteralExpression els) ∧
        elementsOf (fileNameWithoutEx options) = Some new ∧
        disk w' =
          <[joinPath "config/index.ts" :=
              appendElementsAt
                (ExportedArray (shifted (importInsertIndex sf) k))
                new imported]>
            (<[joinPath (filePath options) := parse content]> (disk w)))).
Proof.
  intros Hreg.
  rewrite config_generation_run.
  destruct (disk w !! joinPath (filePath options)) as [?|] eqn:Hfree; [done|].
  destruct (eta "config" (input options)) as [content|] eqn:Heta; [|done].
  assert (joinPath "config/index.ts" ≠ joinPath (filePath options)) as Hne
    by (intros Heq; rewrite Heq in Hreg; congruence).
  unfold registerInIndex.
  intros (indexFile & w1 & Hload & Hrun)%bind_success.
  apply addSourceFileAtPath_success in Hload
    as (-> & Hdisk1 & sf1 & Hproj1 & Hfrom).
  apply (registerInIndexFile_success _ _ _ _ _ _ _ Hproj1) in Hrun.
  cbn zeta in Hrun. destruct Hrun as [Hable Hrun].
  assert (sf1 = sf) as ->.
  { destruct Hfrom as [Hfrom|[_ Hfrom]].
    - by rewrite newFileWorld_project in Hfrom.
    - rewrite newFileWorld_disk in Hfrom by done. congruence. }
  exists content. split; [done|]. split; [done|]. split; [done|]. cbn zeta.
  rewrite getExportAssignment_insertImportDeclaration in Hrun.
  rewrite Hdisk1 in Hrun.
  destruct (getExportAssignment sf) as [[k0 e0]|] eqn:He; simpl in Hrun.
  - right. destruct Hrun as [[? _]|(k & els & new & ? & ? & Hdisk)]; [done|].
    simplify_eq. by exists k0, els, new.
  - left. destruct Hrun as [[_ Hdisk]|(k & els & new & ? & _)]; [|done]. done.
Qed.

End Inversion.
(** * Properties of the generators and of the decorator *)

Section Claims.

Variable joinPath : string → string.
Variable eta : string → gmap string string → option string.
Variable parse : string → SourceFile.
Variable elementsOf : string → option (list string).
Variable importable : ImportDeclarationStructure → bool.

(** With single-element texts, what a run registers into an array is the
    list of the element texts of the requests that register into it. *)
Lemma registeredInto_single t requests :
  (∀ request,
     request ∈ requests → sameArray request.1 t = true →
     elementsOf (elementOf request) = Some [elementOf request]) →
  registeredInto elementsOf t requests =
    elementOf <$> filter (λ request, sameArray request.1 t) requests.
Proof.
  induction requests as [|request rest IH]; intros Hone; [done|].
  unfold registeredInto in *. rewrite filter_cons. cbn [mbind list_bind].
  rewrite IH by (intros r Hr; apply Hone; rewrite elem_of_cons; auto).
  unfold appendedBy.
  destruct (sameArray request.1 t) eqn:Hsame.
  - rewrite decide_True by done.
    rewrite Hone by (rewrite ?elem_of_cons; auto). done.
  - rewrite decide_False by (by intros []). done.
Qed.

(** C3: a generator of any kind invoked on a target path that already
    exists (under the project root) throws the error whose message is
    the path followed by " already exists"; the disk is left as it was,
    and the only effect performed is the existence check itself: no
    template is rendered, no file is read and none is written. *)
Theorem collision_fails_first kind options w :
  is_Some (disk w !! joinPath (filePath options)) →
  generator joinPath eta parse elementsOf importable kind options w =
    (inl (Error (filePath options +:+ " already exists")),
     mkWorld (disk w) (project w)
       (trace w ++ [ExistsSync (joinPath (filePath options))])).
Proof.
  intros H.
  destruct kind; simpl;
    unfold createConfigFile, createController, createService,
      createException, createRepo, createModel;
    by erewrite bind_inl by (by apply checkIfFileAlreadyExists_taken).
Qed.

(** C8: for the exception and model kinds, a generation succeeds exactly
    when the target path is free and the template renders, and then the
    disk differs from the one before by the single new file holding the
    rendered template at the target path.  The effects performed are
    the existence check, the rendering, the existence check of the
    non-overwriting creation and the write of the new file: no file is
    read, no other file is written, and the project never holds a tree
    other than the new file's. *)
Theorem plain_generation_only_new_file kind options w w' :
  kind = Exception ∨ kind = Model →
  generator joinPath eta parse elementsOf importable kind options w =
    (inr tt, w') ↔
  ∃ content,
    disk w !! joinPath (filePath options) = None ∧
    eta (templateName kind) (input options) = Some content ∧
    w' = mkWorld
           (<[joinPath (filePath options) := parse content]> (disk w))
           {[joinPath (filePath options) := parse content]}
           (trace w ++ [ExistsSync (joinPath (filePath options));
                        RenderAsync (templateName kind);
                        ExistsSync (joinPath (filePath options));
                        WriteFile (joinPath (filePath options))]).
Proof.
  intros Hk. rewrite (plain_generation_run _ _ _ _ _ _ _ _ Hk).
  unfold newFileWorld.
  destruct (disk w !! joinPath (filePath options)) as [sf|].
  { split; [done|]. by intros (? & ? & _). }
  destruct (eta (templateName kind) (input options)) as [content|].
  - split.
    + intros ?; simplify_eq. by exists content.
    + intros (c & _ & ? & ->). by simplify_eq.
  - split; [done|]. by intros (? & _ & ? & _).
Qed.

(** C1 (as amended): for the configuration, controller, service and
    repository kinds, on a registry file that has the array the kind
    registers into: a generation whose target path is free, whose
    template renders, whose symbol is named, whose element text fits
    into the array and whose import can be added succeeds; and every
    successful generation leaves the disk different from the one before
    in two files only: the new file, which holds the rendered template,
    and the registry file, whose tree is the old one with the elements
    of the element text appended at the end of that array (one element
    when the text is a single element) and one import statement
    inserted, nothing else changed. *)
Theorem registered_generation_effect kind options w sf els :
  isRegistered kind = true →
  disk w !! registryPath joinPath kind = Some sf →
  registryArray kind sf = Some els →
  (∀ content symbol new,
     disk w !! joinPath (filePath options) = None →
     eta (templateName kind) (input options) = Some content →
     symbolOf kind options = Some symbol →
     elementsOf (registeredElement kind options symbol) = Some new →
     importable (registeredImport kind options symbol) = true →
     ∃ w',
       generator joinPath eta parse elementsOf importable kind options w =
         (inr tt, w')) ∧
  (∀ w',
     generator joinPath eta parse elementsOf importable kind options w =
       (inr tt, w') →
     ∃ content symbol new sf0 sf',
       disk w !! joinPath (filePath options) = None ∧
       eta (templateName kind) (input options) = Some content ∧
       symbolOf kind options = Some symbol ∧
       elementsOf (registeredElement kind options symbol) = Some new ∧
       importable (registeredImport kind options symbol) = true ∧
       joinPath (filePath options) ≠ registryPath joinPath kind ∧
       disk w' = <[registryPath joinPath kind := sf']>
                   (<[joinPath (filePath options) := parse content]> (disk w)) ∧
       arrayGained kind new sf sf0 ∧
       insertedStatement
         (ImportDeclaration (registeredImport kind options symbol)) sf0 sf').
Proof.
  intros Hk Hreg Harr.
  assert (∀ content symbol new,
     disk w !! joinPath (filePath options) = None →
     eta (templateName kind) (input options) = Some content →
     symbolOf kind options = Some symbol →
     elementsOf (registeredElement kind options symbol) = Some new →
     importable (registeredImport kind options symbol) = true →
     ∃ sf0 sf',
       generator joinPath eta parse elementsOf importable kind options w =
         (inr tt,
          registeredWorld (registryPath joinPath kind) sf'
            (newFileWorld joinPath parse kind options content w)) ∧
       arrayGained kind new sf sf0 ∧
       insertedStatement
         (ImportDeclaration (registeredImport kind options symbol)) sf0 sf')
    as Hrun.
  { intros content symbol new Hfree Heta Hsym Hnew Hable.
    destruct (decide (kind = Configuration)) as [->|Hc].
    - simpl in *. simplify_eq.
      destruct (config_generation_appends joinPath eta parse elementsOf
                  importable _ _ _ _ _ _ Hnew Hable Hfree Heta Hreg Harr)
        as (k & He & Hrun).
      destruct (appendElementsAt_exported_gained _ new _ _ _ He)
        as (sf0 & _ & Hgain & Hins).
      eexists sf0, _. split; [exact Hrun|]. done.
    - assert (isModuleKind kind = true) as Hm by (by destruct kind).
      assert (symbolOf kind options = input options !! symbolKey kind) as Hso
        by (by destruct kind).
      rewrite registryPath_module in * by done.
      rewrite registryArray_module in Harr by done. rewrite Hso in Hsym.
      destruct (module_generation_appends joinPath eta parse elementsOf
                  importable _ _ _ _ _ _ _ _
                  Hm Hnew Hable Hfree Heta Hreg Harr Hsym)
        as (ci & ds & di & d & ps & pi & k & Hcl & Hd & Ha & Hp & Hrun).
      eexists _, _. split; [exact Hrun|].
      split; [|apply insertImportDeclaration_inserted].
      replace (arrayGained kind) with (moduleArrayGained (propertyKey kind))
        by (by destruct kind).
      by eapply appendElementsAt_module_gained. }
  split.
  - intros content symbol new Hfree Heta Hsym Hnew Hable.
    destruct (Hrun content symbol new Hfree Heta Hsym Hnew Hable)
      as (? & ? & ? & _).
    eauto.
  - intros w' Hok.
    assert (∃ content symbol new,
      disk w !! joinPath (filePath options) = None ∧
      eta (templateName kind) (input options) = Some content ∧
      symbolOf kind options = Some symbol ∧
      elementsOf (registeredElement kind options symbol) = Some new ∧
      importable (registeredImport kind options symbol) = true)
      as (content & symbol & new & Hfree & Heta & Hsym & Hnew & Hable).
    { destruct (decide (kind = Configuration)) as [->|Hc].
      - cbn [generator registryPath registryArray] in *.
        destruct (config_success_inversion joinPath eta parse elementsOf
                    importable _ _ _ _ Hreg Hok)
          as (content & Hfree & Heta & Hable & Hcases).
        destruct Hcases as [[He _]|(k & els0 & new & He & Hnew & _)].
        + apply exportedArray_Some in Harr as [? Harr]. congruence.
        + by exists content, (fileNameWithoutEx options), new.
      - assert (isModuleKind kind = true) as Hm by (by destruct kind).
        rewrite registryPath_module in * by done.
        rewrite registryArray_module in Harr by done.
        destruct (module_success_inversion joinPath eta parse elementsOf
                    importable _ _ _ _ _ Hm Hreg Hok)
          as (content & symbol & ci & ds & di & d & ps
              & Hfree & Heta & Hsym & Hcl & Hd & Ha & Hable & Hcases).
        replace (symbolOf kind options)
          with (input options !! symbolKey kind) by (by destruct kind).
        destruct Hcases as [(pi & k & els0 & new & Hp & Hnew & _)|[Hp _]].
        + by exists content, symbol, new.
        + exfalso.
          apply moduleArray_Some in Harr
            as (? & ? & ? & ? & ? & ? & ? & ? & ? & ? & Hp').
          simplify_eq. by rewrite Hp' in Hp. }
    destruct (Hrun content symbol new Hfree Heta Hsym Hnew Hable)
      as (sf0 & sf' & Hok' & Hgain & Hins).
    rewrite Hok in Hok'. simplify_eq.
    exists content, symbol, new, sf0, sf'. repeat (split; [done|]).
    split; [|done]. intros Heq. rewrite Heq in Hfree. congruence.
Qed.

(** C2 (as amended): for controller, service and repository generation on
    a module file whose [Module] decorator has an object literal as its
    argument: if the property is assigned something that is not an array
    literal, the generation fails after the new file was written and the
    module file read, before any save of the module file, whose content
    on disk stays as it was.  If the property is missing or is not a
    property assignment, the guard skips the append: when the input bag
    names the symbol and the import of that symbol can be added, the
    generation succeeds and the module file is saved with the new import
    as its only change; when the symbol is not named, or its import
    cannot be added, the generation fails at the import, and the module
    file is neither changed nor written. *)
Theorem module_property_policy kind options w content sf ci ds di d ps :
  isModuleKind kind = true →
  disk w !! joinPath (filePath options) = None →
  eta (templateName kind) (input options) = Some content →
  disk w !! joinPath "app/module.ts" = Some sf →
  getClass sf "AppModule" = Some (ci, ds) →
  getDecorator ds "Module" = Some (di, d) →
  getArguments d !! 0 = Some (ObjectLiteralExpression ps) →
  (∀ pi k initializer,
     getProperty ps (propertyKey kind)
       = Some (pi, PropertyAssignment k initializer) →
     (∀ els, initializer ≠ ArrayLiteralExpression els) →
     generator joinPath eta parse elementsOf importable kind options w =
       (inl (InvalidOperationError "expected ArrayLiteralExpression"),
        mkWorld
          (<[joinPath (filePath options) := parse content]> (disk w))
          (<[joinPath "app/module.ts" := sf]>
             {[joinPath (filePath options) := parse content]})
          (trace w ++ [ExistsSync (joinPath (filePath options));
                       RenderAsync (templateName kind);
                       ExistsSync (joinPath (filePath options));
                       WriteFile (joinPath (filePath options));
                       ReadFile (joinPath "app/module.ts")]))) ∧
  (∀ symbol,
     isPropertyAssignment (getProperty ps (propertyKey kind)) = false →
     input options !! symbolKey kind = Some symbol →
     importable (registeredImport kind options symbol) = true →
     ∃ sf' w',
       generator joinPath eta parse elementsOf importable kind options w =
         (inr tt, w') ∧
       insertedStatement
         (ImportDeclaration (registeredImport kind options symbol)) sf sf' ∧
       disk w' = <[joinPath "app/module.ts" := sf']>
                   (<[joinPath (filePath options) := parse content]> (disk w)) ∧
       WriteFile (joinPath "app/module.ts") ∈ trace w') ∧
  (isPropertyAssignment (getProperty ps (propertyKey kind)) = false →
   (input options !! symbolKey kind = None ∨
    ∃ symbol,
      input options !! symbolKey kind = Some symbol ∧
      importable (registeredImport kind options symbol) = false) →
   ∃ e w',
     generator joinPath eta parse elementsOf importable kind options w =
       (inl e, w') ∧
     disk w' = <[joinPath (filePath options) := parse content]> (disk w) ∧
     trace w' = trace w ++ [ExistsSync (joinPath (filePath options));
                            RenderAsync (templateName kind);
                            ExistsSync (joinPath (filePath options));
                            WriteFile (joinPath (filePath options));
                            ReadFile (joinPath "app/module.ts")]).
Proof.
  intros Hk Hfree Heta Hreg Hc Hd Ha.
  assert (joinPath "app/module.ts" ≠ joinPath (filePath options)) as Hne
    by (intros Heq; rewrite Heq in Hreg; congruence).
  rewrite (module_generation_run _ _ _ _ _ _ _ _ Hk), Hfree, Heta.
  split; [|split].
  - intros pi k initializer Hp Hinit.
    rewrite (registerInModule_not_array _ _ _ _ _ _ _ _ sf ci ds di d ps pi k
               initializer); try done.
    + simpl. by rewrite <- app_assoc.
    + by apply newFileWorld_project.
    + by rewrite newFileWorld_disk.
  - intros symbol Hp Hsym Hable.
    destruct (elementText_symbol _ _ _ Hk Hsym) as [_ ->].
    replace (registeredImport kind options symbol)
      with (mkImport None [symbol]
              (importFolder kind +:+ fileNameWithoutEx options)) in *
      by (by destruct kind).
    rewrite (registerInModule_skip _ _ _ _ _ _ _ _ sf ci ds di d ps);
      try done.
    + eexists _, _. split; [done|]. split; [|split].
      * apply insertImportDeclaration_inserted.
      * done.
      * simpl. rewrite !elem_of_app, !elem_of_cons. tauto.
    + by apply newFileWorld_project.
    + by rewrite newFileWorld_disk.
  - intros Hp [Hsym|(symbol & Hsym & Hable)].
    + unfold definedText. rewrite Hsym.
      rewrite (registerInModule_skip_unnamed _ _ _ _ _ _ _ _ sf
                 ci ds di d ps); try done.
      * eexists _, _. split; [done|]. simpl. by rewrite <- app_assoc.
      * by apply newFileWorld_project.
      * by rewrite newFileWorld_disk.
    + destruct (elementText_symbol _ _ _ Hk Hsym) as [_ ->].
      replace (registeredImport kind options symbol)
        with (mkImport None [symbol]
                (importFolder kind +:+ fileNameWithoutEx options)) in *
        by (by destruct kind).
      rewrite (registerInModule_skip_unimportable _ _ _ _ _ _ _ _ sf
                 ci ds di d ps); try done.
      * eexists _, _. split; [done|]. simpl. by rewrite <- app_assoc.
      * by apply newFileWorld_project.
      * by rewrite newFileWorld_disk.
Qed.

(** C4 (as amended): when [config/index.ts] has no default export
    assignment and the import of the file name can be added,
    [createConfigFile] raises no error in its registration steps: the only
    errors it can end in are the collision error of the guard and the
    failure of the renderer.  With a free target path and a template that
    renders it completes; the tree of the index file it holds in memory is
    then the old tree with the import statement inserted and nothing
    else, so no element was appended to any array, and the disk differs
    from the one before by the new file only.  When the import cannot be
    added, the call fails at the import instead, after the new file was
    written and the index file read. *)
Theorem config_without_default_export_completes options w sf :
  disk w !! joinPath "config/index.ts" = Some sf →
  getExportAssignment sf = None →
  let structure :=
    mkImport (Some (fileNameWithoutEx options)) []
      ("./" +:+ fileNameWithoutEx options) in
  (importable structure = true →
   ∀ e w',
     createConfigFile joinPath eta parse elementsOf importable options w =
       (inl e, w') →
     e = Error (filePath options +:+ " already exists") ∨
     e = RenderError "config") ∧
  (importable structure = true →
   ∀ content,
     disk w !! joinPath (filePath options) = None →
     eta "config" (input options) = Some content →
     ∃ sf' w',
       createConfigFile joinPath eta parse elementsOf importable options w =
         (inr tt, w') ∧
       project w' !! joinPath "config/index.ts" = Some sf' ∧
       insertedStatement (ImportDeclaration structure) sf sf' ∧
       disk w' = <[joinPath (filePath options) := parse content]> (disk w)) ∧
  (importable structure = false →
   ∀ content,
     disk w !! joinPath (filePath options) = None →
     eta "config" (input options) = Some content →
     ∃ w',
       createConfigFile joinPath eta parse elementsOf importable options w =
         (inl (NotImplementedError "an import declaration was expected"),
          w') ∧
       disk w' = <[joinPath (filePath options) := parse content]> (disk w) ∧
       trace w' = trace w ++ [ExistsSync (joinPath (filePath options));
                              RenderAsync "config";
                              ExistsSync (joinPath (filePath options));
                              WriteFile (joinPath (filePath options));
                              ReadFile (joinPath "config/index.ts")]).
Proof.
  intros Hreg He. cbn zeta. rewrite config_generation_run.
  destruct (disk w !! joinPath (filePath options)) as [old|] eqn:Hfree.
  { split; [|split; intros _ ? [=]].
    intros _ e w' ?; simplify_eq. by left. }
  assert (joinPath "config/index.ts" ≠ joinPath (filePath options)) as Hne
    by (intros Heq; rewrite Heq in Hreg; congruence).
  destruct (eta "config" (input options)) as [content|].
  2: { split; [|split; intros _ ? _ [=]].
       intros _ e w' ?; simplify_eq. by right. }
  split; [|split].
  - intros Hable.
    rewrite (registerInIndex_no_export _ _ _ _ _ sf);
      [|done|by apply newFileWorld_project|by rewrite newFileWorld_disk
       |done].
    done.
  - intros Hable c _ ?; simplify_eq.
    rewrite (registerInIndex_no_export _ _ _ _ _ sf);
      [|done|by apply newFileWorld_project|by rewrite newFileWorld_disk
       |done].
    eexists _, _. split; [done|]. simpl. rewrite lookup_insert_eq.
    split; [done|]. split; [|done]. apply insertImportDeclaration_inserted.
  - intros Hable c _ ?; simplify_eq.
    rewrite (registerInIndex_unimportable _ _ _ _ _ sf);
      [|done|by apply newFileWorld_project|by rewrite newFileWorld_disk].
    eexists. split; [done|]. simpl. by rewrite <- app_assoc.
Qed.

(** C5: when [config/index.ts] has no default export assignment,
    [createConfigFile], with a free target and a rendering template,
    leaves that file on disk as it was, whatever the outcome.  The last
    effect of the run is the read of the index file, and the only write
    is that of the new file.  When the import can be added the call
    succeeds: the tree held in memory has the import declaration added
    and so differs from the one on disk, but the function returns before
    the save of the index file.  When the import cannot be added the
    call fails at that step. *)
Theorem config_without_default_export_keeps_index options w content sf :
  disk w !! joinPath (filePath options) = None →
  eta "config" (input options) = Some content →
  disk w !! joinPath "config/index.ts" = Some sf →
  getExportAssignment sf = None →
  let structure :=
    mkImport (Some (fileNameWithoutEx options)) []
      ("./" +:+ fileNameWithoutEx options) in
  ∃ r w',
    createConfigFile joinPath eta parse elementsOf importable options w =
      (r, w') ∧
    disk w' !! joinPath "config/index.ts" = Some sf ∧
    joinPath (filePath options) ≠ joinPath "config/index.ts" ∧
    trace w' = trace w ++ [ExistsSync (joinPath (filePath options));
                           RenderAsync "config";
                           ExistsSync (joinPath (filePath options));
                           WriteFile (joinPath (filePath options));
                           ReadFile (joinPath "config/index.ts")] ∧
    (importable structure = true →
     r = inr tt ∧
     ∃ sf',
       project w' !! joinPath "config/index.ts" = Some sf' ∧
       ImportDeclaration structure ∈ sf' ∧
       sf' ≠ sf) ∧
    (importable structure = false →
     r = inl (NotImplementedError "an import declaration was expected")).
Proof.
  intros Hfree Heta Hreg He. cbn zeta.
  assert (joinPath "config/index.ts" ≠ joinPath (filePath options)) as Hne
    by (intros Heq; rewrite Heq in Hreg; congruence).
  rewrite config_generation_run, Hfree, Heta.
  destruct (importable _) eqn:Hable.
  - rewrite (registerInIndex_no_export _ _ _ _ _ sf);
      [|done|by apply newFileWorld_project|by rewrite newFileWorld_disk
       |done].
    eexists _, _. split; [done|]. simpl.
    rewrite lookup_insert_ne, lookup_insert_eq by done.
    split; [done|]. split; [done|].
    split; [by rewrite <- app_assoc|]. split; [|done].
    intros _. split; [done|]. eexists. split; [done|]. split.
    + unfold insertImportDeclaration, insertAt.
      rewrite elem_of_app, elem_of_cons. tauto.
    + intros Heq. apply (f_equal length) in Heq.
      unfold insertImportDeclaration in Heq.
      rewrite length_insertAt in Heq. lia.
  - rewrite (registerInIndex_unimportable _ _ _ _ _ sf);
      [|done|by apply newFileWorld_project|by rewrite newFileWorld_disk].
    eexists _, _. split; [done|]. simpl.
    rewrite lookup_insert_ne by done.
    split; [done|]. split; [done|].
    split; [by rewrite <- app_assoc|]. split; [done|]. done.
Qed.

(** C6 (as amended): repository generation, on a module file that has the
    [providers] array, builds the text
    [{ provide: '<repoToken>', useClass: <className>, }] with the token
    between the single quotes as it was given.  When that text is a
    single array element (and the import of the class can be added), the
    generation succeeds and the array holds its former elements followed
    by exactly that text.  When the text does not fit into the array,
    the generation fails and the module file stays as it was. *)
Theorem repository_provider_binding options w content sf els className :
  disk w !! joinPath (filePath options) = None →
  eta "repositoryDB" (input options) = Some content →
  disk w !! joinPath "app/module.ts" = Some sf →
  moduleArray "providers" sf = Some els →
  input options !! "className" = Some className →
  let text :=
    "{ provide: '" +:+ repoToken options +:+ "', useClass: "
      +:+ className +:+ ", }" in
  (elementsOf text = Some [text] →
   importable (mkImport None [className]
                 ("./repositories/" +:+ fileNameWithoutEx options)) = true →
   ∃ sf' w',
     createRepo joinPath eta parse elementsOf importable options w =
       (inr tt, w') ∧
     disk w' !! joinPath "app/module.ts" = Some sf' ∧
     moduleArray "providers" sf' = Some (els ++ [text])) ∧
  (elementsOf text = None →
   ∃ w',
     createRepo joinPath eta parse elementsOf importable options w =
       (inl (ManipulationError "the inserted text does not fit"), w') ∧
     disk w' !! joinPath "app/module.ts" = Some sf).
Proof.
  intros Hfree Heta Hreg Harr Hsym. cbn zeta. split.
  - intros Hnew Hable.
    destruct (module_generation_appends joinPath eta parse elementsOf
                importable Repository _ _ _ _ _ _ _
                eq_refl Hnew Hable Hfree Heta Hreg Harr Hsym)
      as (ci & ds & di & d & ps & pi & k & Hcl & Hd & Ha & Hp & Hrun).
    eexists _, _. split; [exact Hrun|].
    unfold registeredWorld. cbn [disk].
    rewrite lookup_insert_eq. split; [done|].
    rewrite moduleArray_insertImportDeclaration.
    rewrite (moduleArray_appendElementsAt "providers" "providers"
               _ _ _ _ _ _ _ _ _ _ Hcl Hd Ha Hp).
    by rewrite decide_True.
  - intros Hnew.
    assert (joinPath "app/module.ts" ≠ joinPath (filePath options)) as Hne
      by (intros Heq; rewrite Heq in Hreg; congruence).
    destruct (moduleArray_Some _ _ _ Harr)
      as (ci & ds & di & d & ps & pi & k & Hc & Hd & Ha & Hp).
    change (createRepo joinPath eta parse elementsOf importable options w)
      with (generator joinPath eta parse elementsOf importable Repository
              options w).
    rewrite (module_generation_run _ _ _ _ _ Repository _ _ eq_refl).
    cbn [templateName]. rewrite Hfree, Heta.
    destruct (elementText_symbol Repository _ _ eq_refl Hsym) as [-> ->].
    rewrite (registerInModule_unfit _ _ _ _ _ _ _ _ sf
               ci ds di d ps pi k els); try done.
    + eexists. split; [done|]. simpl. by rewrite lookup_insert_ne.
    + by apply newFileWorld_project.
    + by rewrite newFileWorld_disk.
Qed.

(** C7: for the controller, service and repository kinds, when the new
    file was written (the target path was free and the template rendered)
    and the generation then ends in an error, the new file is still on
    disk with the rendered content, every other file, the registry file
    among them, is as it was before, and nothing but the new file was
    written during the run. *)
Theorem failed_registration_keeps_new_file kind options w content e w' :
  isModuleKind kind = true →
  disk w !! joinPath (filePath options) = None →
  eta (templateName kind) (input options) = Some content →
  generator joinPath eta parse elementsOf importable kind options w =
    (inl e, w') →
  disk w' !! joinPath (filePath options) = Some (parse content) ∧
  (∀ q, q ≠ joinPath (filePath options) → disk w' !! q = disk w !! q) ∧
  (∀ q, WriteFile q ∈ trace w' →
        WriteFile q ∈ trace w ∨ q = joinPath (filePath options)).
Proof.
  intros Hk Hfree Heta.
  rewrite (module_generation_run _ _ _ _ _ _ _ _ Hk), Hfree, Heta.
  intros [Hdisk Htrace]%registerInModule_error.
  rewrite Hdisk. simpl. split; [by rewrite lookup_insert_eq|].
  split; [by intros q Hq; rewrite lookup_insert_ne|].
  intros q Hq%Htrace. simpl in Hq.
  rewrite !elem_of_app, !elem_of_cons, elem_of_nil in Hq.
  destruct Hq as [?|[?|[?|[?|[?|[]]]]]]; simplify_eq; auto.
Qed.

(** C9: take any run of generation requests, of whatever kinds, served one
    after the other and all successful, and a registry array that has
    the expected shape before the run.  After the run the array holds its
    former elements followed by the elements of the requests that
    register into it, in the order in which the requests were served:
    each successful generation appended at the end.  When the element
    text of each of those requests is a single element, these are the
    element texts themselves. *)
Theorem registration_order_is_invocation_order t requests w w' sf els :
  isRegistered t = true →
  disk w !! registryPath joinPath t = Some sf →
  registryArray t sf = Some els →
  generateAll joinPath eta parse elementsOf importable requests w =
    (inr tt, w') →
  ∃ sf',
    disk w' !! registryPath joinPath t = Some sf' ∧
    registryArray t sf' = Some (els ++ registeredInto elementsOf t requests) ∧
    ((∀ request,
        request ∈ requests → sameArray request.1 t = true →
        elementsOf (elementOf request) = Some [elementOf request]) →
     registryArray t sf' =
       Some (els ++ (elementOf
                       <$> filter (λ request, sameArray request.1 t)
                             requests))).
Proof.
  intros Ht Hreg Harr Hrun.
  assert (∃ sf',
    disk w' !! registryPath joinPath t = Some sf' ∧
    registryArray t sf' = Some (els ++ registeredInto elementsOf t requests))
    as (sf' & Hreg' & Harr').
  { revert w sf els Hreg Harr Hrun.
    induction requests as [|[kind options] rest IH];
      intros w sf els Hreg Harr.
    - cbn [generateAll]. unfold mret, Eff_ret, ret.
      intros ?; simplify_eq. exists sf. by rewrite app_nil_r.
    - cbn [generateAll].
      intros ([] & w1 & Hstep & Hrest)%bind_success.
      destruct (generation_step_array joinPath eta parse elementsOf
                  importable _ _ _ _ _ _ _ Ht Hreg Harr Hstep)
        as (sf1 & Hreg1 & Harr1).
      destruct (IH _ _ _ Hreg1 Harr1 Hrest) as (sf' & Hreg' & Harr').
      exists sf'. split; [done|]. rewrite Harr'. f_equal.
      unfold registeredInto. cbn [mbind list_bind].
      by rewrite <- app_assoc. }
  exists sf'. split; [done|]. split; [done|].
  intros Hone. by rewrite Harr', registeredInto_single.
Qed.

End Claims.

(** C10: the [Dto] parameter decorator returns the [_dto] field of the
    WebSocket client when the context type is ['ws'], and the result of
    [dto()] on the HTTP request for every other context type. *)
Theorem Dto_by_transport {Payload : Type} (data : string)
    (ctx : ExecutionContext Payload) :
  (contextType ctx = "ws" →
     Dto data ctx = _dto (getClient (switchToWs ctx))) ∧
  (contextType ctx ≠ "ws" →
     Dto data ctx = dto (getRequest (switchToHttp ctx))).
Proof.
  unfold Dto. split; intros H.
  - by rewrite bool_decide_eq_true_2.
  - by rewrite bool_decide_eq_false_2.
Qed.


(** * The properties on the sample project *)

(** A controller requested at the path of the module file, which exists. *)
Lemma collision_fails_first_witness :
  generator Sample.joinPath Sample.eta Sample.parse Sample.elementsOf
    Sample.importable Controller Sample.clashing Sample.world =
    (inl (Error "app/module.ts already exists"),
     mkWorld (disk Sample.world) ∅ [ExistsSync "/srv/app/app/module.ts"]).
Proof.
  apply (collision_fails_first Sample.joinPath Sample.eta Sample.parse
           Sample.elementsOf Sample.importable
           Controller Sample.clashing Sample.world).
  vm_compute. eexists. reflexivity.
Defined.

(** An exception generated in the sample project. *)
Lemma plain_generation_only_new_file_witness :
  disk Sample.world !! "/srv/app/app/exceptions/widget.ts" = None ∧
  generator Sample.joinPath Sample.eta Sample.parse Sample.elementsOf
    Sample.importable Exception Sample.widgetException Sample.world =
    (inr tt,
     mkWorld
       (<["/srv/app/app/exceptions/widget.ts" :=
            [OtherStatement "// rendered from exception"]]>
          (disk Sample.world))
       {["/srv/app/app/exceptions/widget.ts" :=
            [OtherStatement "// rendered from exception"]]}
       [ExistsSync "/srv/app/app/exceptions/widget.ts";
        RenderAsync "exception";
        ExistsSync "/srv/app/app/exceptions/widget.ts";
        WriteFile "/srv/app/app/exceptions/widget.ts"]).
Proof.
  split; [reflexivity|].
  apply (plain_generation_only_new_file Sample.joinPath Sample.eta
           Sample.parse Sample.elementsOf Sample.importable
           Exception Sample.widgetException Sample.world).
  - left. reflexivity.
  - exists "// rendered from exception".
    split; [reflexivity|]. split; reflexivity.
Defined.

(** One WebSocket context and one HTTP context. *)
Lemma Dto_by_transport_witness :
  Dto "" (mkExecutionContext "ws" (mkWsHost (mkWsClient 7))
            (mkHttpHost (mkRequest 9))) = 7 ∧
  Dto "" (mkExecutionContext "http" (mkWsHost (mkWsClient 7))
            (mkHttpHost (mkRequest 9))) = 9.
Proof.
  split.
  - apply (Dto_by_transport ""
             (mkExecutionContext "ws" (mkWsHost (mkWsClient 7))
                (mkHttpHost (mkRequest 9)))).
    reflexivity.
  - apply (Dto_by_transport ""
             (mkExecutionContext "http" (mkWsHost (mkWsClient 7))
                (mkHttpHost (mkRequest 9)))).
    discriminate.
Defined.

(** A controller generated in the sample project. *)
Lemma registered_generation_effect_witness :
  ∃ w',
    generator Sample.joinPath Sample.eta Sample.parse Sample.elementsOf
      Sample.importable Controller Sample.widgetController Sample.world =
      (inr tt, w') ∧
    ∃ content symbol new sf0 sf',
      disk Sample.world !! "/srv/app/app/controllers/widget.ts" = None ∧
      Sample.eta "controller" (input Sample.widgetController)
        = Some content ∧
      input Sample.widgetController !! "controllerName" = Some symbol ∧
      Sample.elementsOf symbol = Some new ∧
      Sample.importable (mkImport None [symbol] "./controllers/widget")
        = true ∧
      "/srv/app/app/controllers/widget.ts" ≠ "/srv/app/app/module.ts" ∧
      disk w' = <["/srv/app/app/module.ts" := sf']>
                  (<["/srv/app/app/controllers/widget.ts" :=
                       Sample.parse content]> (disk Sample.world)) ∧
      moduleArrayGained "controllers" new Sample.moduleTree sf0 ∧
      insertedStatement
        (ImportDeclaration (mkImport None [symbol] "./controllers/widget"))
        sf0 sf'.
Proof.
  destruct (registered_generation_effect Sample.joinPath Sample.eta
              Sample.parse Sample.elementsOf Sample.importable
              Controller Sample.widgetController Sample.world
              Sample.moduleTree ["UserController"]
              eq_refl eq_refl eq_refl) as [Hruns Heffect].
  destruct (Hruns "// rendered from controller" "WidgetController"
              ["WidgetController"] eq_refl eq_refl eq_refl eq_refl eq_refl)
    as [w' Hok].
  exists w'. split; [exact Hok|]. exact (Heffect w' Hok).
Defined.

(** Against C1 as stated: on [@Module({})] the controller generation
    succeeds and saves the module file, whose tree is then the old one
    with the import in front of the class and nothing else: there is no
    array in the old tree that could have gained an element.  And on a
    module that has the array, a controller request whose name is
    [LeftController, RightController] succeeds and leaves two new
    elements in the array, not one. *)
Lemma generation_succeeds_without_append :
  generator Sample.joinPath Sample.eta Sample.parse Sample.elementsOf
    Sample.importable Controller Sample.widgetController Sample.bareWorld =
    (inr tt,
     mkWorld
       {[ "/srv/app/app/module.ts" :=
            [ ImportDeclaration (mkImport None ["Module"] "@nestjs/common");
              ImportDeclaration
                (mkImport None ["WidgetController"] "./controllers/widget");
              ClassDeclaration (Some "AppModule") [Sample.bareDecorator] "{}" ];
          "/srv/app/app/controllers/widget.ts" :=
            [OtherStatement "// rendered from controller"];
          "/srv/app/config/index.ts" := Sample.indexTree ]}
       {[ "/srv/app/app/module.ts" :=
            [ ImportDeclaration (mkImport None ["Module"] "@nestjs/common");
              ImportDeclaration
                (mkImport None ["WidgetController"] "./controllers/widget");
              ClassDeclaration (Some "AppModule") [Sample.bareDecorator] "{}" ];
          "/srv/app/app/controllers/widget.ts" :=
            [OtherStatement "// rendered from controller"] ]}
       [ExistsSync "/srv/app/app/controllers/widget.ts";
        RenderAsync "controller";
        ExistsSync "/srv/app/app/controllers/widget.ts";
        WriteFile "/srv/app/app/controllers/widget.ts";
        ReadFile "/srv/app/app/module.ts";
        WriteFile "/srv/app/app/module.ts"]) ∧
  (¬ ∃ new sf0,
       arrayGained Controller new Sample.bareModuleTree sf0) ∧
  (∃ w' sf',
     generator Sample.joinPath Sample.eta Sample.parse Sample.elementsOf
       Sample.importable Controller Sample.pairController Sample.world =
       (inr tt, w') ∧
     disk w' !! "/srv/app/app/module.ts" = Some sf' ∧
     moduleArray "controllers" Sample.moduleTree = Some ["UserController"] ∧
     moduleArray "controllers" sf' =
       Some ["UserController"; "LeftController"; "RightController"]).
Proof.
  split; [|split].
  - vm_compute. reflexivity.
  - intros (new & sf0 & ci & body & ds & di & d & ps & pi & els
            & Hc & Hd & _ & Ha & Hp & _).
    destruct ci as [|[|ci]]; simplify_eq/=.
    destruct di as [|di]; simplify_eq/=.
  - eexists _, _. split; [vm_compute; reflexivity|].
    split; [vm_compute; reflexivity|]. split; vm_compute; reflexivity.
Qed.

(** Against C2 as stated: on [@Module({})], where the argument object has
    no [providers] property, the service generation does not fail: it
    succeeds, and the module file is written with the import added.  The
    same happens on [@Module({ controllers, providers })], where the
    property is there without being assigned an array literal. *)
Lemma missing_property_is_not_an_error :
  getProperty [] "providers" = None ∧
  (∃ w',
     generator Sample.joinPath Sample.eta Sample.parse Sample.elementsOf
       Sample.importable Service Sample.widgetService Sample.bareWorld =
       (inr tt, w') ∧
     WriteFile "/srv/app/app/module.ts" ∈ trace w' ∧
     disk w' !! "/srv/app/app/module.ts" =
       Some [ ImportDeclaration (mkImport None ["Module"] "@nestjs/common");
              ImportDeclaration
                (mkImport None ["WidgetService"] "./services/widget");
              ClassDeclaration (Some "AppModule") [Sample.bareDecorator]
                "{}" ] ∧
     disk w' !! "/srv/app/app/module.ts"
       ≠ disk Sample.bareWorld !! "/srv/app/app/module.ts") ∧
  (∃ w',
     generator Sample.joinPath Sample.eta Sample.parse Sample.elementsOf
       Sample.importable Service Sample.widgetService Sample.shorthandWorld =
       (inr tt, w') ∧
     WriteFile "/srv/app/app/module.ts" ∈ trace w' ∧
     disk w' !! "/srv/app/app/module.ts" =
       Some [ ImportDeclaration (mkImport None ["Module"] "@nestjs/common");
              ImportDeclaration
                (mkImport None ["WidgetService"] "./services/widget");
              OtherStatement "const controllers = [], providers = [];";
              ClassDeclaration (Some "AppModule")
                [Sample.shorthandDecorator] "{}" ]).
Proof.
  split; [reflexivity|]. split.
  - eexists. split; [vm_compute; reflexivity|].
    split; [|split].
    + cbn [trace]. rewrite !elem_of_cons. tauto.
    + vm_compute. reflexivity.
    + vm_compute. discriminate.
  - eexists. split; [vm_compute; reflexivity|].
    split.
    + cbn [trace]. rewrite !elem_of_cons. tauto.
    + vm_compute. reflexivity.
Qed.

(** A service generated against a module whose [providers] is computed by
    a call, and against a module without [providers], with and without
    the class name in the input bag. *)
Lemma module_property_policy_witness :
  generator Sample.joinPath Sample.eta Sample.parse Sample.elementsOf
    Sample.importable Service Sample.widgetService Sample.computedWorld =
    (inl (InvalidOperationError "expected ArrayLiteralExpression"),
     mkWorld
       (<["/srv/app/app/services/widget.ts" :=
            [OtherStatement "// rendered from service"]]>
          (disk Sample.computedWorld))
       (<["/srv/app/app/module.ts" := Sample.computedModuleTree]>
          {["/srv/app/app/services/widget.ts" :=
              [OtherStatement "// rendered from service"]]})
       [ExistsSync "/srv/app/app/services/widget.ts";
        RenderAsync "service";
        ExistsSync "/srv/app/app/services/widget.ts";
        WriteFile "/srv/app/app/services/widget.ts";
        ReadFile "/srv/app/app/module.ts"]) ∧
  (∃ sf' w',
     generator Sample.joinPath Sample.eta Sample.parse Sample.elementsOf
       Sample.importable Service Sample.widgetService Sample.bareWorld =
       (inr tt, w') ∧
     insertedStatement
       (ImportDeclaration
          (mkImport None ["WidgetService"] "./services/widget"))
       Sample.bareModuleTree sf' ∧
     disk w' = <["/srv/app/app/module.ts" := sf']>
                 (<["/srv/app/app/services/widget.ts" :=
                      [OtherStatement "// rendered from service"]]>
                    (disk Sample.bareWorld)) ∧
     WriteFile "/srv/app/app/module.ts" ∈ trace w') ∧
  (∃ e w',
     generator Sample.joinPath Sample.eta Sample.parse Sample.elementsOf
       Sample.importable Service Sample.namelessService Sample.bareWorld =
       (inl e, w') ∧
     disk w' = <["/srv/app/app/services/widget.ts" :=
                   [OtherStatement "// rendered from service"]]>
                 (disk Sample.bareWorld) ∧
     trace w' = [ExistsSync "/srv/app/app/services/widget.ts";
                 RenderAsync "service";
                 ExistsSync "/srv/app/app/services/widget.ts";
                 WriteFile "/srv/app/app/services/widget.ts";
                 ReadFile "/srv/app/app/module.ts"]).
Proof.
  split; [|split].
  - apply (proj1 (module_property_policy Sample.joinPath Sample.eta
                    Sample.parse Sample.elementsOf Sample.importable
                    Service Sample.widgetService
                    Sample.computedWorld "// rendered from service"
                    Sample.computedModuleTree 1 [Sample.computedDecorator] 0
                    Sample.computedDecorator Sample.computedProperties
                    eq_refl eq_refl eq_refl eq_refl eq_refl eq_refl eq_refl)
             1 "providers" (OtherExpression "loadProviders()")).
    + reflexivity.
    + discriminate.
  - apply (proj1 (proj2 (module_property_policy Sample.joinPath Sample.eta
                    Sample.parse Sample.elementsOf Sample.importable
                    Service Sample.widgetService
                    Sample.bareWorld "// rendered from service"
                    Sample.bareModuleTree 1 [Sample.bareDecorator] 0
                    Sample.bareDecorator []
                    eq_refl eq_refl eq_refl eq_refl eq_refl eq_refl eq_refl))
             "WidgetService").
    + reflexivity.
    + reflexivity.
    + reflexivity.
  - apply (proj2 (proj2 (module_property_policy Sample.joinPath Sample.eta
                    Sample.parse Sample.elementsOf Sample.importable
                    Service Sample.namelessService
                    Sample.bareWorld "// rendered from service"
                    Sample.bareModuleTree 1 [Sample.bareDecorator] 0
                    Sample.bareDecorator []
                    eq_refl eq_refl eq_refl eq_refl eq_refl eq_refl
                    eq_refl))).
    + reflexivity.
    + left. reflexivity.
Defined.

(** Against C4 as stated: the barrel file has no default export, and the
    configuration generation for the file name [my-queue] raises an
    error all the same: [import my-queue from "./my-queue"] is not an
    import declaration, and the import is added before the default
    export is looked for. *)
Lemma config_without_default_export_may_fail :
  getExportAssignment Sample.plainIndexTree = None ∧
  createConfigFile Sample.joinPath Sample.eta Sample.parse Sample.elementsOf
    Sample.importable Sample.hyphenConfig Sample.plainIndexWorld =
    (inl (NotImplementedError "an import declaration was expected"),
     mkWorld
       (<["/srv/app/config/my-queue.ts" :=
            [OtherStatement "// rendered from config"]]>
          (disk Sample.plainIndexWorld))
       (<["/srv/app/config/index.ts" := Sample.plainIndexTree]>
          {["/srv/app/config/my-queue.ts" :=
              [OtherStatement "// rendered from config"]]})
       [ExistsSync "/srv/app/config/my-queue.ts";
        RenderAsync "config";
        ExistsSync "/srv/app/config/my-queue.ts";
        WriteFile "/srv/app/config/my-queue.ts";
        ReadFile "/srv/app/config/index.ts"]).
Proof. split; vm_compute; reflexivity. Qed.

(** A configuration generated against a barrel file that has no default
    export, under a name that can be imported and under one that
    cannot. *)
Lemma config_without_default_export_completes_witness :
  (∃ sf' w',
     createConfigFile Sample.joinPath Sample.eta Sample.parse
       Sample.elementsOf Sample.importable
       Sample.queueConfig Sample.plainIndexWorld = (inr tt, w') ∧
     project w' !! "/srv/app/config/index.ts" = Some sf' ∧
     insertedStatement
       (ImportDeclaration (mkImport (Some "queue") [] "./queue"))
       Sample.plainIndexTree sf' ∧
     disk w' = <["/srv/app/config/queue.ts" :=
                   [OtherStatement "// rendered from config"]]>
                 (disk Sample.plainIndexWorld)) ∧
  (∃ w',
     createConfigFile Sample.joinPath Sample.eta Sample.parse
       Sample.elementsOf Sample.importable
       Sample.hyphenConfig Sample.plainIndexWorld =
       (inl (NotImplementedError "an import declaration was expected"),
        w') ∧
     disk w' = <["/srv/app/config/my-queue.ts" :=
                   [OtherStatement "// rendered from config"]]>
                 (disk Sample.plainIndexWorld) ∧
     trace w' = [ExistsSync "/srv/app/config/my-queue.ts";
                 RenderAsync "config";
                 ExistsSync "/srv/app/config/my-queue.ts";
                 WriteFile "/srv/app/config/my-queue.ts";
                 ReadFile "/srv/app/config/index.ts"]).
Proof.
  split.
  - apply (proj1 (proj2 (config_without_default_export_completes
                    Sample.joinPath Sample.eta Sample.parse
                    Sample.elementsOf Sample.importable Sample.queueConfig
                    Sample.plainIndexWorld Sample.plainIndexTree
                    eq_refl eq_refl))
             eq_refl "// rendered from config").
    + reflexivity.
    + reflexivity.
  - apply (proj2 (proj2 (config_without_default_export_completes
                    Sample.joinPath Sample.eta Sample.parse
                    Sample.elementsOf Sample.importable Sample.hyphenConfig
                    Sample.plainIndexWorld Sample.plainIndexTree
                    eq_refl eq_refl))
             eq_refl "// rendered from config").
    + reflexivity.
    + reflexivity.
Defined.

(** The same two generations, seen from the barrel file. *)
Lemma config_without_default_export_keeps_index_witness :
  (∃ r w',
     createConfigFile Sample.joinPath Sample.eta Sample.parse
       Sample.elementsOf Sample.importable
       Sample.queueConfig Sample.plainIndexWorld = (r, w') ∧
     disk w' !! "/srv/app/config/index.ts" = Some Sample.plainIndexTree ∧
     "/srv/app/config/queue.ts" ≠ "/srv/app/config/index.ts" ∧
     trace w' = [ExistsSync "/srv/app/config/queue.ts";
                 RenderAsync "config";
                 ExistsSync "/srv/app/config/queue.ts";
                 WriteFile "/srv/app/config/queue.ts";
                 ReadFile "/srv/app/config/index.ts"] ∧
     (Sample.importable (mkImport (Some "queue") [] "./queue") = true →
      r = inr tt ∧
      ∃ sf',
        project w' !! "/srv/app/config/index.ts" = Some sf' ∧
        ImportDeclaration (mkImport (Some "queue") [] "./queue") ∈ sf' ∧
        sf' ≠ Sample.plainIndexTree) ∧
     (Sample.importable (mkImport (Some "queue") [] "./queue") = false →
      r = inl (NotImplementedError "an import declaration was expected"))) ∧
  (∃ r w',
     createConfigFile Sample.joinPath Sample.eta Sample.parse
       Sample.elementsOf Sample.importable
       Sample.hyphenConfig Sample.plainIndexWorld = (r, w') ∧
     disk w' !! "/srv/app/config/index.ts" = Some Sample.plainIndexTree ∧
     "/srv/app/config/my-queue.ts" ≠ "/srv/app/config/index.ts" ∧
     trace w' = [ExistsSync "/srv/app/config/my-queue.ts";
                 RenderAsync "config";
                 ExistsSync "/srv/app/config/my-queue.ts";
                 WriteFile "/srv/app/config/my-queue.ts";
                 ReadFile "/srv/app/config/index.ts"] ∧
     (Sample.importable (mkImport (Some "my-queue") [] "./my-queue") = true →
      r = inr tt ∧
      ∃ sf',
        project w' !! "/srv/app/config/index.ts" = Some sf' ∧
        ImportDeclaration (mkImport (Some "my-queue") [] "./my-queue")
          ∈ sf' ∧
        sf' ≠ Sample.plainIndexTree) ∧
     (Sample.importable (mkImport (Some "my-queue") [] "./my-queue") = false →
      r = inl (NotImplementedError "an import declaration was expected"))).
Proof.
  split.
  - apply (config_without_default_export_keeps_index Sample.joinPath
             Sample.eta Sample.parse Sample.elementsOf Sample.importable
             Sample.queueConfig Sample.plainIndexWorld
             "// rendered from config" Sample.plainIndexTree); reflexivity.
  - apply (config_without_default_export_keeps_index Sample.joinPath
             Sample.eta Sample.parse Sample.elementsOf Sample.importable
             Sample.hyphenConfig Sample.plainIndexWorld
             "// rendered from config" Sample.plainIndexTree); reflexivity.
Defined.

(** Against C6 as stated: with the token [O'Brien] the text built for the
    binding is [{ provide: 'O'Brien', useClass: WidgetRepository, }],
    whose second quote ends the string literal early.  The text does not
    fit into the array: the generation fails, and the [providers] array
    of the module file on disk is the one it was, with no binding
    appended. *)
Lemma provider_binding_breaks_on_quote :
  providerBinding "O'Brien" "WidgetRepository" =
    "{ provide: 'O'Brien', useClass: WidgetRepository, }" ∧
  ∃ w',
    createRepo Sample.joinPath Sample.eta Sample.parse Sample.elementsOf
      Sample.importable Sample.quotedRepository Sample.world =
      (inl (ManipulationError "the inserted text does not fit"), w') ∧
    disk w' !! "/srv/app/app/module.ts" = Some Sample.moduleTree ∧
    moduleArray "providers" Sample.moduleTree = Some ["UserService"].
Proof.
  split; [reflexivity|].
  eexists. split; [vm_compute; reflexivity|].
  split; vm_compute; reflexivity.
Qed.

(** The repository [WidgetRepository] bound to the token [WIDGET_REPO],
    and bound to the token [O'Brien]. *)
Lemma repository_provider_binding_witness :
  (∃ sf' w',
     createRepo Sample.joinPath Sample.eta Sample.parse Sample.elementsOf
       Sample.importable Sample.widgetRepository Sample.world =
       (inr tt, w') ∧
     disk w' !! "/srv/app/app/module.ts" = Some sf' ∧
     moduleArray "providers" sf' =
       Some ["UserService";
             "{ provide: 'WIDGET_REPO', useClass: WidgetRepository, }"]) ∧
  (∃ w',
     createRepo Sample.joinPath Sample.eta Sample.parse Sample.elementsOf
       Sample.importable Sample.quotedRepository Sample.world =
       (inl (ManipulationError "the inserted text does not fit"), w') ∧
     disk w' !! "/srv/app/app/module.ts" = Some Sample.moduleTree).
Proof.
  split.
  - apply (proj1 (repository_provider_binding Sample.joinPath Sample.eta
                    Sample.parse Sample.elementsOf Sample.importable
                    Sample.widgetRepository Sample.world
                    "// rendered from repositoryDB"
                    Sample.moduleTree ["UserService"] "WidgetRepository"
                    eq_refl eq_refl eq_refl eq_refl eq_refl));
      reflexivity.
  - apply (proj2 (repository_provider_binding Sample.joinPath Sample.eta
                    Sample.parse Sample.elementsOf Sample.importable
                    Sample.quotedRepository Sample.world
                    "// rendered from repositoryDB"
                    Sample.moduleTree ["UserService"] "WidgetRepository"
                    eq_refl eq_refl eq_refl eq_refl eq_refl));
      reflexivity.
Defined.

(** A repository generated against a module whose [providers] is computed
    by a call: the registration fails, the new file stays. *)
Lemma failed_registration_keeps_new_file_witness :
  generator Sample.joinPath Sample.eta Sample.parse Sample.elementsOf
    Sample.importable Repository Sample.widgetRepository
    Sample.computedWorld =
    (inl (InvalidOperationError "expected ArrayLiteralExpression"),
     (generator Sample.joinPath Sample.eta Sample.parse Sample.elementsOf
        Sample.importable Repository Sample.widgetRepository
        Sample.computedWorld).2) ∧
  let w' :=
    (generator Sample.joinPath Sample.eta Sample.parse Sample.elementsOf
       Sample.importable Repository Sample.widgetRepository
       Sample.computedWorld).2 in
  disk w' !! "/srv/app/app/repositories/widget.ts"
    = Some [OtherStatement "// rendered from repositoryDB"] ∧
  (∀ q, q ≠ "/srv/app/app/repositories/widget.ts" →
        disk w' !! q = disk Sample.computedWorld !! q) ∧
  (∀ q, WriteFile q ∈ trace w' →
        WriteFile q ∈ trace Sample.computedWorld ∨
        q = "/srv/app/app/repositories/widget.ts").
Proof.
  split; [vm_compute; reflexivity|].
  apply (failed_registration_keeps_new_file Sample.joinPath Sample.eta
           Sample.parse Sample.elementsOf Sample.importable
           Repository Sample.widgetRepository
           Sample.computedWorld "// rendered from repositoryDB"
           (InvalidOperationError "expected ArrayLiteralExpression")).
  - reflexivity.
  - reflexivity.
  - reflexivity.
  - vm_compute. reflexivity.
Defined.

(** Four requests in a row; the [providers] array afterwards. *)
Lemma registration_order_is_invocation_order_witness :
  ∃ sf',
    disk (generateAll Sample.joinPath Sample.eta Sample.parse
            Sample.elementsOf Sample.importable
            Sample.requests Sample.world).2
      !! "/srv/app/app/module.ts" = Some sf' ∧
    registryArray Service sf' =
      Some ["UserService"; "WidgetService";
            "{ provide: 'WIDGET_REPO', useClass: WidgetRepository, }"] ∧
    ((∀ request,
        request ∈ Sample.requests → sameArray request.1 Service = true →
        Sample.elementsOf (elementOf request) = Some [elementOf request]) →
     registryArray Service sf' =
       Some (["UserService"]
               ++ (elementOf
                     <$> filter (λ request, sameArray request.1 Service)
                           Sample.requests))).
Proof.
  apply (registration_order_is_invocation_order Sample.joinPath Sample.eta
           Sample.parse Sample.elementsOf Sample.importable
           Service Sample.requests Sample.world
           (generateAll Sample.joinPath Sample.eta Sample.parse
              Sample.elementsOf Sample.importable
              Sample.requests Sample.world).2
           Sample.moduleTree ["UserService"]).
  - reflexivity.
  - reflexivity.
  - reflexivity.
  - vm_compute. reflexivity.
Defined.

(** * Further properties of the generators *)

Section Further.

Variable joinPath : string → string.
Variable eta : string → gmap string string → option string.
Variable parse : string → SourceFile.
Variable elementsOf : string → option (list string).
Variable importable : ImportDeclarationStructure → bool.

Implicit Types (w : World) (sf : SourceFile) (kind : Kind).

(** X1: once a generation of any kind has succeeded, a further request
    for the same target path, of whatever kind, fails with the collision
    error and changes nothing on disk: the file written by the first
    generation is what the guard of the second one finds. *)
Theorem second_generation_collides kind kind2 options options2 w w' :
  generator joinPath eta parse elementsOf importable kind options w =
    (inr tt, w') →
  filePath options2 = filePath options →
  generator joinPath eta parse elementsOf importable kind2 options2 w' =
    (inl (Error (filePath options +:+ " already exists")),
     mkWorld (disk w') (project w')
       (trace w' ++ [ExistsSync (joinPath (filePath options))])).
Proof.
  intros Hok Hpath.
  assert (is_Some (disk w' !! joinPath (filePath options))) as [sf Hsf].
  { rewrite generation_run in Hok.
    destruct (disk w !! joinPath (filePath options)); [done|].
    destruct (eta (templateName kind) (input options)); [|done].
    apply registration_outcome in Hok
      as (evs & _ & _ & [[-> _]|(_ & _ & sf' & ->)]).
    - simpl. rewrite lookup_insert_eq. eauto.
    - destruct (decide (registryPath joinPath kind
                        = joinPath (filePath options))) as [->|Hne].
      + rewrite lookup_insert_eq. eauto.
      + rewrite lookup_insert_ne by done. simpl.
        rewrite lookup_insert_eq. eauto. }
  rewrite generation_run, Hpath, Hsf. done.
Qed.

(** X2: when the target path is free and the template engine fails, every
    generator ends in the renderer's error; the disk is as it was before,
    and the only effects are the existence check and the rendering: the
    new file is not created. *)
Theorem render_failure_writes_nothing kind options w :
  disk w !! joinPath (filePath options) = None →
  eta (templateName kind) (input options) = None →
  generator joinPath eta parse elementsOf importable kind options w =
    (inl (RenderError (templateName kind)),
     mkWorld (disk w) (projectAtRender kind w)
       (trace w ++ [ExistsSync (joinPath (filePath options));
                    RenderAsync (templateName kind)])).
Proof. intros Hfree Heta. by rewrite generation_run, Hfree, Heta. Qed.

(** X3: whatever the kind, the request and the outcome, a generation
    removes no file, and a file whose content differs afterwards is
    either the target, which did not exist before, or the registry file
    of a registered kind after a successful generation. *)
Theorem generation_changes_only_target_and_registry kind options w r w' :
  generator joinPath eta parse elementsOf importable kind options w = (r, w') →
  (∀ q, is_Some (disk w !! q) → is_Some (disk w' !! q)) ∧
  (∀ q, disk w' !! q ≠ disk w !! q →
     q = joinPath (filePath options) ∧ disk w !! q = None ∨
     q = registryPath joinPath kind ∧ isRegistered kind = true ∧ r = inr tt).
Proof.
  rewrite generation_run.
  destruct (disk w !! joinPath (filePath options)) as [?|] eqn:Hfree.
  { intros ?; simplify_eq/=. split; [done|]. by intros q []. }
  destruct (eta (templateName kind) (input options)) as [content|].
  2: { intros ?; simplify_eq/=. split; [done|]. by intros q []. }
  intros (evs & _ & _ & [[-> _]|(-> & Hk & sf' & ->)])%registration_outcome;
    simpl.
  - split.
    + intros q Hq.
      destruct (decide (q = joinPath (filePath options))) as [->|Hne];
        [rewrite lookup_insert_eq; eauto|by rewrite lookup_insert_ne].
    + intros q Hq. left.
      destruct (decide (q = joinPath (filePath options))) as [->|Hne];
        [done|]. by rewrite lookup_insert_ne in Hq.
  - split.
    + intros q Hq.
      destruct (decide (q = registryPath joinPath kind)) as [->|Hne1];
        [rewrite lookup_insert_eq; eauto|].
      rewrite lookup_insert_ne by done.
      destruct (decide (q = joinPath (filePath options))) as [->|Hne];
        [rewrite lookup_insert_eq; eauto|by rewrite lookup_insert_ne].
    + intros q Hq.
      destruct (decide (q = registryPath joinPath kind)) as [->|Hne1];
        [by right|].
      rewrite lookup_insert_ne in Hq by done. left.
      destruct (decide (q = joinPath (filePath options))) as [->|Hne];
        [done|]. by rewrite lookup_insert_ne in Hq.
Qed.

(** X4: whatever the kind, the request and the outcome, the first effect
    of a generation is the existence check of its target path, and every
    later effect is the rendering of the kind's template, the existence
    check or the write of the target, or, for a registered kind, the read
    or the write of its registry file.  No other file is ever probed,
    read or written, and no other template rendered. *)
Theorem generation_effects kind options w r w' :
  generator joinPath eta parse elementsOf importable kind options w = (r, w') →
  ∃ evs,
    trace w' = trace w ++ ExistsSync (joinPath (filePath options)) :: evs ∧
    Forall (allowedEffect joinPath kind options) evs.
Proof.
  rewrite generation_run.
  destruct (disk w !! joinPath (filePath options)) as [?|] eqn:Hfree.
  { intros ?; simplify_eq/=. by exists []. }
  destruct (eta (templateName kind) (input options)) as [content|].
  2: { intros ?; simplify_eq/=. exists [RenderAsync (templateName kind)].
       split; [done|]. repeat constructor. }
  intros (evs & Ht & Hevs & _)%registration_outcome.
  exists ([RenderAsync (templateName kind);
           ExistsSync (joinPath (filePath options));
           WriteFile (joinPath (filePath options))] ++ evs).
  split.
  - rewrite Ht. simpl. by rewrite <- app_assoc.
  - apply Forall_app. split.
    + rewrite !Forall_cons, Forall_nil. unfold allowedEffect. auto 10.
    + eapply Forall_impl; [exact Hevs|].
      intros ev [Hk Hev]. unfold allowedEffect. auto.
Qed.

(** X5: a generation starts from a project of its own: whatever trees an
    earlier call left in memory, the result, the disk and the trace of a
    generation are the same. *)
Theorem generation_ignores_earlier_project kind options w pr :
  (generator joinPath eta parse elementsOf importable kind options
     (withProject pr w)).1
    = (generator joinPath eta parse elementsOf importable kind options w).1 ∧
  disk (generator joinPath eta parse elementsOf importable kind options
          (withProject pr w)).2
    = disk (generator joinPath eta parse elementsOf importable kind options
              w).2 ∧
  trace (generator joinPath eta parse elementsOf importable kind options
           (withProject pr w)).2
    = trace (generator joinPath eta parse elementsOf importable kind options
               w).2.
Proof.
  rewrite !generation_run. simpl.
  destruct (disk w !! joinPath (filePath options)); [done|].
  destruct (eta (templateName kind) (input options)); done.
Qed.

(** X6: on a project that has the module file, a controller, service or
    repository generation succeeds exactly when the target path is free,
    the template renders, the module file has the [AppModule] class with
    a [Module] decorator whose first argument is an object literal in
    which the property is either assigned an array literal or not a
    property assignment at all, the input bag names the symbol, the
    import of the symbol can be added and, when there is an array to
    append to, the element text fits into it. *)
Theorem module_generation_succeeds_iff kind options w sf :
  isModuleKind kind = true →
  disk w !! joinPath "app/module.ts" = Some sf →
  (∃ w',
     generator joinPath eta parse elementsOf importable kind options w =
       (inr tt, w')) ↔
  disk w !! joinPath (filePath options) = None ∧
  is_Some (eta (templateName kind) (input options)) ∧
  registrable (propertyKey kind) sf ∧
  ∃ symbol,
    input options !! symbolKey kind = Some symbol ∧
    importable (registeredImport kind options symbol) = true ∧
    (is_Some (moduleArray (propertyKey kind) sf) →
     is_Some (elementsOf (registeredElement kind options symbol))).
Proof.
  intros Hk Hreg. split.
  - intros [w' Hok].
    destruct (module_success_inversion joinPath eta parse elementsOf
                importable _ _ _ _ _ Hk Hreg Hok)
      as (content & symbol & ci & ds & di & d & ps
          & Hfree & Heta & Hsym & Hc & Hd & Ha & Hable & Hcases).
    split; [done|]. split; [eauto|]. split.
    + exists ci, ds, di, d, ps. repeat (split; [done|]).
      destruct Hcases as [(pi & k & els & new & Hp & _)|[Hp _]]; eauto 10.
    + exists symbol. split; [done|]. split; [done|].
      destruct Hcases as [(pi & k & els & new & Hp & Hnew & _)|[Hp _]];
        [eauto|].
      intros [els Harr]. exfalso.
      apply moduleArray_Some in Harr
        as (? & ? & ? & ? & ? & ? & ? & ? & ? & ? & Hp').
      simplify_eq. by rewrite Hp' in Hp.
  - intros (Hfree & [content Heta]
            & (ci & ds & di & d & ps & Hc & Hd & Ha & Hp)
            & symbol & Hsym & Hable & Hfits).
    assert (joinPath "app/module.ts" ≠ joinPath (filePath options)) as Hne
      by (intros Heq; rewrite Heq in Hreg; congruence).
    rewrite (module_generation_run _ _ _ _ _ _ _ _ Hk), Hfree, Heta.
    destruct (elementText_symbol _ _ _ Hk Hsym) as [-> ->].
    replace (registeredImport kind options symbol)
      with (mkImport None [symbol]
              (importFolder kind +:+ fileNameWithoutEx options)) in *
      by (by destruct kind).
    destruct Hp as [Hp|(pi & k & els & Hp)].
    + rewrite (registerInModule_skip _ _ _ _ _ _ _ _ sf ci ds di d ps);
        [eauto|done|by apply newFileWorld_project
        |by rewrite newFileWorld_disk|done..].
    + destruct Hfits as [new Hnew].
      { exists els. unfold moduleArray. rewrite Hc. simpl. rewrite Hd. simpl.
        rewrite Ha. simpl. by rewrite Hp. }
      rewrite (registerInModule_append _ _ _ _ _ new _ _ _ sf
                 ci ds di d ps pi k els);
        [eauto|done|done|by apply newFileWorld_project
        |by rewrite newFileWorld_disk|done..].
Qed.

(** X7: on a project that has the barrel file, a configuration generation
    succeeds exactly when the target path is free, the template renders,
    the import of the file name can be added, and the barrel file either
    has no default export or default-exports an array literal into which
    the file name fits.  A default export of any other shape makes the
    generation fail. *)
Theorem config_generation_succeeds_iff options w sf :
  disk w !! joinPath "config/index.ts" = Some sf →
  (∃ w',
     createConfigFile joinPath eta parse elementsOf importable options w =
       (inr tt, w')) ↔
  disk w !! joinPath (filePath options) = None ∧
  is_Some (eta "config" (input options)) ∧
  importable
    (mkImport (Some (fileNameWithoutEx options)) []
       ("./" +:+ fileNameWithoutEx options)) = true ∧
  exportsArrayOrNothing sf ∧
  (is_Some (exportedArray sf) →
   is_Some (elementsOf (fileNameWithoutEx options))).
Proof.
  intros Hreg. split.
  - intros [w' Hok].
    destruct (config_success_inversion joinPath eta parse elementsOf
                importable _ _ _ _ Hreg Hok)
      as (content & Hfree & Heta & Hable & Hcases).
    split; [done|]. split; [eauto|]. split; [done|].
    unfold exportsArrayOrNothing, exportedArray.
    destruct Hcases as [[-> _]|(k & els & new & -> & Hnew & _)].
    + split; [done|]. by intros [? ?].
    + split; [done|]. eauto.
  - intros (Hfree & [content Heta] & Hable & Hshape & Hfits).
    assert (joinPath "config/index.ts" ≠ joinPath (filePath options)) as Hne
      by (intros Heq; rewrite Heq in Hreg; congruence).
    unfold exportsArrayOrNothing in Hshape.
    destruct (getExportAssignment sf) as [[k [els| |]]|] eqn:He; try done.
    + assert (exportedArray sf = Some els) as Harr
        by (unfold exportedArray; by rewrite He).
      destruct Hfits as [new Hnew]; [eauto|].
      destruct (config_generation_appends joinPath eta parse elementsOf
                  importable _ _ _ _ _ _ Hnew Hable Hfree Heta Hreg Harr)
        as (? & _ & ->).
      eauto.
    + rewrite config_generation_run, Hfree, Heta.
      rewrite (registerInIndex_no_export _ _ _ _ _ sf);
        [eauto|done|by apply newFileWorld_project
        |by rewrite newFileWorld_disk|done].
Qed.

(** X8: a controller, service or repository generation whose target is
    free and whose template renders fails, after it has written the new
    file, when the module file is missing (file-not-found error), and,
    once the module file is read, when it has no [AppModule] class, when
    the class has no [Module] decorator, when the decorator has no
    argument (type error), or when its first argument is not an object
    literal.  In each case the disk holds the new file and is otherwise
    as it was before. *)
Theorem module_precondition_failures kind options w content :
  isModuleKind kind = true →
  disk w !! joinPath (filePath options) = None →
  eta (templateName kind) (input options) = Some content →
  joinPath "app/module.ts" ≠ joinPath (filePath options) →
  let run :=
    generator joinPath eta parse elementsOf importable kind options w in
  let written := newFileWorld joinPath parse kind options content w in
  let loaded sf := loadedWorld (joinPath "app/module.ts") sf written in
  (disk w !! joinPath "app/module.ts" = None →
     run = (inl (FileNotFoundError (joinPath "app/module.ts")), written)) ∧
  (∀ sf,
     disk w !! joinPath "app/module.ts" = Some sf →
     getClass sf "AppModule" = None →
     run = (inl (InvalidOperationError "expected to find class"),
            loaded sf)) ∧
  (∀ sf ci ds,
     disk w !! joinPath "app/module.ts" = Some sf →
     getClass sf "AppModule" = Some (ci, ds) →
     getDecorator ds "Module" = None →
     run = (inl (InvalidOperationError "expected to find decorator"),
            loaded sf)) ∧
  (∀ sf ci ds di d,
     disk w !! joinPath "app/module.ts" = Some sf →
     getClass sf "AppModule" = Some (ci, ds) →
     getDecorator ds "Module" = Some (di, d) →
     getArguments d !! 0 = None →
     run = (inl (TypeError "argument is undefined"), loaded sf)) ∧
  (∀ sf ci ds di d arg,
     disk w !! joinPath "app/module.ts" = Some sf →
     getClass sf "AppModule" = Some (ci, ds) →
     getDecorator ds "Module" = Some (di, d) →
     getArguments d !! 0 = Some arg →
     (∀ ps, arg ≠ ObjectLiteralExpression ps) →
     run = (inl (InvalidOperationError "expected ObjectLiteralExpression"),
            loaded sf)).
Proof.
  intros Hk Hfree Heta Hne. cbn zeta.
  rewrite (module_generation_run _ _ _ _ _ _ _ _ Hk), Hfree, Heta.
  unfold registerInModule, registerInModuleFile, loadedWorld, newFileWorld.
  eff_unfold. simpl.
  rewrite lookup_singleton_ne, lookup_insert_ne by done.
  repeat split.
  - by intros ->.
  - intros sf -> Hc. simpl. rewrite lookup_insert_eq. simpl. by rewrite Hc.
  - intros sf ci ds -> Hc Hd. simpl. rewrite lookup_insert_eq. simpl.
    rewrite Hc. simpl. by rewrite Hd.
  - intros sf ci ds di d -> Hc Hd Ha. simpl. rewrite lookup_insert_eq. simpl.
    rewrite Hc. simpl. rewrite Hd. simpl. by rewrite Ha.
  - intros sf ci ds di d arg -> Hc Hd Ha Harg. simpl.
    rewrite lookup_insert_eq. simpl.
    rewrite Hc. simpl. rewrite Hd. simpl. rewrite Ha. simpl.
    destruct arg as [|ps|]; [done|by destruct (Harg ps)|done].
Qed.

(** X9: a configuration generation whose target is free and whose
    template renders fails, after it has written the new file, when the
    barrel file is missing (file-not-found error); when the import of
    the file name cannot be added, whatever the barrel file exports; and,
    the import being added, when the barrel file has a default export
    that is not an array literal: the import is then added in memory
    only.  In each case the barrel file on disk stays as it was. *)
Theorem config_registration_failures options w content :
  disk w !! joinPath (filePath options) = None →
  eta "config" (input options) = Some content →
  joinPath "config/index.ts" ≠ joinPath (filePath options) →
  let run :=
    createConfigFile joinPath eta parse elementsOf importable options w in
  let written :=
    newFileWorld joinPath parse Configuration options content w in
  (disk w !! joinPath "config/index.ts" = None →
     run = (inl (FileNotFoundError (joinPath "config/index.ts")), written)) ∧
  (∀ sf,
     disk w !! joinPath "config/index.ts" = Some sf →
     importable
       (mkImport (Some (fileNameWithoutEx options)) []
          ("./" +:+ fileNameWithoutEx options)) = false →
     ∃ w',
       run =
         (inl (NotImplementedError "an import declaration was expected"),
          w') ∧
       disk w' = disk written ∧
       trace w' = trace written ++ [ReadFile (joinPath "config/index.ts")]) ∧
  (∀ sf k e,
     disk w !! joinPath "config/index.ts" = Some sf →
     importable
       (mkImport (Some (fileNameWithoutEx options)) []
          ("./" +:+ fileNameWithoutEx options)) = true →
     getExportAssignment sf = Some (k, e) →
     (∀ els, e ≠ ArrayLiteralExpression els) →
     run =
       (inl (InvalidOperationError "expected ArrayLiteralExpression"),
        loadedWorld (joinPath "config/index.ts")
          (insertImportDeclaration
             (mkImport (Some (fileNameWithoutEx options)) []
                ("./" +:+ fileNameWithoutEx options)) sf)
          written)).
Proof.
  intros Hfree Heta Hne. cbn zeta.
  rewrite config_generation_run, Hfree, Heta.
  split; [|split].
  - unfold registerInIndex, registerInIndexFile, newFileWorld.
    eff_unfold. simpl.
    rewrite lookup_singleton_ne, lookup_insert_ne by done.
    by intros ->.
  - intros sf Hreg Hable.
    rewrite (registerInIndex_unimportable _ _ _ _ _ sf);
      [|done|by apply newFileWorld_project|by rewrite newFileWorld_disk].
    eexists. split; [done|]. done.
  - intros sf k e Hreg Hable He Hnot.
    unfold registerInIndex, registerInIndexFile, loadedWorld, newFileWorld.
    eff_unfold. simpl.
    rewrite lookup_singleton_ne, lookup_insert_ne by done.
    rewrite Hreg. simpl. rewrite Hable. simpl.
    rewrite !alter_insert_eq, !lookup_insert_eq. simpl.
    rewrite getExportAssignment_insertImportDeclaration, He. simpl.
    destruct e as [els| |]; [by destruct (Hnot els)|..];
      by rewrite ?insert_insert_eq.
Qed.

(** X10: a successful generation of a registered kind, on a project that
    has the registry file, puts its import declaration behind every
    import declaration the registry file had: the imports of the saved
    file are the former ones, in their order, followed by the new one.
    The one exception is the configuration generation on a barrel file
    without default export, which saves nothing. *)
Theorem new_import_follows_the_others kind options w w' sf :
  isRegistered kind = true →
  disk w !! registryPath joinPath kind = Some sf →
  generator joinPath eta parse elementsOf importable kind options w =
    (inr tt, w') →
  ∃ symbol sf',
    symbolOf kind options = Some symbol ∧
    disk w' !! registryPath joinPath kind = Some sf' ∧
    (importsOf sf' = importsOf sf ++ [registeredImport kind options symbol] ∨
     kind = Configuration ∧ getExportAssignment sf = None ∧ sf' = sf).
Proof.
  intros Hk Hreg Hok.
  destruct (decide (kind = Configuration)) as [->|Hc].
  - cbn [generator registryPath symbolOf] in *.
    destruct (config_success_inversion joinPath eta parse elementsOf
                importable _ _ _ _ Hreg Hok)
      as (content & Hfree & Heta & Hable & Hcases).
    assert (joinPath "config/index.ts" ≠ joinPath (filePath options)) as Hne
      by (intros Heq; rewrite Heq in Hreg; congruence).
    exists (fileNameWithoutEx options).
    destruct Hcases as [[He ->]|(k & els & new & He & Hnew & ->)].
    + exists sf. split; [done|]. rewrite lookup_insert_ne by done. auto.
    + eexists. split; [done|]. rewrite lookup_insert_eq. split; [done|].
      left. by rewrite importsOf_appendElementsAt,
                 importsOf_insertImportDeclaration.
  - assert (isModuleKind kind = true) as Hm by (by destruct kind).
    rewrite registryPath_module in * by done.
    destruct (module_success_inversion joinPath eta parse elementsOf importable
                _ _ _ _ _
                Hm Hreg Hok)
      as (content & symbol & ci & ds & di & d & ps
          & Hfree & Heta & Hsym & _ & _ & _ & _ & Hcases).
    exists symbol.
    replace (symbolOf kind options) with (input options !! symbolKey kind)
      by (by destruct kind).
    destruct Hcases as [(pi & k & els & new & _ & _ & ->)|[_ ->]];
      eexists; (split; [done|]); rewrite lookup_insert_eq;
      (split; [done|]); left.
    + by rewrite importsOf_insertImportDeclaration, importsOf_appendElementsAt.
    + by rewrite importsOf_insertImportDeclaration.
Qed.

(** X11: a successful generation of a registered kind, on a project that
    has the registry file, performs its effects in this order: existence
    check of the target, rendering, existence check of the
    non-overwriting creation, write of the new file, read of the registry
    file, write of the registry file.  The new file is on disk before the
    registry file is even read.  The configuration generation on a barrel
    file without default export stops after the read. *)
Theorem successful_generation_effect_order kind options w w' sf :
  isRegistered kind = true →
  disk w !! registryPath joinPath kind = Some sf →
  generator joinPath eta parse elementsOf importable kind options w =
    (inr tt, w') →
  ∃ saved,
    trace w' =
      trace w ++ [ExistsSync (joinPath (filePath options));
                  RenderAsync (templateName kind);
                  ExistsSync (joinPath (filePath options));
                  WriteFile (joinPath (filePath options));
                  ReadFile (registryPath joinPath kind)] ++ saved ∧
    (saved = [WriteFile (registryPath joinPath kind)] ∨
     kind = Configuration ∧ getExportAssignment sf = None ∧ saved = []).
Proof.
  intros Hk Hreg Hok.
  assert (registryPath joinPath kind ≠ joinPath (filePath options)) as Hne.
  { intros Heq. rewrite Heq in Hreg. rewrite generation_run, Hreg in Hok.
    done. }
  destruct (decide (kind = Configuration)) as [->|Hc].
  - cbn [generator registryPath templateName] in *.
    destruct (config_success_inversion joinPath eta parse elementsOf
                importable _ _ _ _ Hreg Hok)
      as (content & Hfree & Heta & Hable & Hcases).
    destruct Hcases as [[He _]|(k & els & new & He & Hnew & _)].
    + exists []. split; [|auto].
      rewrite config_generation_run, Hfree, Heta in Hok.
      rewrite (registerInIndex_no_export _ _ _ _ _ sf) in Hok;
        [|done|by apply newFileWorld_project|by rewrite newFileWorld_disk
         |done].
      simplify_eq. simpl. by rewrite <- app_assoc.
    + exists [WriteFile (joinPath "config/index.ts")]. split; [|auto].
      assert (exportedArray sf = Some els) as Harr
        by (unfold exportedArray; by rewrite He).
      destruct (config_generation_appends joinPath eta parse elementsOf
                  importable _ _ _ _ _ _ Hnew Hable Hfree Heta Hreg Harr)
        as (? & _ & Hrun).
      rewrite Hrun in Hok. simplify_eq. simpl. by rewrite <- app_assoc.
  - assert (isModuleKind kind = true) as Hm by (by destruct kind).
    rewrite registryPath_module in * by done.
    exists [WriteFile (joinPath "app/module.ts")]. split; [|auto].
    destruct (module_success_inversion joinPath eta parse elementsOf importable
                _ _ _ _ _
                Hm Hreg Hok)
      as (content & symbol & ci & ds & di & d & ps
          & Hfree & Heta & Hsym & Hcl & Hd & Ha & Hable & Hcases).
    rewrite (module_generation_run _ _ _ _ _ _ _ _ Hm), Hfree, Heta in Hok.
    destruct (elementText_symbol _ _ _ Hm Hsym) as [Hel Himp].
    rewrite Hel, Himp in Hok.
    replace (registeredImport kind options symbol)
      with (mkImport None [symbol]
              (importFolder kind +:+ fileNameWithoutEx options)) in *
      by (by destruct kind).
    destruct Hcases as [(pi & k & els & new & Hp & Hnew & _)|[Hp _]].
    + rewrite (registerInModule_append _ _ _ _ _ new _ _ _ sf
                 ci ds di d ps pi k els) in Hok;
        [|done|done|by apply newFileWorld_project
         |by rewrite newFileWorld_disk|done..].
      simplify_eq. simpl. by rewrite <- app_assoc.
    + rewrite (registerInModule_skip _ _ _ _ _ _ _ _ sf ci ds di d ps)
        in Hok;
        [|done|by apply newFileWorld_project|by rewrite newFileWorld_disk
         |done..].
      simplify_eq. simpl. by rewrite <- app_assoc.
Qed.

(** X12: a generation of a registered kind, on a registry file that has
    the array, whose element text does not fit into the array (for the
    configuration kind the import of the file name, which comes first,
    being added) fails when it appends: the new file is written, the
    registry file is read, and nothing else is written, so the registry
    file on disk stays as it was. *)
Theorem unfit_element_fails_after_new_file kind options w content sf els
    symbol :
  isRegistered kind = true →
  disk w !! joinPath (filePath options) = None →
  eta (templateName kind) (input options) = Some content →
  disk w !! registryPath joinPath kind = Some sf →
  registryArray kind sf = Some els →
  symbolOf kind options = Some symbol →
  elementsOf (registeredElement kind options symbol) = None →
  (kind = Configuration →
   importable (registeredImport kind options symbol) = true) →
  ∃ w',
    generator joinPath eta parse elementsOf importable kind options w =
      (inl (ManipulationError "the inserted text does not fit"), w') ∧
    disk w' = <[joinPath (filePath options) := parse content]> (disk w) ∧
    trace w' = trace w ++ [ExistsSync (joinPath (filePath options));
                           RenderAsync (templateName kind);
                           ExistsSync (joinPath (filePath options));
                           WriteFile (joinPath (filePath options));
                           ReadFile (registryPath joinPath kind)].
Proof.
  intros Hk Hfree Heta Hreg Harr Hsym Hnew Hable.
  assert (registryPath joinPath kind ≠ joinPath (filePath options)) as Hne
    by (intros Heq; rewrite Heq in Hreg; congruence).
  destruct (decide (kind = Configuration)) as [->|Hc].
  - cbn [generator registryPath registryArray symbolOf templateName
           registeredElement registeredImport] in *.
    simplify_eq. specialize (Hable eq_refl).
    apply exportedArray_Some in Harr as [k He].
    rewrite config_generation_run, Hfree, Heta.
    rewrite (registerInIndex_unfit _ _ _ _ _ sf
               (shifted (importInsertIndex sf) k) els);
      [|done|done|by apply newFileWorld_project
       |by rewrite newFileWorld_disk
       |by rewrite getExportAssignment_insertImportDeclaration, He].
    eexists. split; [done|]. simpl. by rewrite <- app_assoc.
  - assert (isModuleKind kind = true) as Hm by (by destruct kind).
    rewrite registryPath_module in * by done.
    rewrite registryArray_module in Harr by done.
    replace (symbolOf kind options)
      with (input options !! symbolKey kind) in Hsym by (by destruct kind).
    destruct (moduleArray_Some _ _ _ Harr)
      as (ci & ds & di & d & ps & pi & k & Hcl & Hd & Ha & Hp).
    rewrite (module_generation_run _ _ _ _ _ _ _ _ Hm), Hfree, Heta.
    destruct (elementText_symbol _ _ _ Hm Hsym) as [-> ->].
    rewrite (registerInModule_unfit _ _ _ _ _ _ _ _ sf
               ci ds di d ps pi k els); try done.
    + eexists. split; [done|]. simpl. by rewrite <- app_assoc.
    + by apply newFileWorld_project.
    + by rewrite newFileWorld_disk.
Qed.

End Further.

(** * The further properties on the sample project *)

(** A service requested where a controller was just generated. *)
Lemma second_generation_collides_witness :
  let w' :=
    (generator Sample.joinPath Sample.eta Sample.parse Sample.elementsOf
       Sample.importable Controller Sample.widgetController
       Sample.world).2 in
  generator Sample.joinPath Sample.eta Sample.parse Sample.elementsOf
    Sample.importable Service Sample.serviceAtControllerPath w' =
    (inl (Error "app/controllers/widget.ts already exists"),
     mkWorld (disk w') (project w')
       (trace w' ++ [ExistsSync "/srv/app/app/controllers/widget.ts"])).
Proof.
  apply (second_generation_collides Sample.joinPath Sample.eta Sample.parse
           Sample.elementsOf Sample.importable
           Controller Service Sample.widgetController
           Sample.serviceAtControllerPath Sample.world).
  - vm_compute. reflexivity.
  - reflexivity.
Defined.

(** A controller requested while the templates are missing. *)
Lemma render_failure_writes_nothing_witness :
  generator Sample.joinPath Sample.brokenEta Sample.parse Sample.elementsOf
    Sample.importable Controller Sample.widgetController Sample.world =
    (inl (RenderError "controller"),
     mkWorld (disk Sample.world) ∅
       [ExistsSync "/srv/app/app/controllers/widget.ts";
        RenderAsync "controller"]).
Proof.
  apply (render_failure_writes_nothing Sample.joinPath Sample.brokenEta
           Sample.parse Sample.elementsOf Sample.importable
           Controller Sample.widgetController Sample.world);
    reflexivity.
Defined.

(** The controller generation of the sample project, file by file. *)
Lemma generation_changes_only_target_and_registry_witness :
  let w' :=
    (generator Sample.joinPath Sample.eta Sample.parse Sample.elementsOf
       Sample.importable Controller Sample.widgetController
       Sample.world).2 in
  (∀ q, is_Some (disk Sample.world !! q) → is_Some (disk w' !! q)) ∧
  (∀ q, disk w' !! q ≠ disk Sample.world !! q →
     q = "/srv/app/app/controllers/widget.ts"
       ∧ disk Sample.world !! q = None ∨
     q = "/srv/app/app/module.ts" ∧ isRegistered Controller = true
       ∧ (inr tt : Exn + unit) = inr tt).
Proof.
  apply (generation_changes_only_target_and_registry Sample.joinPath
           Sample.eta Sample.parse Sample.elementsOf Sample.importable
           Controller Sample.widgetController Sample.world (inr tt)).
  vm_compute. reflexivity.
Defined.

(** The controller generation of the sample project, effect by effect. *)
Lemma generation_effects_witness :
  ∃ evs,
    trace (generator Sample.joinPath Sample.eta Sample.parse
             Sample.elementsOf Sample.importable Controller
             Sample.widgetController Sample.world).2
      = [] ++ ExistsSync "/srv/app/app/controllers/widget.ts" :: evs ∧
    Forall (allowedEffect Sample.joinPath Controller Sample.widgetController)
      evs.
Proof.
  apply (generation_effects Sample.joinPath Sample.eta Sample.parse
           Sample.elementsOf Sample.importable
           Controller Sample.widgetController Sample.world (inr tt)).
  vm_compute. reflexivity.
Defined.

(** The sample module file is fit for a controller; for the repository
    bound to the token [O'Brien] it is not, as the binding does not fit
    into the array. *)
Lemma module_generation_succeeds_iff_witness :
  (∃ w',
     generator Sample.joinPath Sample.eta Sample.parse Sample.elementsOf
       Sample.importable Controller Sample.widgetController Sample.world =
       (inr tt, w')) ∧
  ¬ (∃ w',
       generator Sample.joinPath Sample.eta Sample.parse Sample.elementsOf
         Sample.importable Repository Sample.quotedRepository Sample.world =
         (inr tt, w')).
Proof.
  split.
  - apply (proj2 (module_generation_succeeds_iff Sample.joinPath Sample.eta
                    Sample.parse Sample.elementsOf Sample.importable
                    Controller Sample.widgetController
                    Sample.world Sample.moduleTree eq_refl eq_refl)).
    split; [reflexivity|]. split; [eexists; reflexivity|].
    split.
    + exists 2, [Sample.moduleDecorator], 0, Sample.moduleDecorator,
        Sample.moduleProperties.
      split; [reflexivity|]. split; [reflexivity|]. split; [reflexivity|].
      right. exists 1, "controllers", ["UserController"]. reflexivity.
    + exists "WidgetController".
      split; [reflexivity|]. split; [reflexivity|].
      intros _. eexists. reflexivity.
  - intros Hok.
    apply (proj1 (module_generation_succeeds_iff Sample.joinPath Sample.eta
                    Sample.parse Sample.elementsOf Sample.importable
                    Repository Sample.quotedRepository
                    Sample.world Sample.moduleTree eq_refl eq_refl)) in Hok.
    destruct Hok as (_ & _ & _ & symbol & Hsym & _ & Hfits).
    injection Hsym as <-.
    destruct Hfits as [new Hnew]; [eexists; reflexivity|].
    discriminate Hnew.
Defined.

(** The sample barrel file is fit for a configuration; one that exports
    an object is not, and nor is the sample barrel file for the file
    name [my-queue]. *)
Lemma config_generation_succeeds_iff_witness :
  (∃ w',
     createConfigFile Sample.joinPath Sample.eta Sample.parse
       Sample.elementsOf Sample.importable
       Sample.queueConfig Sample.world = (inr tt, w')) ∧
  ¬ (∃ w',
       createConfigFile Sample.joinPath Sample.eta Sample.parse
         Sample.elementsOf Sample.importable
         Sample.queueConfig Sample.objectIndexWorld = (inr tt, w')) ∧
  ¬ (∃ w',
       createConfigFile Sample.joinPath Sample.eta Sample.parse
         Sample.elementsOf Sample.importable
         Sample.hyphenConfig Sample.world = (inr tt, w')).
Proof.
  split; [|split].
  - apply (proj2 (config_generation_succeeds_iff Sample.joinPath Sample.eta
                    Sample.parse Sample.elementsOf Sample.importable
                    Sample.queueConfig Sample.world
                    Sample.indexTree eq_refl)).
    split; [reflexivity|]. split; [eexists; reflexivity|].
    split; [reflexivity|]. split; [exact I|].
    intros _. eexists. reflexivity.
  - intros Hok.
    apply (proj1 (config_generation_succeeds_iff Sample.joinPath Sample.eta
                    Sample.parse Sample.elementsOf Sample.importable
                    Sample.queueConfig Sample.objectIndexWorld
                    Sample.objectIndexTree eq_refl)) in Hok.
    apply Hok.
  - intros Hok.
    apply (proj1 (config_generation_succeeds_iff Sample.joinPath Sample.eta
                    Sample.parse Sample.elementsOf Sample.importable
                    Sample.hyphenConfig Sample.world
                    Sample.indexTree eq_refl)) in Hok.
    destruct Hok as (_ & _ & Hable & _). discriminate Hable.
Defined.

(** A service requested in a project without module file, and in one
    whose module class is not decorated. *)
Lemma module_precondition_failures_witness :
  generator Sample.joinPath Sample.eta Sample.parse Sample.elementsOf
    Sample.importable Service Sample.widgetService Sample.emptyWorld =
    (inl (FileNotFoundError "/srv/app/app/module.ts"),
     newFileWorld Sample.joinPath Sample.parse Service Sample.widgetService
       "// rendered from service" Sample.emptyWorld) ∧
  generator Sample.joinPath Sample.eta Sample.parse Sample.elementsOf
    Sample.importable Service Sample.widgetService Sample.undecoratedWorld =
    (inl (InvalidOperationError "expected to find decorator"),
     loadedWorld "/srv/app/app/module.ts" Sample.undecoratedModuleTree
       (newFileWorld Sample.joinPath Sample.parse Service
          Sample.widgetService "// rendered from service"
          Sample.undecoratedWorld)).
Proof.
  split.
  - apply (proj1 (module_precondition_failures Sample.joinPath Sample.eta
                    Sample.parse Sample.elementsOf Sample.importable
                    Service Sample.widgetService
                    Sample.emptyWorld "// rendered from service"
                    eq_refl eq_refl eq_refl ltac:(discriminate))).
    reflexivity.
  - apply (proj1 (proj2 (proj2
             (module_precondition_failures Sample.joinPath Sample.eta
                Sample.parse Sample.elementsOf Sample.importable
                Service Sample.widgetService
                Sample.undecoratedWorld "// rendered from service"
                eq_refl eq_refl eq_refl ltac:(discriminate))))
             Sample.undecoratedModuleTree 0 []); reflexivity.
Defined.

(** A configuration requested in a project without barrel file, in
    one whose barrel file exports an object, and under the file name
    [my-queue]. *)
Lemma config_registration_failures_witness :
  createConfigFile Sample.joinPath Sample.eta Sample.parse
    Sample.elementsOf Sample.importable Sample.queueConfig Sample.emptyWorld =
    (inl (FileNotFoundError "/srv/app/config/index.ts"),
     newFileWorld Sample.joinPath Sample.parse Configuration
       Sample.queueConfig "// rendered from config" Sample.emptyWorld) ∧
  createConfigFile Sample.joinPath Sample.eta Sample.parse Sample.elementsOf
    Sample.importable Sample.queueConfig Sample.objectIndexWorld =
    (inl (InvalidOperationError "expected ArrayLiteralExpression"),
     loadedWorld "/srv/app/config/index.ts"
       [ ImportDeclaration (mkImport (Some "app") [] "./app");
         ImportDeclaration (mkImport (Some "queue") [] "./queue");
         ExportAssignment false
           (ObjectLiteralExpression [ShorthandPropertyAssignment "app"]) ]
       (newFileWorld Sample.joinPath Sample.parse Configuration
          Sample.queueConfig "// rendered from config"
          Sample.objectIndexWorld)) ∧
  (∃ w',
     createConfigFile Sample.joinPath Sample.eta Sample.parse
       Sample.elementsOf Sample.importable
       Sample.hyphenConfig Sample.world =
       (inl (NotImplementedError "an import declaration was expected"),
        w') ∧
     disk w' = <["/srv/app/config/my-queue.ts" :=
                   [OtherStatement "// rendered from config"]]>
                 (disk Sample.world) ∧
     trace w' = [ExistsSync "/srv/app/config/my-queue.ts";
                 RenderAsync "config";
                 ExistsSync "/srv/app/config/my-queue.ts";
                 WriteFile "/srv/app/config/my-queue.ts";
                 ReadFile "/srv/app/config/index.ts"]).
Proof.
  split; [|split].
  - apply (proj1 (config_registration_failures Sample.joinPath Sample.eta
                    Sample.parse Sample.elementsOf Sample.importable
                    Sample.queueConfig Sample.emptyWorld
                    "// rendered from config"
                    eq_refl eq_refl ltac:(discriminate))).
    reflexivity.
  - apply (proj2 (proj2 (config_registration_failures Sample.joinPath
                    Sample.eta Sample.parse Sample.elementsOf
                    Sample.importable
                    Sample.queueConfig Sample.objectIndexWorld
                    "// rendered from config"
                    eq_refl eq_refl ltac:(discriminate)))
             Sample.objectIndexTree 1
             (ObjectLiteralExpression [ShorthandPropertyAssignment "app"])).
    + reflexivity.
    + reflexivity.
    + reflexivity.
    + discriminate.
  - apply (proj1 (proj2 (config_registration_failures Sample.joinPath
                    Sample.eta Sample.parse Sample.elementsOf
                    Sample.importable
                    Sample.hyphenConfig Sample.world
                    "// rendered from config"
                    eq_refl eq_refl ltac:(discriminate)))
             Sample.indexTree).
    + reflexivity.
    + reflexivity.
Defined.

(** The imports of the sample module file after the controller
    generation. *)
Lemma new_import_follows_the_others_witness :
  ∃ symbol sf',
    input Sample.widgetController !! "controllerName" = Some symbol ∧
    disk (generator Sample.joinPath Sample.eta Sample.parse
            Sample.elementsOf Sample.importable Controller
            Sample.widgetController Sample.world).2
      !! "/srv/app/app/module.ts" = Some sf' ∧
    (importsOf sf' =
       [ mkImport None ["Module"] "@nestjs/common";
         mkImport None ["UserController"] "./controllers/user" ]
       ++ [mkImport None [symbol] "./controllers/widget"] ∨
     Controller = Configuration ∧
     getExportAssignment Sample.moduleTree = None ∧
     sf' = Sample.moduleTree).
Proof.
  apply (new_import_follows_the_others Sample.joinPath Sample.eta
           Sample.parse Sample.elementsOf Sample.importable
           Controller Sample.widgetController Sample.world
           (generator Sample.joinPath Sample.eta Sample.parse
              Sample.elementsOf Sample.importable Controller
              Sample.widgetController Sample.world).2
           Sample.moduleTree).
  - reflexivity.
  - reflexivity.
  - vm_compute. reflexivity.
Defined.

(** The effects of the controller generation of the sample project. *)
Lemma successful_generation_effect_order_witness :
  ∃ saved,
    trace (generator Sample.joinPath Sample.eta Sample.parse
             Sample.elementsOf Sample.importable Controller
             Sample.widgetController Sample.world).2 =
      [] ++ [ExistsSync "/srv/app/app/controllers/widget.ts";
             RenderAsync "controller";
             ExistsSync "/srv/app/app/controllers/widget.ts";
             WriteFile "/srv/app/app/controllers/widget.ts";
             ReadFile "/srv/app/app/module.ts"] ++ saved ∧
    (saved = [WriteFile "/srv/app/app/module.ts"] ∨
     Controller = Configuration ∧
     getExportAssignment Sample.moduleTree = None ∧ saved = []).
Proof.
  apply (successful_generation_effect_order Sample.joinPath Sample.eta
           Sample.parse Sample.elementsOf Sample.importable
           Controller Sample.widgetController Sample.world
           (generator Sample.joinPath Sample.eta Sample.parse
              Sample.elementsOf Sample.importable Controller
              Sample.widgetController Sample.world).2
           Sample.moduleTree).
  - reflexivity.
  - reflexivity.
  - vm_compute. reflexivity.
Defined.

(** The repository bound to the token [O'Brien], whose binding does not
    fit into the [providers] array. *)
Lemma unfit_element_fails_after_new_file_witness :
  ∃ w',
    generator Sample.joinPath Sample.eta Sample.parse Sample.elementsOf
      Sample.importable Repository Sample.quotedRepository Sample.world =
      (inl (ManipulationError "the inserted text does not fit"), w') ∧
    disk w' = <["/srv/app/app/repositories/widget.ts" :=
                  [OtherStatement "// rendered from repositoryDB"]]>
                (disk Sample.world) ∧
    trace w' = [ExistsSync "/srv/app/app/repositories/widget.ts";
                RenderAsync "repositoryDB";
                ExistsSync "/srv/app/app/repositories/widget.ts";
                WriteFile "/srv/app/app/repositories/widget.ts";
                ReadFile "/srv/app/app/module.ts"].
Proof.
  apply (unfit_element_fails_after_new_file Sample.joinPath Sample.eta
           Sample.parse Sample.elementsOf Sample.importable
           Repository Sample.quotedRepository Sample.world
           "// rendered from repositoryDB" Sample.moduleTree
           ["UserService"] "WidgetRepository").
  - reflexivity.
  - reflexivity.
  - reflexivity.
  - reflexivity.
  - reflexivity.
  - reflexivity.
  - reflexivity.
  - discriminate.
Defined.
